(** * dam-desktop: the monitoring and analysis pipeline

    A shallow embedding of the content analyzer (AIContentAnalyzer), the
    window classifier and notification gate (AIWindowDetector) and the
    per-tick pipeline of the monitoring orchestrator (MonitoringService),
    together with the properties of the specification that concern them;
    then the services around them: the window scanner (AIDetectionService),
    the notification preferences (NotificationSettings), the sessions and
    the content hash of the orchestrator, and the text extraction
    (OCRService).

    ECMAScript strings are sequences of UTF-16 code units; they are modelled
    as lists of [N], and lower-cased by code points with the case mappings
    of the Unicode Character Database.  Regular expressions are modelled by
    their syntax tree and the backtracking matcher of the ECMAScript
    specification, including the [lastIndex] cell that a regular expression
    with the [g] flag keeps between calls of [test].  Where the code
    computes with a random draw, the draw is a binary64 number and the
    product is rounded as Number::multiply rounds it.  An asynchronous call
    that goes on after the caller has returned is modelled by what it did
    before its [await] and by a separate step for the rest. *)

From Stdlib Require Import List NArith ZArith QArith Qround Bool String Ascii
  Lia.
Import ListNotations.
Close Scope Q_scope.

(* ================================================================== *)
(** ** ECMAScript strings *)
(* ================================================================== *)

Module JSString.

Definition char := N.
Definition jsstring := list char.

(** A string literal of the source, as code units. *)
Definition lit (s : string) : jsstring :=
  List.map N_of_ascii (list_ascii_of_string s).

Definition char_eqb (a b : char) : bool := N.eqb a b.

Definition is_digit (c : char) : bool := (48 <=? c)%N && (c <=? 57)%N.
Definition is_upper (c : char) : bool := (65 <=? c)%N && (c <=? 90)%N.
Definition is_lower (c : char) : bool := (97 <=? c)%N && (c <=? 122)%N.

(** [\w]: the word characters [A-Za-z0-9_]. *)
Definition is_word (c : char) : bool :=
  is_upper c || is_lower c || is_digit c || (c =? 95)%N.

(** LineTerminator: LF, CR, LS, PS. *)
Definition is_line_terminator (c : char) : bool :=
  (c =? 10)%N || (c =? 13)%N || (c =? 8232)%N || (c =? 8233)%N.

(** [\s] and [trim]: WhiteSpace and LineTerminator. *)
Definition is_space (c : char) : bool :=
  ((9 <=? c)%N && (c <=? 13)%N) || (c =? 32)%N || (c =? 160)%N ||
  (c =? 5760)%N || ((8192 <=? c)%N && (c <=? 8202)%N) ||
  (c =? 8232)%N || (c =? 8233)%N || (c =? 8239)%N || (c =? 8287)%N ||
  (c =? 12288)%N || (c =? 65279)%N.

(** The other case of an ASCII letter; any other code unit is unchanged. *)
Definition swapcase (c : char) : char :=
  if is_upper c then (c + 32)%N else if is_lower c then (c - 32)%N else c.

(** *** String.prototype.toLowerCase

    The result is derived from the locale-insensitive case mappings of the
    Unicode Character Database: the lower-case mappings of UnicodeData.txt
    and those of SpecialCasing.txt, which are the mapping of U+0130 to two
    code points and that of the capital sigma to the final small sigma.
    The tables are those of Unicode 14.0. *)

Definition is_high_surrogate (c : char) : bool :=
  (0xD800 <=? c)%N && (c <=? 0xDBFF)%N.
Definition is_low_surrogate (c : char) : bool :=
  (0xDC00 <=? c)%N && (c <=? 0xDFFF)%N.

Definition code_point (high low : char) : N :=
  (0x10000 + (high - 0xD800) * 0x400 + (low - 0xDC00))%N.

(** StringToCodePoints: a high surrogate followed by a low one is one code
    point, any other code unit is one by itself. *)
Fixpoint code_points (s : jsstring) : list N :=
  match s with
  | [] => []
  | c :: t =>
      match t with
      | c2 :: r =>
          if is_high_surrogate c && is_low_surrogate c2
          then code_point c c2 :: code_points r
          else c :: code_points t
      | [] => [c]
      end
  end.

(** CodePointsToString, for one code point. *)
Definition code_units (cp : N) : jsstring :=
  if (cp <? 0x10000)%N then [cp]
  else [(0xD800 + (cp - 0x10000) / 0x400)%N;
        (0xDC00 + (cp - 0x10000) mod 0x400)%N].

(** The lower-case mappings from U+0080 on, in runs [(first, last, pairs,
    image)]: the code point [first + i], up to [last], has the lower case
    [image + i]; in a run of pairs of a capital and its small letter only
    for even [i]. *)
Definition lower_runs : list (N * N * bool * N) :=
  [
   (0x00C0, 0x00D6, false, 0x00E0); (0x00D8, 0x00DE, false, 0x00F8);
   (0x0100, 0x012E, true, 0x0101); (0x0132, 0x0136, true, 0x0133);
   (0x0139, 0x0147, true, 0x013A); (0x014A, 0x0176, true, 0x014B);
   (0x0178, 0x0178, false, 0x00FF); (0x0179, 0x017D, true, 0x017A);
   (0x0181, 0x0181, false, 0x0253); (0x0182, 0x0184, true, 0x0183);
   (0x0186, 0x0186, false, 0x0254); (0x0187, 0x0187, false, 0x0188);
   (0x0189, 0x018A, false, 0x0256); (0x018B, 0x018B, false, 0x018C);
   (0x018E, 0x018E, false, 0x01DD); (0x018F, 0x018F, false, 0x0259);
   (0x0190, 0x0190, false, 0x025B); (0x0191, 0x0191, false, 0x0192);
   (0x0193, 0x0193, false, 0x0260); (0x0194, 0x0194, false, 0x0263);
   (0x0196, 0x0196, false, 0x0269); (0x0197, 0x0197, false, 0x0268);
   (0x0198, 0x0198, false, 0x0199); (0x019C, 0x019C, false, 0x026F);
   (0x019D, 0x019D, false, 0x0272); (0x019F, 0x019F, false, 0x0275);
   (0x01A0, 0x01A4, true, 0x01A1); (0x01A6, 0x01A6, false, 0x0280);
   (0x01A7, 0x01A7, false, 0x01A8); (0x01A9, 0x01A9, false, 0x0283);
   (0x01AC, 0x01AC, false, 0x01AD); (0x01AE, 0x01AE, false, 0x0288);
   (0x01AF, 0x01AF, false, 0x01B0); (0x01B1, 0x01B2, false, 0x028A);
   (0x01B3, 0x01B5, true, 0x01B4); (0x01B7, 0x01B7, false, 0x0292);
   (0x01B8, 0x01B8, false, 0x01B9); (0x01BC, 0x01BC, false, 0x01BD);
   (0x01C4, 0x01C4, false, 0x01C6); (0x01C5, 0x01C5, false, 0x01C6);
   (0x01C7, 0x01C7, false, 0x01C9); (0x01C8, 0x01C8, false, 0x01C9);
   (0x01CA, 0x01CA, false, 0x01CC); (0x01CB, 0x01DB, true, 0x01CC);
   (0x01DE, 0x01EE, true, 0x01DF); (0x01F1, 0x01F1, false, 0x01F3);
   (0x01F2, 0x01F4, true, 0x01F3); (0x01F6, 0x01F6, false, 0x0195);
   (0x01F7, 0x01F7, false, 0x01BF); (0x01F8, 0x021E, true, 0x01F9);
   (0x0220, 0x0220, false, 0x019E); (0x0222, 0x0232, true, 0x0223);
   (0x023A, 0x023A, false, 0x2C65); (0x023B, 0x023B, false, 0x023C);
   (0x023D, 0x023D, false, 0x019A); (0x023E, 0x023E, false, 0x2C66);
   (0x0241, 0x0241, false, 0x0242); (0x0243, 0x0243, false, 0x0180);
   (0x0244, 0x0244, false, 0x0289); (0x0245, 0x0245, false, 0x028C);
   (0x0246, 0x024E, true, 0x0247); (0x0370, 0x0372, true, 0x0371);
   (0x0376, 0x0376, false, 0x0377); (0x037F, 0x037F, false, 0x03F3);
   (0x0386, 0x0386, false, 0x03AC); (0x0388, 0x038A, false, 0x03AD);
   (0x038C, 0x038C, false, 0x03CC); (0x038E, 0x038F, false, 0x03CD);
   (0x0391, 0x03A1, false, 0x03B1); (0x03A3, 0x03AB, false, 0x03C3);
   (0x03CF, 0x03CF, false, 0x03D7); (0x03D8, 0x03EE, true, 0x03D9);
   (0x03F4, 0x03F4, false, 0x03B8); (0x03F7, 0x03F7, false, 0x03F8);
   (0x03F9, 0x03F9, false, 0x03F2); (0x03FA, 0x03FA, false, 0x03FB);
   (0x03FD, 0x03FF, false, 0x037B); (0x0400, 0x040F, false, 0x0450);
   (0x0410, 0x042F, false, 0x0430); (0x0460, 0x0480, true, 0x0461);
   (0x048A, 0x04BE, true, 0x048B); (0x04C0, 0x04C0, false, 0x04CF);
   (0x04C1, 0x04CD, true, 0x04C2); (0x04D0, 0x052E, true, 0x04D1);
   (0x0531, 0x0556, false, 0x0561); (0x10A0, 0x10C5, false, 0x2D00);
   (0x10C7, 0x10C7, false, 0x2D27); (0x10CD, 0x10CD, false, 0x2D2D);
   (0x13A0, 0x13EF, false, 0xAB70); (0x13F0, 0x13F5, false, 0x13F8);
   (0x1C90, 0x1CBA, false, 0x10D0); (0x1CBD, 0x1CBF, false, 0x10FD);
   (0x1E00, 0x1E94, true, 0x1E01); (0x1E9E, 0x1E9E, false, 0x00DF);
   (0x1EA0, 0x1EFE, true, 0x1EA1); (0x1F08, 0x1F0F, false, 0x1F00);
   (0x1F18, 0x1F1D, false, 0x1F10); (0x1F28, 0x1F2F, false, 0x1F20);
   (0x1F38, 0x1F3F, false, 0x1F30); (0x1F48, 0x1F4D, false, 0x1F40);
   (0x1F59, 0x1F5F, true, 0x1F51); (0x1F68, 0x1F6F, false, 0x1F60);
   (0x1F88, 0x1F8F, false, 0x1F80); (0x1F98, 0x1F9F, false, 0x1F90);
   (0x1FA8, 0x1FAF, false, 0x1FA0); (0x1FB8, 0x1FB9, false, 0x1FB0);
   (0x1FBA, 0x1FBB, false, 0x1F70); (0x1FBC, 0x1FBC, false, 0x1FB3);
   (0x1FC8, 0x1FCB, false, 0x1F72); (0x1FCC, 0x1FCC, false, 0x1FC3);
   (0x1FD8, 0x1FD9, false, 0x1FD0); (0x1FDA, 0x1FDB, false, 0x1F76);
   (0x1FE8, 0x1FE9, false, 0x1FE0); (0x1FEA, 0x1FEB, false, 0x1F7A);
   (0x1FEC, 0x1FEC, false, 0x1FE5); (0x1FF8, 0x1FF9, false, 0x1F78);
   (0x1FFA, 0x1FFB, false, 0x1F7C); (0x1FFC, 0x1FFC, false, 0x1FF3);
   (0x2126, 0x2126, false, 0x03C9); (0x212A, 0x212A, false, 0x006B);
   (0x212B, 0x212B, false, 0x00E5); (0x2132, 0x2132, false, 0x214E);
   (0x2160, 0x216F, false, 0x2170); (0x2183, 0x2183, false, 0x2184);
   (0x24B6, 0x24CF, false, 0x24D0); (0x2C00, 0x2C2F, false, 0x2C30);
   (0x2C60, 0x2C60, false, 0x2C61); (0x2C62, 0x2C62, false, 0x026B);
   (0x2C63, 0x2C63, false, 0x1D7D); (0x2C64, 0x2C64, false, 0x027D);
   (0x2C67, 0x2C6B, true, 0x2C68); (0x2C6D, 0x2C6D, false, 0x0251);
   (0x2C6E, 0x2C6E, false, 0x0271); (0x2C6F, 0x2C6F, false, 0x0250);
   (0x2C70, 0x2C70, false, 0x0252); (0x2C72, 0x2C72, false, 0x2C73);
   (0x2C75, 0x2C75, false, 0x2C76); (0x2C7E, 0x2C7F, false, 0x023F);
   (0x2C80, 0x2CE2, true, 0x2C81); (0x2CEB, 0x2CED, true, 0x2CEC);
   (0x2CF2, 0x2CF2, false, 0x2CF3); (0xA640, 0xA66C, true, 0xA641);
   (0xA680, 0xA69A, true, 0xA681); (0xA722, 0xA72E, true, 0xA723);
   (0xA732, 0xA76E, true, 0xA733); (0xA779, 0xA77B, true, 0xA77A);
   (0xA77D, 0xA77D, false, 0x1D79); (0xA77E, 0xA786, true, 0xA77F);
   (0xA78B, 0xA78B, false, 0xA78C); (0xA78D, 0xA78D, false, 0x0265);
   (0xA790, 0xA792, true, 0xA791); (0xA796, 0xA7A8, true, 0xA797);
   (0xA7AA, 0xA7AA, false, 0x0266); (0xA7AB, 0xA7AB, false, 0x025C);
   (0xA7AC, 0xA7AC, false, 0x0261); (0xA7AD, 0xA7AD, false, 0x026C);
   (0xA7AE, 0xA7AE, false, 0x026A); (0xA7B0, 0xA7B0, false, 0x029E);
   (0xA7B1, 0xA7B1, false, 0x0287); (0xA7B2, 0xA7B2, false, 0x029D);
   (0xA7B3, 0xA7B3, false, 0xAB53); (0xA7B4, 0xA7C2, true, 0xA7B5);
   (0xA7C4, 0xA7C4, false, 0xA794); (0xA7C5, 0xA7C5, false, 0x0282);
   (0xA7C6, 0xA7C6, false, 0x1D8E); (0xA7C7, 0xA7C9, true, 0xA7C8);
   (0xA7D0, 0xA7D0, false, 0xA7D1); (0xA7D6, 0xA7D8, true, 0xA7D7);
   (0xA7F5, 0xA7F5, false, 0xA7F6); (0xFF21, 0xFF3A, false, 0xFF41);
   (0x10400, 0x10427, false, 0x10428); (0x104B0, 0x104D3, false, 0x104D8);
   (0x10570, 0x1057A, false, 0x10597); (0x1057C, 0x1058A, false, 0x105A3);
   (0x1058C, 0x10592, false, 0x105B3); (0x10594, 0x10595, false, 0x105BB);
   (0x10C80, 0x10CB2, false, 0x10CC0); (0x118A0, 0x118BF, false, 0x118C0);
   (0x16E40, 0x16E5F, false, 0x16E60); (0x1E900, 0x1E921, false, 0x1E922)
  ]%N.

(** The code points with the property Case_Ignorable. *)
Definition case_ignorable_ranges : list (N * N) :=
  [
   (0x0027, 0x0027); (0x002E, 0x002E); (0x003A, 0x003A); (0x005E, 0x005E);
   (0x0060, 0x0060); (0x00A8, 0x00A8); (0x00AD, 0x00AD); (0x00AF, 0x00AF);
   (0x00B4, 0x00B4); (0x00B7, 0x00B8); (0x02B0, 0x036F); (0x0374, 0x0375);
   (0x037A, 0x037A); (0x0384, 0x0385); (0x0387, 0x0387); (0x0483, 0x0489);
   (0x0559, 0x0559); (0x055F, 0x055F); (0x0591, 0x05BD); (0x05BF, 0x05BF);
   (0x05C1, 0x05C2); (0x05C4, 0x05C5); (0x05C7, 0x05C7); (0x05F4, 0x05F4);
   (0x0600, 0x0605); (0x0610, 0x061A); (0x061C, 0x061C); (0x0640, 0x0640);
   (0x064B, 0x065F); (0x0670, 0x0670); (0x06D6, 0x06DD); (0x06DF, 0x06E8);
   (0x06EA, 0x06ED); (0x070F, 0x070F); (0x0711, 0x0711); (0x0730, 0x074A);
   (0x07A6, 0x07B0); (0x07EB, 0x07F5); (0x07FA, 0x07FA); (0x07FD, 0x07FD);
   (0x0816, 0x082D); (0x0859, 0x085B); (0x0888, 0x0888); (0x0890, 0x0891);
   (0x0898, 0x089F); (0x08C9, 0x0902); (0x093A, 0x093A); (0x093C, 0x093C);
   (0x0941, 0x0948); (0x094D, 0x094D); (0x0951, 0x0957); (0x0962, 0x0963);
   (0x0971, 0x0971); (0x0981, 0x0981); (0x09BC, 0x09BC); (0x09C1, 0x09C4);
   (0x09CD, 0x09CD); (0x09E2, 0x09E3); (0x09FE, 0x09FE); (0x0A01, 0x0A02);
   (0x0A3C, 0x0A3C); (0x0A41, 0x0A42); (0x0A47, 0x0A48); (0x0A4B, 0x0A4D);
   (0x0A51, 0x0A51); (0x0A70, 0x0A71); (0x0A75, 0x0A75); (0x0A81, 0x0A82);
   (0x0ABC, 0x0ABC); (0x0AC1, 0x0AC5); (0x0AC7, 0x0AC8); (0x0ACD, 0x0ACD);
   (0x0AE2, 0x0AE3); (0x0AFA, 0x0AFF); (0x0B01, 0x0B01); (0x0B3C, 0x0B3C);
   (0x0B3F, 0x0B3F); (0x0B41, 0x0B44); (0x0B4D, 0x0B4D); (0x0B55, 0x0B56);
   (0x0B62, 0x0B63); (0x0B82, 0x0B82); (0x0BC0, 0x0BC0); (0x0BCD, 0x0BCD);
   (0x0C00, 0x0C00); (0x0C04, 0x0C04); (0x0C3C, 0x0C3C); (0x0C3E, 0x0C40);
   (0x0C46, 0x0C48); (0x0C4A, 0x0C4D); (0x0C55, 0x0C56); (0x0C62, 0x0C63);
   (0x0C81, 0x0C81); (0x0CBC, 0x0CBC); (0x0CBF, 0x0CBF); (0x0CC6, 0x0CC6);
   (0x0CCC, 0x0CCD); (0x0CE2, 0x0CE3); (0x0D00, 0x0D01); (0x0D3B, 0x0D3C);
   (0x0D41, 0x0D44); (0x0D4D, 0x0D4D); (0x0D62, 0x0D63); (0x0D81, 0x0D81);
   (0x0DCA, 0x0DCA); (0x0DD2, 0x0DD4); (0x0DD6, 0x0DD6); (0x0E31, 0x0E31);
   (0x0E34, 0x0E3A); (0x0E46, 0x0E4E); (0x0EB1, 0x0EB1); (0x0EB4, 0x0EBC);
   (0x0EC6, 0x0EC6); (0x0EC8, 0x0ECD); (0x0F18, 0x0F19); (0x0F35, 0x0F35);
   (0x0F37, 0x0F37); (0x0F39, 0x0F39); (0x0F71, 0x0F7E); (0x0F80, 0x0F84);
   (0x0F86, 0x0F87); (0x0F8D, 0x0F97); (0x0F99, 0x0FBC); (0x0FC6, 0x0FC6);
   (0x102D, 0x1030); (0x1032, 0x1037); (0x1039, 0x103A); (0x103D, 0x103E);
   (0x1058, 0x1059); (0x105E, 0x1060); (0x1071, 0x1074); (0x1082, 0x1082);
   (0x1085, 0x1086); (0x108D, 0x108D); (0x109D, 0x109D); (0x10FC, 0x10FC);
   (0x135D, 0x135F); (0x1712, 0x1714); (0x1732, 0x1733); (0x1752, 0x1753);
   (0x1772, 0x1773); (0x17B4, 0x17B5); (0x17B7, 0x17BD); (0x17C6, 0x17C6);
   (0x17C9, 0x17D3); (0x17D7, 0x17D7); (0x17DD, 0x17DD); (0x180B, 0x180F);
   (0x1843, 0x1843); (0x1885, 0x1886); (0x18A9, 0x18A9); (0x1920, 0x1922);
   (0x1927, 0x1928); (0x1932, 0x1932); (0x1939, 0x193B); (0x1A17, 0x1A18);
   (0x1A1B, 0x1A1B); (0x1A56, 0x1A56); (0x1A58, 0x1A5E); (0x1A60, 0x1A60);
   (0x1A62, 0x1A62); (0x1A65, 0x1A6C); (0x1A73, 0x1A7C); (0x1A7F, 0x1A7F);
   (0x1AA7, 0x1AA7); (0x1AB0, 0x1ACE); (0x1B00, 0x1B03); (0x1B34, 0x1B34);
   (0x1B36, 0x1B3A); (0x1B3C, 0x1B3C); (0x1B42, 0x1B42); (0x1B6B, 0x1B73);
   (0x1B80, 0x1B81); (0x1BA2, 0x1BA5); (0x1BA8, 0x1BA9); (0x1BAB, 0x1BAD);
   (0x1BE6, 0x1BE6); (0x1BE8, 0x1BE9); (0x1BED, 0x1BED); (0x1BEF, 0x1BF1);
   (0x1C2C, 0x1C33); (0x1C36, 0x1C37); (0x1C78, 0x1C7D); (0x1CD0, 0x1CD2);
   (0x1CD4, 0x1CE0); (0x1CE2, 0x1CE8); (0x1CED, 0x1CED); (0x1CF4, 0x1CF4);
   (0x1CF8, 0x1CF9); (0x1D2C, 0x1D6A); (0x1D78, 0x1D78); (0x1D9B, 0x1DFF);
   (0x1FBD, 0x1FBD); (0x1FBF, 0x1FC1); (0x1FCD, 0x1FCF); (0x1FDD, 0x1FDF);
   (0x1FED, 0x1FEF); (0x1FFD, 0x1FFE); (0x200B, 0x200F); (0x2018, 0x2019);
   (0x2024, 0x2024); (0x2027, 0x2027); (0x202A, 0x202E); (0x2060, 0x2064);
   (0x2066, 0x206F); (0x2071, 0x2071); (0x207F, 0x207F); (0x2090, 0x209C);
   (0x20D0, 0x20F0); (0x2C7C, 0x2C7D); (0x2CEF, 0x2CF1); (0x2D6F, 0x2D6F);
   (0x2D7F, 0x2D7F); (0x2DE0, 0x2DFF); (0x2E2F, 0x2E2F); (0x3005, 0x3005);
   (0x302A, 0x302D); (0x3031, 0x3035); (0x303B, 0x303B); (0x3099, 0x309E);
   (0x30FC, 0x30FE); (0xA015, 0xA015); (0xA4F8, 0xA4FD); (0xA60C, 0xA60C);
   (0xA66F, 0xA672); (0xA674, 0xA67D); (0xA67F, 0xA67F); (0xA69C, 0xA69F);
   (0xA6F0, 0xA6F1); (0xA700, 0xA721); (0xA770, 0xA770); (0xA788, 0xA78A);
   (0xA7F2, 0xA7F4); (0xA7F8, 0xA7F9); (0xA802, 0xA802); (0xA806, 0xA806);
   (0xA80B, 0xA80B); (0xA825, 0xA826); (0xA82C, 0xA82C); (0xA8C4, 0xA8C5);
   (0xA8E0, 0xA8F1); (0xA8FF, 0xA8FF); (0xA926, 0xA92D); (0xA947, 0xA951);
   (0xA980, 0xA982); (0xA9B3, 0xA9B3); (0xA9B6, 0xA9B9); (0xA9BC, 0xA9BD);
   (0xA9CF, 0xA9CF); (0xA9E5, 0xA9E6); (0xAA29, 0xAA2E); (0xAA31, 0xAA32);
   (0xAA35, 0xAA36); (0xAA43, 0xAA43); (0xAA4C, 0xAA4C); (0xAA70, 0xAA70);
   (0xAA7C, 0xAA7C); (0xAAB0, 0xAAB0); (0xAAB2, 0xAAB4); (0xAAB7, 0xAAB8);
   (0xAABE, 0xAABF); (0xAAC1, 0xAAC1); (0xAADD, 0xAADD); (0xAAEC, 0xAAED);
   (0xAAF3, 0xAAF4); (0xAAF6, 0xAAF6); (0xAB5B, 0xAB5F); (0xAB69, 0xAB6B);
   (0xABE5, 0xABE5); (0xABE8, 0xABE8); (0xABED, 0xABED); (0xFB1E, 0xFB1E);
   (0xFBB2, 0xFBC2); (0xFE00, 0xFE0F); (0xFE13, 0xFE13); (0xFE20, 0xFE2F);
   (0xFE52, 0xFE52); (0xFE55, 0xFE55); (0xFEFF, 0xFEFF); (0xFF07, 0xFF07);
   (0xFF0E, 0xFF0E); (0xFF1A, 0xFF1A); (0xFF3E, 0xFF3E); (0xFF40, 0xFF40);
   (0xFF70, 0xFF70); (0xFF9E, 0xFF9F); (0xFFE3, 0xFFE3); (0xFFF9, 0xFFFB);
   (0x101FD, 0x101FD); (0x102E0, 0x102E0); (0x10376, 0x1037A);
   (0x10780, 0x10785); (0x10787, 0x107B0); (0x107B2, 0x107BA);
   (0x10A01, 0x10A03); (0x10A05, 0x10A06); (0x10A0C, 0x10A0F);
   (0x10A38, 0x10A3A); (0x10A3F, 0x10A3F); (0x10AE5, 0x10AE6);
   (0x10D24, 0x10D27); (0x10EAB, 0x10EAC); (0x10F46, 0x10F50);
   (0x10F82, 0x10F85); (0x11001, 0x11001); (0x11038, 0x11046);
   (0x11070, 0x11070); (0x11073, 0x11074); (0x1107F, 0x11081);
   (0x110B3, 0x110B6); (0x110B9, 0x110BA); (0x110BD, 0x110BD);
   (0x110C2, 0x110C2); (0x110CD, 0x110CD); (0x11100, 0x11102);
   (0x11127, 0x1112B); (0x1112D, 0x11134); (0x11173, 0x11173);
   (0x11180, 0x11181); (0x111B6, 0x111BE); (0x111C9, 0x111CC);
   (0x111CF, 0x111CF); (0x1122F, 0x11231); (0x11234, 0x11234);
   (0x11236, 0x11237); (0x1123E, 0x1123E); (0x112DF, 0x112DF);
   (0x112E3, 0x112EA); (0x11300, 0x11301); (0x1133B, 0x1133C);
   (0x11340, 0x11340); (0x11366, 0x1136C); (0x11370, 0x11374);
   (0x11438, 0x1143F); (0x11442, 0x11444); (0x11446, 0x11446);
   (0x1145E, 0x1145E); (0x114B3, 0x114B8); (0x114BA, 0x114BA);
   (0x114BF, 0x114C0); (0x114C2, 0x114C3); (0x115B2, 0x115B5);
   (0x115BC, 0x115BD); (0x115BF, 0x115C0); (0x115DC, 0x115DD);
   (0x11633, 0x1163A); (0x1163D, 0x1163D); (0x1163F, 0x11640);
   (0x116AB, 0x116AB); (0x116AD, 0x116AD); (0x116B0, 0x116B5);
   (0x116B7, 0x116B7); (0x1171D, 0x1171F); (0x11722, 0x11725);
   (0x11727, 0x1172B); (0x1182F, 0x11837); (0x11839, 0x1183A);
   (0x1193B, 0x1193C); (0x1193E, 0x1193E); (0x11943, 0x11943);
   (0x119D4, 0x119D7); (0x119DA, 0x119DB); (0x119E0, 0x119E0);
   (0x11A01, 0x11A0A); (0x11A33, 0x11A38); (0x11A3B, 0x11A3E);
   (0x11A47, 0x11A47); (0x11A51, 0x11A56); (0x11A59, 0x11A5B);
   (0x11A8A, 0x11A96); (0x11A98, 0x11A99); (0x11C30, 0x11C36);
   (0x11C38, 0x11C3D); (0x11C3F, 0x11C3F); (0x11C92, 0x11CA7);
   (0x11CAA, 0x11CB0); (0x11CB2, 0x11CB3); (0x11CB5, 0x11CB6);
   (0x11D31, 0x11D36); (0x11D3A, 0x11D3A); (0x11D3C, 0x11D3D);
   (0x11D3F, 0x11D45); (0x11D47, 0x11D47); (0x11D90, 0x11D91);
   (0x11D95, 0x11D95); (0x11D97, 0x11D97); (0x11EF3, 0x11EF4);
   (0x13430, 0x13438); (0x16AF0, 0x16AF4); (0x16B30, 0x16B36);
   (0x16B40, 0x16B43); (0x16F4F, 0x16F4F); (0x16F8F, 0x16F9F);
   (0x16FE0, 0x16FE1); (0x16FE3, 0x16FE4); (0x1AFF0, 0x1AFF3);
   (0x1AFF5, 0x1AFFB); (0x1AFFD, 0x1AFFE); (0x1BC9D, 0x1BC9E);
   (0x1BCA0, 0x1BCA3); (0x1CF00, 0x1CF2D); (0x1CF30, 0x1CF46);
   (0x1D167, 0x1D169); (0x1D173, 0x1D182); (0x1D185, 0x1D18B);
   (0x1D1AA, 0x1D1AD); (0x1D242, 0x1D244); (0x1DA00, 0x1DA36);
   (0x1DA3B, 0x1DA6C); (0x1DA75, 0x1DA75); (0x1DA84, 0x1DA84);
   (0x1DA9B, 0x1DA9F); (0x1DAA1, 0x1DAAF); (0x1E000, 0x1E006);
   (0x1E008, 0x1E018); (0x1E01B, 0x1E021); (0x1E023, 0x1E024);
   (0x1E026, 0x1E02A); (0x1E130, 0x1E13D); (0x1E2AE, 0x1E2AE);
   (0x1E2EC, 0x1E2EF); (0x1E8D0, 0x1E8D6); (0x1E944, 0x1E94B);
   (0x1F3FB, 0x1F3FF); (0xE0001, 0xE0001); (0xE0020, 0xE007F);
   (0xE0100, 0xE01EF)
  ]%N.

(** The code points with the property Cased that are not Case_Ignorable
    as well. *)
Definition cased_ranges : list (N * N) :=
  [
   (0x0041, 0x005A); (0x0061, 0x007A); (0x00AA, 0x00AA); (0x00B5, 0x00B5);
   (0x00BA, 0x00BA); (0x00C0, 0x00D6); (0x00D8, 0x00F6); (0x00F8, 0x01BA);
   (0x01BC, 0x01BF); (0x01C4, 0x0293); (0x0295, 0x02AF); (0x0370, 0x0373);
   (0x0376, 0x0377); (0x037B, 0x037D); (0x037F, 0x037F); (0x0386, 0x0386);
   (0x0388, 0x038A); (0x038C, 0x038C); (0x038E, 0x03A1); (0x03A3, 0x03F5);
   (0x03F7, 0x0481); (0x048A, 0x052F); (0x0531, 0x0556); (0x0560, 0x0588);
   (0x10A0, 0x10C5); (0x10C7, 0x10C7); (0x10CD, 0x10CD); (0x10D0, 0x10FA);
   (0x10FD, 0x10FF); (0x13A0, 0x13F5); (0x13F8, 0x13FD); (0x1C80, 0x1C88);
   (0x1C90, 0x1CBA); (0x1CBD, 0x1CBF); (0x1D00, 0x1D2B); (0x1D6B, 0x1D77);
   (0x1D79, 0x1D9A); (0x1E00, 0x1F15); (0x1F18, 0x1F1D); (0x1F20, 0x1F45);
   (0x1F48, 0x1F4D); (0x1F50, 0x1F57); (0x1F59, 0x1F59); (0x1F5B, 0x1F5B);
   (0x1F5D, 0x1F5D); (0x1F5F, 0x1F7D); (0x1F80, 0x1FB4); (0x1FB6, 0x1FBC);
   (0x1FBE, 0x1FBE); (0x1FC2, 0x1FC4); (0x1FC6, 0x1FCC); (0x1FD0, 0x1FD3);
   (0x1FD6, 0x1FDB); (0x1FE0, 0x1FEC); (0x1FF2, 0x1FF4); (0x1FF6, 0x1FFC);
   (0x2102, 0x2102); (0x2107, 0x2107); (0x210A, 0x2113); (0x2115, 0x2115);
   (0x2119, 0x211D); (0x2124, 0x2124); (0x2126, 0x2126); (0x2128, 0x2128);
   (0x212A, 0x212D); (0x212F, 0x2134); (0x2139, 0x2139); (0x213C, 0x213F);
   (0x2145, 0x2149); (0x214E, 0x214E); (0x2160, 0x217F); (0x2183, 0x2184);
   (0x24B6, 0x24E9); (0x2C00, 0x2C7B); (0x2C7E, 0x2CE4); (0x2CEB, 0x2CEE);
   (0x2CF2, 0x2CF3); (0x2D00, 0x2D25); (0x2D27, 0x2D27); (0x2D2D, 0x2D2D);
   (0xA640, 0xA66D); (0xA680, 0xA69B); (0xA722, 0xA76F); (0xA771, 0xA787);
   (0xA78B, 0xA78E); (0xA790, 0xA7CA); (0xA7D0, 0xA7D1); (0xA7D3, 0xA7D3);
   (0xA7D5, 0xA7D9); (0xA7F5, 0xA7F6); (0xA7FA, 0xA7FA); (0xAB30, 0xAB5A);
   (0xAB60, 0xAB68); (0xAB70, 0xABBF); (0xFB00, 0xFB06); (0xFB13, 0xFB17);
   (0xFF21, 0xFF3A); (0xFF41, 0xFF5A); (0x10400, 0x1044F);
   (0x104B0, 0x104D3); (0x104D8, 0x104FB); (0x10570, 0x1057A);
   (0x1057C, 0x1058A); (0x1058C, 0x10592); (0x10594, 0x10595);
   (0x10597, 0x105A1); (0x105A3, 0x105B1); (0x105B3, 0x105B9);
   (0x105BB, 0x105BC); (0x10C80, 0x10CB2); (0x10CC0, 0x10CF2);
   (0x118A0, 0x118DF); (0x16E40, 0x16E7F); (0x1D400, 0x1D454);
   (0x1D456, 0x1D49C); (0x1D49E, 0x1D49F); (0x1D4A2, 0x1D4A2);
   (0x1D4A5, 0x1D4A6); (0x1D4A9, 0x1D4AC); (0x1D4AE, 0x1D4B9);
   (0x1D4BB, 0x1D4BB); (0x1D4BD, 0x1D4C3); (0x1D4C5, 0x1D505);
   (0x1D507, 0x1D50A); (0x1D50D, 0x1D514); (0x1D516, 0x1D51C);
   (0x1D51E, 0x1D539); (0x1D53B, 0x1D53E); (0x1D540, 0x1D544);
   (0x1D546, 0x1D546); (0x1D54A, 0x1D550); (0x1D552, 0x1D6A5);
   (0x1D6A8, 0x1D6C0); (0x1D6C2, 0x1D6DA); (0x1D6DC, 0x1D6FA);
   (0x1D6FC, 0x1D714); (0x1D716, 0x1D734); (0x1D736, 0x1D74E);
   (0x1D750, 0x1D76E); (0x1D770, 0x1D788); (0x1D78A, 0x1D7A8);
   (0x1D7AA, 0x1D7C2); (0x1D7C4, 0x1D7CB); (0x1DF00, 0x1DF09);
   (0x1DF0B, 0x1DF1E); (0x1E900, 0x1E943); (0x1F130, 0x1F149);
   (0x1F150, 0x1F169); (0x1F170, 0x1F189)
  ]%N.

Definition in_ranges (ranges : list (N * N)) (cp : N) : bool :=
  existsb (fun r => (fst r <=? cp)%N && (cp <=? snd r)%N) ranges.

Definition case_ignorable (cp : N) : bool :=
  in_ranges case_ignorable_ranges cp.
Definition cased (cp : N) : bool := in_ranges cased_ranges cp.

Definition in_run (cp : N) (run : N * N * bool * N) : bool :=
  let '(first, last, _, _) := run in (first <=? cp)%N && (cp <=? last)%N.

(** The lower case of an ASCII letter; any other code unit is unchanged. *)
Definition lower_char (c : char) : char :=
  if is_upper c then (c + 32)%N else c.

(** The lower case of a code point, without regard to what surrounds
    it. *)
Definition lower_code_point (cp : N) : list N :=
  if (cp <? 128)%N then [lower_char cp]
  else if (cp =? 0x0130)%N then [0x0069; 0x0307]%N
  else
    match find (in_run cp) lower_runs with
    | Some (first, _, pairs, image) =>
        if pairs && N.odd (cp - first) then [cp]
        else [(image + (cp - first))%N]
    | None => [cp]
    end.

(** Final_Sigma, second half: what follows is any number of case-ignorable
    code points and then a cased letter. *)
Fixpoint followed_by_cased (cps : list N) : bool :=
  match cps with
  | [] => false
  | cp :: rest =>
      if case_ignorable cp then followed_by_cased rest else cased cp
  end.

Definition capital_sigma : N := 0x03A3%N.
Definition final_sigma : N := 0x03C2%N.
Definition small_sigma : N := 0x03C3%N.

(** toLowercase of the Unicode Default Case Conversion; [after_cased]
    says that what precedes is a cased letter and then any number of
    case-ignorable code points. *)
Fixpoint lower_points (after_cased : bool) (cps : list N) : list N :=
  match cps with
  | [] => []
  | cp :: rest =>
      (if (cp =? capital_sigma)%N
       then [if after_cased && negb (followed_by_cased rest)
             then final_sigma else small_sigma]
       else lower_code_point cp)
      ++ lower_points (if case_ignorable cp then after_cased else cased cp)
           rest
  end.

Definition toLowerCase (s : jsstring) : jsstring :=
  flat_map code_units (lower_points false (code_points s)).

Fixpoint starts_with (p s : jsstring) : bool :=
  match p, s with
  | [], _ => true
  | _ :: _, [] => false
  | a :: p', b :: s' => char_eqb a b && starts_with p' s'
  end.

(** [String.prototype.includes]. *)
Fixpoint includes (s p : jsstring) : bool :=
  starts_with p s ||
  match s with
  | [] => false
  | _ :: s' => includes s' p
  end.

Fixpoint trim_start (s : jsstring) : jsstring :=
  match s with
  | [] => []
  | c :: s' => if is_space c then trim_start s' else s
  end.

(** [String.prototype.trim]. *)
Definition trim (s : jsstring) : jsstring :=
  rev (trim_start (rev (trim_start s))).

(** [s.substring(0, n)] for [0 <= n]. *)
Definition substring0 (n : nat) (s : jsstring) : jsstring := firstn n s.

End JSString.

Import JSString.

(* ================================================================== *)
(** ** ECMAScript regular expressions *)
(* ================================================================== *)

Module Regex.

(** Members of a character class. *)
Inductive cset : Type :=
| One (c : char)            (* a single character *)
| Range (lo hi : char)      (* lo-hi *)
| Digit                     (* \d *)
| Space                     (* \s *)
| Word.                     (* \w *)

(** The fragment of the pattern syntax that the source uses.  Groups only
    delimit (no pattern has a back-reference and every replacement is a
    fixed string), so they leave no node.  Every quantifier is greedy. *)
Inductive regex : Type :=
| Eps
| Char (c : char)
| Dot
| Class (neg : bool) (items : list cset)
| Seq (a b : regex)
| Alt (a b : regex)
| Rep (min : nat) (max : option nat) (r : regex)
| Bol                        (* ^ *)
| Eol                        (* $ *)
| WordB.                     (* \b *)

(** A position in the subject: the code unit before it, its index, and the
    code units from it on. *)
Record cursor : Type := Cursor {
  prev : option char;
  pos : nat;
  rest : list char
}.

Definition in_item (it : cset) (c : char) : bool :=
  match it with
  | One a => char_eqb c a
  | Range lo hi => (lo <=? c)%N && (c <=? hi)%N
  | Digit => is_digit c
  | Space => is_space c
  | Word => is_word c
  end.

(** Membership under the [i] flag compares canonicalized code units; for
    the ASCII members used here that adds exactly the other case of a
    letter. *)
Definition in_items (ic : bool) (items : list cset) (c : char) : bool :=
  existsb (fun it => in_item it c || (ic && in_item it (swapcase c))) items.

Definition char_matches (ic : bool) (a c : char) : bool :=
  char_eqb c a || (ic && char_eqb (swapcase c) a).

Definition is_word_opt (o : option char) : bool :=
  match o with
  | Some c => is_word c
  | None => false
  end.

Definition at_word_boundary (x : cursor) : bool :=
  xorb (is_word_opt (prev x)) (is_word_opt (hd_error (rest x))).

(** Consume one code unit satisfying [p]. *)
Definition one (p : char -> bool) (x : cursor)
    (k : cursor -> option cursor) : option cursor :=
  match rest x with
  | [] => None
  | c :: r => if p c then k (Cursor (Some c) (S (pos x)) r) else None
  end.

(** RepeatMatcher of the ECMAScript specification for a greedy quantifier
    [{min,max}] ([max = None] is no upper bound), over the matcher [mr] of
    the quantified atom and the continuation [k].  The continuation [d]
    handed to the atom rejects an iteration that consumes nothing once
    [min] is 0, so every further level either lowers [min] or consumes a
    code unit: [min] plus the number of code units left, plus one, levels
    are enough, and that is the [fuel] the matcher gives (more fuel gives
    the same result: [RepeatMatcher_fuel]). *)
Fixpoint RepeatMatcher (mr : cursor -> (cursor -> option cursor) -> option cursor)
    (k : cursor -> option cursor) (fuel min : nat) (max : option nat)
    (x : cursor) {struct fuel} : option cursor :=
  match fuel with
  | O => None
  | S fuel' =>
      match max with
      | Some O => k x
      | _ =>
          let d := fun y : cursor =>
            if (min =? 0)%nat && (pos y =? pos x)%nat then None
            else RepeatMatcher mr k fuel' (Nat.pred min) (option_map Nat.pred max) y in
          if (min =? 0)%nat then
            match mr x d with
            | Some z => Some z
            | None => k x
            end
          else mr x d
      end
  end.

(** The backtracking matcher, in continuation-passing style as in the
    ECMAScript specification: [m ic r x k] matches [r] at [x] and hands
    the position reached to [k]; [ic] is the [i] flag. *)
Fixpoint m (ic : bool) (r : regex) (x : cursor)
    (k : cursor -> option cursor) {struct r} : option cursor :=
  match r with
  | Eps => k x
  | Char a => one (char_matches ic a) x k
  | Dot => one (fun c => negb (is_line_terminator c)) x k
  | Class neg items => one (fun c => xorb neg (in_items ic items c)) x k
  | Seq a b => m ic a x (fun y => m ic b y k)
  | Alt a b =>
      match m ic a x k with
      | Some z => Some z
      | None => m ic b x k
      end
  | Rep min max r' =>
      RepeatMatcher (m ic r') k (S (min + List.length (rest x))) min max x
  | Bol => if (pos x =? 0)%nat then k x else None
  | Eol => match rest x with [] => k x | _ :: _ => None end
  | WordB => if at_word_boundary x then k x else None
  end.

(** One attempt at the position of the cursor. *)
Definition match_here (ic : bool) (r : regex) (x : cursor) : option cursor :=
  m ic r x Some.

(** The search loop of RegExpBuiltinExec: the first position, from the
    cursor on, at which the matcher succeeds; the result is the start and
    the end index of the match. *)
Fixpoint scan (ic : bool) (r : regex) (p : option char) (i : nat)
    (s : list char) {struct s} : option (nat * nat) :=
  match match_here ic r (Cursor p i s) with
  | Some y => Some (i, pos y)
  | None =>
      match s with
      | [] => None
      | c :: s' => scan ic r (Some c) (S i) s'
      end
  end.

(** The cursor at index [i] of [s], when [i <= length s]. *)
Fixpoint cursor_at (p : option char) (base : nat) (s : list char) (i : nat)
    {struct i} : option cursor :=
  match i with
  | O => Some (Cursor p base s)
  | S i' =>
      match s with
      | [] => None
      | c :: s' => cursor_at (Some c) (S base) s' i'
      end
  end.

(** RegExpBuiltinExec started at [lastIndex]. *)
Definition exec_from (ic : bool) (r : regex) (s : jsstring) (lastIndex : nat)
    : option (nat * nat) :=
  match cursor_at None 0 s lastIndex with
  | None => None
  | Some x => scan ic r (prev x) (pos x) (rest x)
  end.

(** A regular expression literal with its flags. *)
Record pattern : Type := Pattern {
  re : regex;
  ignoreCase : bool;
  global : bool
}.

(** [pattern.test(s)].  Without the [g] flag the search starts at 0 and
    [lastIndex] is not written.  With it the search starts at [lastIndex],
    which becomes the end of the match, or 0 when there is none. *)
Definition test (p : pattern) (lastIndex : nat) (s : jsstring) : bool * nat :=
  if global p then
    match exec_from (ignoreCase p) (re p) s lastIndex with
    | Some (_, e) => (true, e)
    | None => (false, 0)
    end
  else
    match exec_from (ignoreCase p) (re p) s 0 with
    | Some _ => (true, lastIndex)
    | None => (false, lastIndex)
    end.

(** [test] of a pattern without the [g] flag. *)
Definition test_pure (p : pattern) (s : jsstring) : bool :=
  match exec_from (ignoreCase p) (re p) s 0 with
  | Some _ => true
  | None => false
  end.

(** The matches that [RegExp.prototype[Symbol.replace]] collects: one for a
    pattern without [g]; with [g] every match from 0 on, each search
    starting where the previous match ended (one further when it was
    empty). *)
Fixpoint collect (fuel : nat) (ic : bool) (r : regex) (s : jsstring)
    (lastIndex : nat) : list (nat * nat) :=
  match fuel with
  | O => []
  | S fuel' =>
      match exec_from ic r s lastIndex with
      | None => []
      | Some (b, e) =>
          (b, e) :: collect fuel' ic r s (if (e =? b)%nat then S e else e)
      end
  end.

Definition matches_of (p : pattern) (s : jsstring) : list (nat * nat) :=
  if global p then collect (S (S (List.length s))) (ignoreCase p) (re p) s 0
  else
    match exec_from (ignoreCase p) (re p) s 0 with
    | Some be => [be]
    | None => []
    end.

(** The assembly of the result: [next] is nextSourcePosition. *)
Fixpoint splice (s : jsstring) (next : nat) (ms : list (nat * nat))
    (repl : jsstring) : jsstring :=
  match ms with
  | [] => skipn next s
  | (b, e) :: ms' =>
      if (next <=? b)%nat then
        firstn (b - next) (skipn next s) ++ repl ++ splice s e ms' repl
      else splice s next ms' repl
  end.

(** [s.replace(pattern, repl)] for a replacement string without [$].  A
    pattern with the [g] flag ends with [lastIndex] 0. *)
Definition replace (p : pattern) (s repl : jsstring) : jsstring :=
  splice s 0 (matches_of p s) repl.

(** *** Pattern syntax helpers *)

Definition seqs (rs : list regex) : regex := fold_right Seq Eps rs.

Fixpoint alts (rs : list regex) : regex :=
  match rs with
  | [] => Class false []
  | [r] => r
  | r :: rs' => Alt r (alts rs')
  end.

(** A run of literal characters. *)
Definition str (s : string) : regex := seqs (List.map Char (lit s)).

Definition opt (r : regex) : regex := Rep 0 (Some 1) r.          (* r? *)
Definition star (r : regex) : regex := Rep 0 None r.              (* r* *)
Definition plus (r : regex) : regex := Rep 1 None r.              (* r+ *)
Definition times (n : nat) (r : regex) : regex := Rep n (Some n) r. (* r{n} *)
Definition at_least (n : nat) (r : regex) : regex := Rep n None r.  (* r{n,} *)
Definition between (n k : nat) (r : regex) : regex := Rep n (Some k) r.

Definition digit : regex := Class false [Digit].                  (* \d *)
Definition space : regex := Class false [Space].                  (* \s *)

(** The greatest number of code units a match of [r] can span, when it is
    bounded. *)
Fixpoint maxlen (r : regex) : option nat :=
  match r with
  | Eps | Bol | Eol | WordB => Some 0
  | Char _ | Dot | Class _ _ => Some 1
  | Seq a b =>
      match maxlen a, maxlen b with
      | Some n, Some k => Some (n + k)
      | _, _ => None
      end
  | Alt a b =>
      match maxlen a, maxlen b with
      | Some n, Some k => Some (Nat.max n k)
      | _, _ => None
      end
  | Rep _ (Some k) r' =>
      match maxlen r' with
      | Some n => Some (k * n)
      | None => None
      end
  | Rep _ None _ => None
  end.

(** [y] is reached from [x] by consuming [l]. *)
Definition reaches (x y : cursor) (l : list char) : Prop :=
  rest x = l ++ rest y /\ pos y = pos x + List.length l.

(** The code unit before the position reached after [l], from a position
    whose previous code unit is [p]. *)
Definition prev_after (p : option char) (l : list char) : option char :=
  fold_left (fun _ c => Some c) l p.

End Regex.

Import Regex.

(* ================================================================== *)
(** ** AIContentAnalyzer *)
(* ================================================================== *)

Module Analyzer.

Open Scope string_scope.
Open Scope list_scope.

(** A character literal. *)
Definition c (s : string) : char := hd 0%N (lit s).

Definition squote : char := 39%N.
Definition dquote : char := 34%N.

Definition az : cset := Range (c "a") (c "z").
Definition AZ : cset := Range (c "A") (c "Z").
Definition d09 : cset := Range (c "0") (c "9").

(** [[a-zA-Z0-9]] *)
Definition alnum : regex := Class false [az; AZ; d09].
(** [[0-9A-Z]] *)
Definition upnum : regex := Class false [d09; AZ].
(** [[a-zA-Z0-9_-]] *)
Definition token_char : regex := Class false [az; AZ; d09; One (c "_"); One (c "-")].
(** [[\s-]] *)
Definition space_or_dash : regex := Class false [Space; One (c "-")].
(** [[- ]] *)
Definition dash_or_blank : regex := Class false [One (c "-"); One (c " ")].
(** [[_-]] *)
Definition underscore_or_dash : regex := Class false [One (c "_"); One (c "-")].
(** [[:\s=]] *)
Definition assign_char : regex := Class false [One (c ":"); Space; One (c "=")].
(** [['\x22]], the two quote characters (\x22 is the double quote) *)
Definition quote : regex := Class false [One squote; One dquote].
(** [[\d,]] *)
Definition digit_or_comma : regex := Class false [Digit; One (c ",")].

(** *** sensitivePatterns *)

(** /\b\d{3}-\d{2}-\d{4}\b/ *)
Definition ssn : pattern :=
  Pattern (seqs [WordB; times 3 digit; Char (c "-"); times 2 digit;
                 Char (c "-"); times 4 digit; WordB]) false false.

(** /\b\d{4}[\s-]?\d{4}[\s-]?\d{4}[\s-]?\d{4}\b/ *)
Definition creditCard : pattern :=
  Pattern (seqs [WordB; times 4 digit; opt space_or_dash; times 4 digit;
                 opt space_or_dash; times 4 digit; opt space_or_dash;
                 times 4 digit; WordB]) false false.

(** /\b[A-Za-z0-9._%+-]+@[A-Za-z0-9.-]+\.[A-Z|a-z]{2,}\b/ *)
Definition email : pattern :=
  Pattern (seqs [WordB;
                 plus (Class false [AZ; az; d09; One (c "."); One (c "_");
                                    One (c "%"); One (c "+"); One (c "-")]);
                 Char (c "@");
                 plus (Class false [AZ; az; d09; One (c "."); One (c "-")]);
                 Char (c ".");
                 at_least 2 (Class false [AZ; One (c "|"); az]);
                 WordB]) false false.

(** /\b(\+\d{1,3}[- ]?)?\(?\d{3}\)?[- ]?\d{3}[- ]?\d{4}\b/ *)
Definition phone : pattern :=
  Pattern (seqs [WordB;
                 opt (seqs [Char (c "+"); between 1 3 digit; opt dash_or_blank]);
                 opt (Char (c "(")); times 3 digit; opt (Char (c ")"));
                 opt dash_or_blank; times 3 digit; opt dash_or_blank;
                 times 4 digit; WordB]) false false.

(** /\b(sk-[a-zA-Z0-9]{48,}|AKIA[0-9A-Z]{16}|ya29\.[a-zA-Z0-9_-]+|AIza[0-9A-Za-z_-]{35}|xoxb-[0-9]+-[0-9A-Za-z-]+|ghp_[a-zA-Z0-9]{36}|gho_[a-zA-Z0-9]{36}|github_pat_[a-zA-Z0-9_]+|Bearer\s+[a-zA-Z0-9_-]+)\b/gi *)
Definition apiKey : pattern :=
  Pattern (seqs [WordB;
                 alts [seqs [str "sk-"; at_least 48 alnum];
                       seqs [str "AKIA"; times 16 upnum];
                       seqs [str "ya29"; Char (c "."); plus token_char];
                       seqs [str "AIza";
                             times 35 (Class false [d09; AZ; az; One (c "_"); One (c "-")])];
                       seqs [str "xoxb-"; plus (Class false [d09]); Char (c "-");
                             plus (Class false [d09; AZ; az; One (c "-")])];
                       seqs [str "ghp_"; times 36 alnum];
                       seqs [str "gho_"; times 36 alnum];
                       seqs [str "github_pat_";
                             plus (Class false [az; AZ; d09; One (c "_")])];
                       seqs [str "Bearer"; plus space; plus token_char]];
                 WordB]) true true.

(** /\b(api[_-]?key|apikey|api[_-]?secret|access[_-]?token|bearer)[:\s=]*['\x22]?[a-zA-Z0-9_-]{16,}['\x22]?\b/i *)
Definition apiKeyGeneral : pattern :=
  Pattern (seqs [WordB;
                 alts [seqs [str "api"; opt underscore_or_dash; str "key"];
                       str "apikey";
                       seqs [str "api"; opt underscore_or_dash; str "secret"];
                       seqs [str "access"; opt underscore_or_dash; str "token"];
                       str "bearer"];
                 star assign_char; opt quote; at_least 16 token_char;
                 opt quote; WordB]) true false.

(** /\bsk-[a-zA-Z0-9]{20,}\b/g *)
Definition openaiKey : pattern :=
  Pattern (seqs [WordB; str "sk-"; at_least 20 alnum; WordB]) false true.

(** /\b(AKIA[0-9A-Z]{16}|[A-Z0-9]{20})\b/g *)
Definition awsKey : pattern :=
  Pattern (seqs [WordB;
                 alts [seqs [str "AKIA"; times 16 upnum];
                       times 20 (Class false [AZ; d09])];
                 WordB]) false true.

(** /\b(password|passwd|pwd)[:\s=]*['\x22]?[^\s'\x22]{8,}['\x22]?\b/i *)
Definition password : pattern :=
  Pattern (seqs [WordB;
                 alts [str "password"; str "passwd"; str "pwd"];
                 star assign_char; opt quote;
                 at_least 8 (Class true [Space; One squote; One dquote]);
                 opt quote; WordB]) true false.

(** /\$[\d,]+\.?\d*|USD\s*[\d,]+|revenue|profit|salary|income/i *)
Definition financialData : pattern :=
  Pattern (alts [seqs [Char (c "$"); plus digit_or_comma; opt (Char (c "."));
                       star digit];
                 seqs [str "USD"; star space; plus digit_or_comma];
                 str "revenue"; str "profit"; str "salary"; str "income"])
          true false.

(** /customer|client|user|account.*name|billing.*address/i *)
Definition customerData : pattern :=
  Pattern (alts [str "customer"; str "client"; str "user";
                 seqs [str "account"; star Dot; str "name"];
                 seqs [str "billing"; star Dot; str "address"]])
          true false.

(** The [lastIndex] cells of the analyzer instance that [test] can write:
    those of the three patterns with the [g] flag.  The cell of a pattern
    without it stays 0. *)
Inductive cell : Type := CApiKey | COpenaiKey | CAwsKey.

Record regex_state : Type := RegexState {
  apiKey_lastIndex : nat;
  openaiKey_lastIndex : nat;
  awsKey_lastIndex : nat
}.

(** The analyzer as constructed. *)
Definition fresh : regex_state := RegexState 0 0 0.

Definition get_cell (st : regex_state) (k : cell) : nat :=
  match k with
  | CApiKey => apiKey_lastIndex st
  | COpenaiKey => openaiKey_lastIndex st
  | CAwsKey => awsKey_lastIndex st
  end.

Definition set_cell (st : regex_state) (k : cell) (v : nat) : regex_state :=
  match k with
  | CApiKey => RegexState v (openaiKey_lastIndex st) (awsKey_lastIndex st)
  | COpenaiKey => RegexState (apiKey_lastIndex st) v (awsKey_lastIndex st)
  | CAwsKey => RegexState (apiKey_lastIndex st) (openaiKey_lastIndex st) v
  end.

(** [Object.entries(this.sensitivePatterns)], in declaration order, each
    with the cell that holds its [lastIndex] when it has the [g] flag. *)
Definition sensitivePatterns : list (string * pattern * option cell) :=
  [("ssn", ssn, None);
   ("creditCard", creditCard, None);
   ("email", email, None);
   ("phone", phone, None);
   ("apiKey", apiKey, Some CApiKey);
   ("apiKeyGeneral", apiKeyGeneral, None);
   ("openaiKey", openaiKey, Some COpenaiKey);
   ("awsKey", awsKey, Some CAwsKey);
   ("password", password, None);
   ("financialData", financialData, None);
   ("customerData", customerData, None)].

(** [pattern.test(text)] on the pattern object of an entry. *)
Definition test_entry (p : pattern) (k : option cell) (st : regex_state)
    (text : jsstring) : bool * regex_state :=
  match k with
  | Some k => let '(b, li) := test p (get_cell st k) text in (b, set_cell st k li)
  | None => (test_pure p text, st)
  end.

Record SensitiveData : Type := mkSensitive {
  detected : bool;
  types : list string
}.

(** The loop of analyzeSensitiveData: [acc] is detectedTypes. *)
Fixpoint scan_entries (es : list (string * pattern * option cell))
    (st : regex_state) (text : jsstring) (acc : list string)
    : list string * regex_state :=
  match es with
  | [] => (acc, st)
  | (name, p, k) :: es' =>
      let '(b, st') := test_entry p k st text in
      scan_entries es' st' text (if b then acc ++ [name] else acc)
  end.

Definition analyzeSensitiveData (st : regex_state) (text : jsstring)
    : SensitiveData * regex_state :=
  let '(ts, st') := scan_entries sensitivePatterns st text [] in
  (mkSensitive (0 <? List.length ts)%nat ts, st').

(** *** aiToolPatterns *)

(** [Object.entries(this.aiToolPatterns)]; every pattern has the [i] flag
    and none the [g] flag. *)
Definition aiToolPatterns : list (string * pattern) :=
  [("chatgpt",       (* /chat\.openai\.com|chatgpt/i *)
    Pattern (alts [str "chat.openai.com"; str "chatgpt"]) true false);
   ("claude",        (* /claude\.ai|anthropic/i *)
    Pattern (alts [str "claude.ai"; str "anthropic"]) true false);
   ("gemini",        (* /gemini\.google|bard/i *)
    Pattern (alts [str "gemini.google"; str "bard"]) true false);
   ("copilot",       (* /github.*copilot|copilot/i *)
    Pattern (alts [seqs [str "github"; star Dot; str "copilot"]; str "copilot"])
            true false);
   ("midjourney",    (* /midjourney/i *)
    Pattern (str "midjourney") true false);
   ("perplexity",    (* /perplexity\.ai/i *)
    Pattern (str "perplexity.ai") true false)].

Definition blank : jsstring := lit " ".

Fixpoint first_tool (ps : list (string * pattern)) (text : jsstring)
    : option string :=
  match ps with
  | [] => None
  | (tool, p) :: ps' =>
      if test_pure p text then Some tool else first_tool ps' text
  end.

Definition detectAITool (windowName content : jsstring) : option string :=
  let combinedText := toLowerCase (windowName ++ blank ++ content) in
  first_tool aiToolPatterns combinedText.

(** *** promptQualityIndicators *)

Definition poor_indicators : list pattern :=
  [ (* /^(help|fix|do|make|create)$/i *)
    Pattern (seqs [Bol; alts [str "help"; str "fix"; str "do"; str "make";
                              str "create"]; Eol]) true false;
    (* /^.{0,10}$/ *)
    Pattern (seqs [Bol; between 0 10 Dot; Eol]) false false;
    (* /^(what|how|why|when|where)$/i *)
    Pattern (seqs [Bol; alts [str "what"; str "how"; str "why"; str "when";
                              str "where"]; Eol]) true false ].

Definition good_indicators : list pattern :=
  [ (* /context|background|specifically|example|format|style/i *)
    Pattern (alts [str "context"; str "background"; str "specifically";
                   str "example"; str "format"; str "style"]) true false;
    (* /step.?by.?step|detailed|comprehensive/i *)
    Pattern (alts [seqs [str "step"; opt Dot; str "by"; opt Dot; str "step"];
                   str "detailed"; str "comprehensive"]) true false;
    (* /please.*explain|can.*you.*help.*with/i *)
    Pattern (alts [seqs [str "please"; star Dot; str "explain"];
                   seqs [str "can"; star Dot; str "you"; star Dot; str "help";
                         star Dot; str "with"]]) true false ].

Definition excellent_indicators : list pattern :=
  [ (* /role.*play|act.*as|perspective|persona/i *)
    Pattern (alts [seqs [str "role"; star Dot; str "play"];
                   seqs [str "act"; star Dot; str "as"];
                   str "perspective"; str "persona"]) true false;
    (* /constraints|requirements|specifications/i *)
    Pattern (alts [str "constraints"; str "requirements"; str "specifications"])
            true false;
    (* /format.*as|structure.*like|output.*should/i *)
    Pattern (alts [seqs [str "format"; star Dot; str "as"];
                   seqs [str "structure"; star Dot; str "like"];
                   seqs [str "output"; star Dot; str "should"]]) true false;
    (* /avoid|don't|exclude|without/i *)
    Pattern (alts [str "avoid"; str "don't"; str "exclude"; str "without"])
            true false ].

Inductive PromptQuality : Type := poor | fair | good | excellent.
Inductive RiskLevel : Type := low | medium | high | critical.

(** [for (const pattern of ps) if (pattern.test(text)) return ...]: whether
    the loop returns. *)
Fixpoint loop_returns (ps : list pattern) (text : jsstring) : bool :=
  match ps with
  | [] => false
  | p :: ps' => if test_pure p text then true else loop_returns ps' text
  end.

(** The counting loop: [n] is goodIndicators. *)
Fixpoint loop_counts (ps : list pattern) (text : jsstring) (n : nat) : nat :=
  match ps with
  | [] => n
  | p :: ps' => loop_counts ps' text (if test_pure p text then S n else n)
  end.

Definition analyzePromptQuality (text : jsstring) : PromptQuality :=
  if loop_returns excellent_indicators text then excellent
  else
    let goodIndicators := loop_counts good_indicators text 0 in
    if (2 <=? goodIndicators)%nat then good
    else if (goodIndicators =? 1)%nat then fair
    else if loop_returns poor_indicators text then poor
    else if (50 <? List.length text)%nat then fair else poor.

(** *** calculateRiskLevel *)

(** Truthiness of a [string | null]. *)
Definition truthy (o : option string) : bool :=
  match o with
  | Some s => negb (String.eqb s "")
  | None => false
  end.

(** [Array.prototype.includes] on strings. *)
Definition array_includes (l : list string) (x : string) : bool :=
  existsb (String.eqb x) l.

Definition calculateRiskLevel (hasSensitiveData : bool)
    (sensitiveTypes : list string) (aiToolDetected : option string)
    : RiskLevel :=
  if negb (truthy aiToolDetected) then low
  else if hasSensitiveData then
    if existsb (fun type => array_includes ["apiKey"; "password"; "ssn"] type)
         sensitiveTypes
    then critical
    else if existsb (fun type =>
                array_includes ["financialData"; "customerData"; "creditCard"] type)
              sensitiveTypes
    then high
    else medium
  else low.

(** *** Suggestions and learning opportunities *)

Inductive SuggestionType : Type := security | efficiency | quality | alternative.
Inductive Priority : Type := priority_low | priority_medium | priority_high.

(** The issueType that getSpecificPromptFeedback hands to
    generateImprovedPrompt. *)
Inductive IssueType : Type :=
  one_word | too_short | vague_request | code_help | generic.

(** A suggestion.  The prose of [description], [improvedPrompt] and
    [learningResource] is left out; [improvedPrompt] records that the field
    is present, which generateImprovedPrompt makes a non-empty string
    for every issue type, and which template produced it. *)
Record Suggestion : Type := mkSuggestion {
  s_type : SuggestionType;
  s_title : string;
  actionable : bool;
  priority : Priority;
  improvedPrompt : option IssueType;
  canRewrite : bool
}.

Inductive LearningType : Type :=
  prompt_improvement | tool_suggestion | security_risk | efficiency_tip.

Record LearningOpportunity : Type := mkLearning {
  l_type : LearningType;
  l_title : string
}.

(** /^(help|fix|do|make|create|what|why|how|when|where)$/ *)
Definition one_word_pattern : pattern :=
  Pattern (seqs [Bol; alts [str "help"; str "fix"; str "do"; str "make";
                            str "create"; str "what"; str "why"; str "how";
                            str "when"; str "where"]; Eol]) false false.

(** /^(help me|fix this|do this|make it)$/ *)
Definition vague_pattern : pattern :=
  Pattern (seqs [Bol; alts [str "help me"; str "fix this"; str "do this";
                            str "make it"]; Eol]) false false.

Definition getSpecificPromptFeedback (content : jsstring) : IssueType :=
  let trimmedContent := toLowerCase (trim content) in
  if test_pure one_word_pattern trimmedContent then one_word
  else if (List.length trimmedContent <? 10)%nat then too_short
  else if test_pure vague_pattern trimmedContent then vague_request
  else if includes trimmedContent (lit "code")
          && (List.length trimmedContent <? 20)%nat then code_help
  else generic.

Definition generateSuggestions (aiTool : option string)
    (sensitiveData : SensitiveData) (promptQuality : PromptQuality)
    (content : jsstring) : list Suggestion :=
  (if detected sensitiveData && truthy aiTool then
     [mkSuggestion security "Sensitive Data Detected" true priority_high
        None false;
      mkSuggestion alternative "Use Local AI Alternative" true priority_medium
        None false]
   else [])
  ++
  (match promptQuality with
   | poor =>
       [mkSuggestion quality "Your Prompt Needs Improvement" true priority_high
          (Some (getSpecificPromptFeedback content)) true]
   | fair =>
       [mkSuggestion quality "DAM Can Make Your Prompt More Effective" true
          priority_medium (Some (getSpecificPromptFeedback content)) true]
   | _ => []
   end)
  ++
  (if includes (toLowerCase content) (lit "spreadsheet")
      || includes (toLowerCase content) (lit "excel")
      || includes (toLowerCase content) (lit "csv")
   then [mkSuggestion efficiency "Use Specialized Tools" true priority_low
           None false]
   else []).

Definition is_chatgpt (aiTool : option string) : bool :=
  match aiTool with
  | Some t => String.eqb t "chatgpt"
  | None => false
  end.

Definition identifyLearningOpportunity (aiTool : option string)
    (promptQuality : PromptQuality) (sensitiveData : SensitiveData)
    (content : jsstring) : option LearningOpportunity :=
  if detected sensitiveData && truthy aiTool then
    Some (mkLearning security_risk "Data Privacy Best Practices")
  else
    match promptQuality with
    | poor => Some (mkLearning prompt_improvement "Write Better AI Prompts")
    | fair => Some (mkLearning prompt_improvement "Write Better AI Prompts")
    | _ =>
        if includes (toLowerCase content) (lit "code") && is_chatgpt aiTool
        then Some (mkLearning tool_suggestion "Try GitHub Copilot for Coding")
        else None
    end.

(** *** sanitizeContentForAlert *)

Definition API_KEY_REDACTED : jsstring := lit "[API_KEY_REDACTED]".
Definition OPENAI_KEY_REDACTED : jsstring := lit "[OPENAI_KEY_REDACTED]".
Definition SSN_REDACTED : jsstring := lit "[SSN_REDACTED]".
Definition CREDIT_CARD_REDACTED : jsstring := lit "[CREDIT_CARD_REDACTED]".
Definition TRUNCATED : jsstring := lit "... [TRUNCATED]".

(** The sanitized text.  [replace] with a pattern that has the [g] flag
    replaces every match; with one that has not, the first match only. *)
Definition sanitizeContentForAlert (content : jsstring) : jsstring :=
  let sanitized := content in
  let sanitized := replace apiKey sanitized API_KEY_REDACTED in
  let sanitized := replace openaiKey sanitized OPENAI_KEY_REDACTED in
  let sanitized := replace ssn sanitized SSN_REDACTED in
  let sanitized := replace creditCard sanitized CREDIT_CARD_REDACTED in
  if (500 <? List.length sanitized)%nat
  then substring0 500 sanitized ++ TRUNCATED
  else sanitized.

(** Its effect on the analyzer: the two [replace] calls with a [g] pattern
    leave the [lastIndex] of [apiKey] and of [openaiKey] at 0. *)
Definition sanitize_state (st : regex_state) : regex_state :=
  set_cell (set_cell st CApiKey 0) COpenaiKey 0.

(** *** analyzeContent *)

Record ScreenCaptureResult : Type := mkCapture {
  timestamp : Z;
  imageData : jsstring;
  activeWindow : jsstring;
  screenId : jsstring
}.

Record AnalysisResult : Type := mkAnalysis {
  a_timestamp : Z;
  riskLevel : RiskLevel;
  sensitiveDataDetected : bool;
  sensitiveDataTypes : list string;
  aiToolDetected : option string;
  promptQuality : PromptQuality;
  suggestions : list Suggestion;
  learningOpportunity : option LearningOpportunity
}.

Definition is_high_or_critical (r : RiskLevel) : bool :=
  match r with
  | high | critical => true
  | _ => false
  end.

(** syncToEnterpriseDashboard, as far as the analyzer itself is concerned:
    the alert branch evaluates sanitizeContentForAlert on the text.  The
    queues of the dashboard service are outside this model. *)
Definition syncToEnterpriseDashboard (result : AnalysisResult)
    (st : regex_state) : regex_state :=
  if is_high_or_critical (riskLevel result) || sensitiveDataDetected result
  then sanitize_state st
  else st.

(** [now] is the reading of [Date.now()]. *)
Definition analyzeContent (st : regex_state) (now : Z)
    (screenCapture : ScreenCaptureResult) (extractedText : jsstring)
    : AnalysisResult * regex_state :=
  let aiToolDetected := detectAITool (activeWindow screenCapture) extractedText in
  let '(sensitiveDataAnalysis, st1) := analyzeSensitiveData st extractedText in
  let promptQuality :=
    if truthy aiToolDetected then analyzePromptQuality extractedText else good in
  let riskLevel :=
    calculateRiskLevel (detected sensitiveDataAnalysis)
      (types sensitiveDataAnalysis) aiToolDetected in
  let suggestions :=
    generateSuggestions aiToolDetected sensitiveDataAnalysis promptQuality
      extractedText in
  let learningOpportunity :=
    identifyLearningOpportunity aiToolDetected promptQuality
      sensitiveDataAnalysis extractedText in
  let result :=
    mkAnalysis now riskLevel (detected sensitiveDataAnalysis)
      (types sensitiveDataAnalysis) aiToolDetected promptQuality suggestions
      learningOpportunity in
  (result, syncToEnterpriseDashboard result st1).

End Analyzer.

Import Analyzer.

(* ================================================================== *)
(** ** AIWindowDetector *)
(* ================================================================== *)

Module WindowDetector.

Open Scope string_scope.
Open Scope list_scope.

Record AIWindowInfo : Type := mkInfo {
  isAIWindow : bool;
  platform : option string;
  url : option jsstring;
  appName : option string
}.

(** [{ isAIWindow: false }] *)
Definition not_ai : AIWindowInfo := mkInfo false None None None.

(** /https?:\/\/.../i: the scheme of every entry of aiPlatformUrls. *)
Definition scheme : regex := seqs [str "http"; opt (Char (c "s")); str "://"].

Definition aiPlatformUrls : list (pattern * string) :=
  [ (* /https?:\/\/(www\.)?chatgpt\.com/i *)
    (Pattern (seqs [scheme; opt (str "www."); str "chatgpt.com"]) true false,
     "ChatGPT");
    (* /https?:\/\/chat\.openai\.com/i *)
    (Pattern (seqs [scheme; str "chat.openai.com"]) true false, "ChatGPT");
    (* /https?:\/\/(www\.)?claude\.ai/i *)
    (Pattern (seqs [scheme; opt (str "www."); str "claude.ai"]) true false,
     "Claude");
    (* /https?:\/\/claude\.anthropic\.com/i *)
    (Pattern (seqs [scheme; str "claude.anthropic.com"]) true false, "Claude");
    (* /https?:\/\/gemini\.google\.com/i *)
    (Pattern (seqs [scheme; str "gemini.google.com"]) true false, "Gemini");
    (* /https?:\/\/bard\.google\.com/i *)
    (Pattern (seqs [scheme; str "bard.google.com"]) true false, "Gemini");
    (* /https?:\/\/(www\.)?perplexity\.ai/i *)
    (Pattern (seqs [scheme; opt (str "www."); str "perplexity.ai"]) true false,
     "Perplexity") ].

(** /x\s+(-|--)?/i *)
Definition cli (name : string) : pattern :=
  Pattern (seqs [str name; plus space; opt (alts [Char (c "-"); str "--"])])
          true false.

Definition terminalAIPatterns : list (pattern * string) :=
  [ (cli "claude", "Claude CLI");
    (cli "gemini", "Gemini CLI");
    (cli "openai", "OpenAI CLI");
    (cli "chatgpt", "ChatGPT CLI") ].

Definition aiDesktopApps : list (pattern * string) :=
  [ (* /claude.*desktop|claude\s*app/i *)
    (Pattern (alts [seqs [str "claude"; star Dot; str "desktop"];
                    seqs [str "claude"; star space; str "app"]]) true false,
     "Claude Desktop");
    (* /chatgpt.*desktop|openai.*app/i *)
    (Pattern (alts [seqs [str "chatgpt"; star Dot; str "desktop"];
                    seqs [str "openai"; star Dot; str "app"]]) true false,
     "ChatGPT Desktop");
    (* /gemini.*desktop|gemini\s*app/i *)
    (Pattern (alts [seqs [str "gemini"; star Dot; str "desktop"];
                    seqs [str "gemini"; star space; str "app"]]) true false,
     "Gemini Desktop") ].

(** [text.match(pattern)[0]] for a pattern without the [g] flag. *)
Definition match0 (p : pattern) (text : jsstring) : option jsstring :=
  match exec_from (ignoreCase p) (re p) text 0 with
  | Some (b, e) => Some (firstn (e - b) (skipn b text))
  | None => None
  end.

Fixpoint first_url (ps : list (pattern * string)) (combinedText : jsstring)
    : option AIWindowInfo :=
  match ps with
  | [] => None
  | (p, name) :: ps' =>
      if test_pure p combinedText
      then Some (mkInfo true (Some name) (match0 p combinedText) None)
      else first_url ps' combinedText
  end.

Fixpoint first_name (names : list string) (windowTitleLower : jsstring)
    : option AIWindowInfo :=
  match names with
  | [] => None
  | name :: names' =>
      if includes windowTitleLower (toLowerCase (lit name))
      then Some (mkInfo true (Some name) None None)
      else first_name names' windowTitleLower
  end.

Definition checkBrowserAIPlatform (windowTitle extractedText : jsstring)
    : AIWindowInfo :=
  let windowTitleLower := toLowerCase windowTitle in
  let isBrowser :=
    includes windowTitleLower (lit "chrome") ||
    includes windowTitleLower (lit "firefox") ||
    includes windowTitleLower (lit "safari") ||
    includes windowTitleLower (lit "edge") ||
    includes windowTitleLower (lit "brave") in
  if negb isBrowser then not_ai
  else
    let combinedText := windowTitle ++ blank ++ extractedText in
    match first_url aiPlatformUrls combinedText with
    | Some info => info
    | None =>
        match first_name ["ChatGPT"; "Claude"; "Gemini"; "Perplexity"]
                windowTitleLower with
        | Some info => info
        | None => not_ai
        end
    end.

Fixpoint first_cli (ps : list (pattern * string)) (extractedText : jsstring)
    : option AIWindowInfo :=
  match ps with
  | [] => None
  | (p, name) :: ps' =>
      if test_pure p extractedText
      then Some (mkInfo true (Some name) None (Some "Terminal"))
      else first_cli ps' extractedText
  end.

Definition checkTerminalAI (windowTitle extractedText : jsstring)
    : AIWindowInfo :=
  let windowTitleLower := toLowerCase windowTitle in
  let isTerminal :=
    includes windowTitleLower (lit "terminal") ||
    includes windowTitleLower (lit "iterm") ||
    includes windowTitleLower (lit "console") ||
    includes windowTitleLower (lit "powershell") ||
    includes windowTitleLower (lit "cmd") in
  if negb isTerminal then not_ai
  else
    match first_cli terminalAIPatterns extractedText with
    | Some info => info
    | None => not_ai
    end.

Fixpoint first_app (ps : list (pattern * string)) (windowTitleLower : jsstring)
    : option AIWindowInfo :=
  match ps with
  | [] => None
  | (p, name) :: ps' =>
      if test_pure p windowTitleLower
      then Some (mkInfo true (Some name) None (Some name))
      else first_app ps' windowTitleLower
  end.

Definition checkDesktopAIApp (windowTitle : jsstring) : AIWindowInfo :=
  match first_app aiDesktopApps (toLowerCase windowTitle) with
  | Some info => info
  | None => not_ai
  end.

Definition detectAIWindow (windowTitle extractedText : jsstring)
    : AIWindowInfo :=
  let browserMatch := checkBrowserAIPlatform windowTitle extractedText in
  if isAIWindow browserMatch then browserMatch
  else
    let terminalMatch := checkTerminalAI windowTitle extractedText in
    if isAIWindow terminalMatch then terminalMatch
    else
      let desktopMatch := checkDesktopAIApp windowTitle in
      if isAIWindow desktopMatch then desktopMatch
      else not_ai.

(** The literals [0.33] and [0.2]: the rational value of the IEEE double
    that the literal denotes.  A draw of [Math.random()] is a double too,
    so [<] on doubles is [<] on these rationals. *)
Definition double_0_33 : Q := 5944751508129055 # 18014398509481984.
Definition double_0_2 : Q := 3602879701896397 # 18014398509481984.

Definition Qltb (a b : Q) : bool := negb (Qle_bool b a).

Definition is_poor (q : PromptQuality) : bool :=
  match q with poor => true | _ => false end.
Definition is_fair (q : PromptQuality) : bool :=
  match q with fair => true | _ => false end.
Definition is_some {A : Type} (o : option A) : bool :=
  match o with Some _ => true | None => false end.

(** [random] is the value that [Math.random()] returns when the gate
    calls it; at most one call is made. *)
Definition shouldShowNotification (aiWindowInfo : AIWindowInfo)
    (analysisResult : AnalysisResult) (random : Q) : bool :=
  if negb (isAIWindow aiWindowInfo) then false
  else if is_high_or_critical (riskLevel analysisResult) then true
  else if sensitiveDataDetected analysisResult then true
  else if is_poor (promptQuality analysisResult) then Qltb random double_0_33
  else if is_some (learningOpportunity analysisResult)
          && is_fair (promptQuality analysisResult)
  then Qltb random double_0_2
  else false.

End WindowDetector.

Import WindowDetector.

(* ================================================================== *)
(** ** NotificationSettings and MonitoringService *)
(* ================================================================== *)

Module Monitoring.

Open Scope string_scope.
Open Scope list_scope.

Inductive Frequency : Type := all | occasional | minimal.
Inductive Position : Type := top_right | bottom_right | center.

Record NotificationPreferences : Type := mkPrefs {
  enabled : bool;
  criticalAlerts : bool;
  securityWarnings : bool;
  promptSuggestions : bool;
  learningTips : bool;
  frequency : Frequency;
  soundEnabled : bool;
  position : Position
}.

Definition defaultSettings : NotificationPreferences :=
  mkPrefs true true true false false minimal false bottom_right.

(** The doubles [1.0], [0.3] and [0.1]. *)
Definition getFrequencyMultiplier (prefs : NotificationPreferences) : Q :=
  match frequency prefs with
  | all => 1
  | occasional => 5404319552844595 # 18014398509481984
  | minimal => 3602879701896397 # 36028797018963968
  end.

Inductive NotificationType : Type := n_warning | n_tip | n_success | n_error.

(** The options handed to showNotification: its type, its title (without
    the leading pictograph of the critical title) and the [action] of
    each of its buttons. *)
Record NotificationOptions : Type := mkNotification {
  n_type : NotificationType;
  n_title : string;
  n_actions : list string
}.

(** What a tick asks of the services around the orchestrator, in the order
    in which it asks. *)
Inductive event : Type :=
| Classify (windowTitle extractedText : jsstring)
    (* aiWindowDetector.detectAIWindow *)
| Ocr (capture : ScreenCaptureResult)
    (* ocrService.extractText *)
| Analyze (capture : ScreenCaptureResult) (text : jsstring)
    (* contentAnalyzer.analyzeContent *)
| InsertUsage (tool : string)
    (* databaseService.run: INSERT INTO ai_usage *)
| InsertAlert (severity : RiskLevel)
    (* databaseService.run: INSERT INTO alerts *)
| Show (options : NotificationOptions).
    (* notificationService.showNotification *)

(** What the surroundings answer during one tick. *)
Record world : Type := mkWorld {
  now_analysis : Z;              (* Date.now() in analyzeScreenCapture *)
  now_content : Z;               (* Date.now() in analyzeContent *)
  now_gate : Z;                  (* Date.now() in canShowNotification *)
  now_dispatch : Z;              (* Date.now() in handleAnalysisResults *)
  ocr_text : option jsstring;    (* the text of extractText; None: it throws *)
  usage_insert_ok : bool;        (* does the INSERT INTO ai_usage resolve *)
  random_gate : Q;               (* Math.random() in shouldShowNotification *)
  random_prompt : Q;             (* Math.random() of the prompt-tip draw *)
  random_tip : Q;                (* Math.random() of the learning-tip draw *)
  prefs : NotificationPreferences  (* notificationSettings.getPreferences() *)
}.

(** The fields of the orchestrator that a tick reads or writes, with the
    [lastIndex] cells of the analyzer it holds. *)
Record monitor : Type := mkMonitor {
  lastAnalysisTime : Z;
  lastNotificationTime : Z;
  analyzer : regex_state
}.

Definition analysisThrottleMs : Z := 3000.
Definition notificationThrottleMs : Z := 30000.

(** The monitor as constructed. *)
Definition initial : monitor := mkMonitor 0 0 fresh.

Definition canShowNotification (s : monitor) (w : world) : bool :=
  let now := now_gate w in
  let timeSinceLastNotification := (now - lastNotificationTime s)%Z in
  if (timeSinceLastNotification <? notificationThrottleMs)%Z then false
  else enabled (prefs w).

Definition alert_events (analysis : AnalysisResult) : list event :=
  if is_high_or_critical (riskLevel analysis)
  then [InsertAlert (riskLevel analysis)] else [].

(** recordAnalysis.  A rejected usage insert leaves the [try] block, so
    the alert is not created; createAlert catches its own failure. *)
Definition recordAnalysis (w : world) (analysis : AnalysisResult)
    : list event :=
  match aiToolDetected analysis with
  | Some tool =>
      if truthy (Some tool) then
        if usage_insert_ok w then InsertUsage tool :: alert_events analysis
        else [InsertUsage tool]
      else alert_events analysis
  | None => alert_events analysis
  end.

Definition critical_notification : NotificationOptions :=
  mkNotification n_error "Critical Security Risk" ["remove_sensitive"; "dismiss"].
Definition security_notification : NotificationOptions :=
  mkNotification n_warning "Security Risk Detected" ["view_details"; "dismiss"].
Definition prompt_notification : NotificationOptions :=
  mkNotification n_tip "Improve Your Prompt"
    ["copy_improved"; "learn_more"; "dismiss"].
Definition learning_notification (l : LearningOpportunity)
    : NotificationOptions :=
  mkNotification n_tip (l_title l) ["open_training"; "dismiss"].

Definition is_critical (r : RiskLevel) : bool :=
  match r with critical => true | _ => false end.
Definition is_high (r : RiskLevel) : bool :=
  match r with high => true | _ => false end.
Definition is_quality (s : Suggestion) : bool :=
  match s_type s with quality => true | _ => false end.

(** The learning tip, the last of the four branches. *)
Definition learning_branch (w : world) (analysis : AnalysisResult)
    : list event :=
  match learningOpportunity analysis with
  | Some l =>
      if learningTips (prefs w)
         && Qltb (random_tip w) (getFrequencyMultiplier (prefs w) * (1 # 2))
      then [Show (learning_notification l)]
      else []
  | None => []
  end.

(** handleAnalysisResults: the time stamp is written on entry, then the
    four branches are tried in turn.  Reading the preferences cannot fail
    (ConfigService.get catches), and a failure inside showNotification is
    caught after the call was made. *)
Definition handleAnalysisResults (s : monitor) (w : world)
    (analysis : AnalysisResult) : list event * monitor :=
  let prefs := prefs w in
  let frequencyMultiplier := getFrequencyMultiplier prefs in
  let s := mkMonitor (lastAnalysisTime s) (now_dispatch w) (analyzer s) in
  if is_critical (riskLevel analysis) && criticalAlerts prefs then
    ([Show critical_notification], s)
  else if is_high (riskLevel analysis) && securityWarnings prefs then
    ([Show security_notification], s)
  else if promptSuggestions prefs && is_poor (promptQuality analysis)
          && Qltb (random_prompt w) frequencyMultiplier then
    let promptSuggestions := filter is_quality (suggestions analysis) in
    match promptSuggestions with
    | s0 :: _ =>
        if is_some (improvedPrompt s0) then ([Show prompt_notification], s)
        else (learning_branch w analysis, s)
    | [] => (learning_branch w analysis, s)
    end
  else (learning_branch w analysis, s).

(** analyzeScreenCapture: one tick of the capture callback. *)
Definition analyzeScreenCapture (s : monitor) (w : world)
    (capture : ScreenCaptureResult) : list event * monitor :=
  let now := now_analysis w in
  if (now - lastAnalysisTime s <? analysisThrottleMs)%Z then ([], s)
  else
    let s := mkMonitor now (lastNotificationTime s) (analyzer s) in
    let aiWindowInfo := detectAIWindow (activeWindow capture) [] in
    let classified := [Classify (activeWindow capture) []] in
    if negb (isAIWindow aiWindowInfo) then (classified, s)
    else
      match ocr_text w with
      | None => (classified ++ [Ocr capture], s)
      | Some text =>
          if (List.length text =? 0)%nat || (List.length (trim text) =? 0)%nat
          then (classified ++ [Ocr capture], s)
          else
            let '(analysis, a) :=
              analyzeContent (analyzer s) (now_content w) capture text in
            let s := mkMonitor (lastAnalysisTime s) (lastNotificationTime s) a in
            let done :=
              classified ++ [Ocr capture; Analyze capture text]
              ++ recordAnalysis w analysis in
            let shouldNotify :=
              shouldShowNotification aiWindowInfo analysis (random_gate w) in
            if shouldNotify && canShowNotification s w then
              let '(dispatched, s') := handleAnalysisResults s w analysis in
              (done ++ dispatched, s')
            else (done, s)
      end.

(** The events behind the classification gate: text extraction, content
    analysis, persistence and notification. *)
Definition behind_gate (e : event) : bool :=
  match e with
  | Classify _ _ => false
  | Ocr _ | Analyze _ _ | InsertUsage _ | InsertAlert _ | Show _ => true
  end.

(** The notifications shown in a trace. *)
Fixpoint shown (tr : list event) : list NotificationOptions :=
  match tr with
  | [] => []
  | Show n :: tr' => n :: shown tr'
  | _ :: tr' => shown tr'
  end.

End Monitoring.

Import Monitoring.

(* ================================================================== *)
(** ** AIDetectionService *)
(* ================================================================== *)

Module Detection.

Open Scope string_scope.
Open Scope list_scope.

(** [this.knownAITools]: a Set iterates in insertion order. *)
Definition knownAITools : list string :=
  ["chatgpt"; "claude"; "copilot"; "gemini"; "bard"; "midjourney"; "dall-e";
   "stable diffusion"; "character.ai"; "perplexity"; "jasper"; "writesonic";
   "copy.ai"].

Definition aiPatterns : list string :=
  ["openai.com"; "chat.openai.com"; "claude.ai"; "bard.google.com";
   "github.com/features/copilot"; "midjourney.com"; "beta.character.ai"].

(** [Object.entries(mapping)] of mapUrlToTool. *)
Definition mapping : list (string * string) :=
  [("openai.com", "chatgpt"); ("chat.openai.com", "chatgpt");
   ("claude.ai", "claude"); ("bard.google.com", "bard");
   ("copilot", "copilot"); ("midjourney.com", "midjourney");
   ("character.ai", "character.ai")].

Fixpoint first_mapping (entries : list (string * string)) (url : jsstring)
    : string :=
  match entries with
  | [] => "unknown"
  | (pattern, tool) :: entries' =>
      if includes url (lit pattern) then tool else first_mapping entries' url
  end.

Definition mapUrlToTool (url : jsstring) : string := first_mapping mapping url.

Fixpoint first_known (tools : list string) (windowName : jsstring)
    : option string :=
  match tools with
  | [] => None
  | tool :: tools' =>
      if includes windowName (lit tool) then Some tool
      else first_known tools' windowName
  end.

Fixpoint first_pattern (patterns : list string) (windowName : jsstring)
    : option string :=
  match patterns with
  | [] => None
  | pattern :: patterns' =>
      if includes windowName (lit pattern)
      then Some (mapUrlToTool (lit pattern))
      else first_pattern patterns' windowName
  end.

Definition identifyAITool (windowName : jsstring) : option string :=
  match first_known knownAITools windowName with
  | Some tool => Some tool
  | None => first_pattern aiPatterns windowName
  end.

Inductive UsageType : Type :=
  code_assistance | writing_assistance | image_generation | conversation
| general.

(** The two flags of the content analysis that determineUsageType reads. *)
Definition determineUsageType (windowName : jsstring)
    (hasUserInput hasAIResponse : bool) : UsageType :=
  if includes windowName (lit "code") || includes windowName (lit "github")
  then code_assistance
  else if includes windowName (lit "write")
          || includes windowName (lit "document")
  then writing_assistance
  else if includes windowName (lit "image") || includes windowName (lit "art")
  then image_generation
  else if hasUserInput && hasAIResponse then conversation
  else general.

(** analyzeWindowContent is a stub: it reports neither user input nor an
    AI response. *)
Definition stub_hasUserInput : bool := false.
Definition stub_hasAIResponse : bool := false.

(** The fields [tool] and [type] of the result of analyzeWindow; [None] is
    null. *)
Definition analyzeWindow (name : jsstring) : option (string * UsageType) :=
  let windowName := toLowerCase name in
  match identifyAITool windowName with
  | Some detectedTool =>
      if negb (truthy (Some detectedTool)) then None
      else Some (detectedTool,
                 determineUsageType windowName stub_hasUserInput
                   stub_hasAIResponse)
  | None => None
  end.

End Detection.

Import Detection.

(* ================================================================== *)
(** ** NotificationSettings: reading and saving the preferences *)
(* ================================================================== *)

Module Settings.

(** A [Partial<NotificationPreferences>]: each field may be absent. *)
Record PartialPreferences : Type := mkPartial {
  p_enabled : option bool;
  p_criticalAlerts : option bool;
  p_securityWarnings : option bool;
  p_promptSuggestions : option bool;
  p_learningTips : option bool;
  p_frequency : option Frequency;
  p_soundEnabled : option bool;
  p_position : option Position
}.

(** What the configuration store holds under the key
    notificationPreferences: nothing, a value that is not an object, or an
    object with some of the fields. *)
Inductive stored : Type :=
| Missing
| Scalar
| Object (fields : PartialPreferences).

Definition or_else {A : Type} (o : option A) (d : A) : A :=
  match o with
  | Some a => a
  | None => d
  end.

(** [{ ...base, ...over }] *)
Definition spread (base : NotificationPreferences) (over : PartialPreferences)
    : NotificationPreferences :=
  mkPrefs (or_else (p_enabled over) (enabled base))
          (or_else (p_criticalAlerts over) (criticalAlerts base))
          (or_else (p_securityWarnings over) (securityWarnings base))
          (or_else (p_promptSuggestions over) (promptSuggestions base))
          (or_else (p_learningTips over) (learningTips base))
          (or_else (p_frequency over) (frequency base))
          (or_else (p_soundEnabled over) (soundEnabled base))
          (or_else (p_position over) (position base)).

(** A full record as the object that is written to the store. *)
Definition as_object (prefs : NotificationPreferences) : PartialPreferences :=
  mkPartial (Some (enabled prefs)) (Some (criticalAlerts prefs))
            (Some (securityWarnings prefs)) (Some (promptSuggestions prefs))
            (Some (learningTips prefs)) (Some (frequency prefs))
            (Some (soundEnabled prefs)) (Some (position prefs)).

Definition getPreferences (store : stored) : NotificationPreferences :=
  match store with
  | Object saved => spread defaultSettings saved
  | _ => defaultSettings
  end.

(** savePreferences; [set_ok] tells whether the store accepts the write
    (ConfigService.set catches a failure and goes on). *)
Definition savePreferences (store : stored) (set_ok : bool)
    (preferences : PartialPreferences) : stored :=
  let current := getPreferences store in
  let updated := spread current preferences in
  if set_ok then Object (as_object updated) else store.

Inductive NotificationKind : Type :=
  kind_critical | kind_security | kind_prompt | kind_learning | kind_other.

(** shouldShowNotificationType, with the strings of its switch as [kind]
    (any other string is [kind_other]). *)
Definition shouldShowNotificationType (store : stored)
    (kind : NotificationKind) : bool :=
  let prefs := getPreferences store in
  if negb (enabled prefs) then false
  else
    match kind with
    | kind_critical | kind_security =>
        criticalAlerts prefs || securityWarnings prefs
    | kind_prompt => promptSuggestions prefs
    | kind_learning => learningTips prefs
    | kind_other => false
    end.

End Settings.

Import Settings.

(* ================================================================== *)
(** ** MonitoringService: sessions and the content hash *)
(* ================================================================== *)

Module Service.

Open Scope list_scope.

(** A row of monitoring_sessions. *)
Record session : Type := mkSession {
  session_id : nat;
  start_time : Z;
  end_time : option Z
}.

(** The orchestrator's [isActive] and [currentSessionId]; of the capture
    service its flag [isCapturing], its field [captureInterval], the
    number of calls of startCapture that wait for their initial capture
    ([pending]: what follows the [await] has not run yet), and the interval
    timers that were created and not cleared ([timers], named 1, 2, ... in
    the order of their creation, [created] so far); and the table
    monitoring_sessions.  Rows are only ever inserted, so the
    AUTOINCREMENT key of the next row is one more than their number. *)
Record service : Type := mkService {
  isActive : bool;
  currentSessionId : option nat;
  isCapturing : bool;
  captureInterval : option nat;
  pending : nat;
  created : nat;
  timers : list nat;
  sessions : list session
}.

(** The service as constructed, over an empty table. *)
Definition stopped : service := mkService false None false None 0 0 [] [].

(** What the surroundings answer to one call: the time, whether the
    database statement of the call resolves, and whether the status
    broadcast to the renderer windows goes through. *)
Record answers : Type := mkAnswers {
  at_time : Z;
  db_ok : bool;
  notify_ok : bool
}.

Inductive outcome : Type := returned | thrown.

Definition set_isActive (b : bool) (s : service) : service :=
  mkService b (currentSessionId s) (isCapturing s) (captureInterval s)
    (pending s) (created s) (timers s) (sessions s).

Definition set_session (id : option nat) (rows : list session) (s : service)
    : service :=
  mkService (isActive s) id (isCapturing s) (captureInterval s)
    (pending s) (created s) (timers s) rows.

(** *** ScreenCaptureService *)

(** startCapture up to its [await]: the flag and the callback are set and
    the initial capture is under way; the rest of the call, which creates
    the interval timer, waits for it. *)
Definition startCapture (s : service) : service :=
  if isCapturing s then s
  else mkService (isActive s) (currentSessionId s) true (captureInterval s)
         (S (pending s)) (created s) (timers s) (sessions s).

(** clearInterval *)
Definition clearInterval (t : nat) (running : list nat) : list nat :=
  filter (fun t' => negb (t' =? t)%nat) running.

(** stopCapture clears the timer that [captureInterval] holds, if it holds
    one. *)
Definition stopCapture (s : service) : service :=
  if negb (isCapturing s) then s
  else mkService (isActive s) (currentSessionId s) false None
         (pending s) (created s)
         (match captureInterval s with
          | Some t => clearInterval t (timers s)
          | None => timers s
          end)
         (sessions s).

(** The initial capture of a waiting startCapture is over (captureScreen
    catches its own errors): the call goes on and creates its interval
    timer, whatever became of the flag in the meantime. *)
Definition captureReady (s : service) : service :=
  match pending s with
  | O => s
  | S waiting =>
      let t := S (created s) in
      mkService (isActive s) (currentSessionId s) (isCapturing s) (Some t)
        waiting t (timers s ++ [t]) (sessions s)
  end.

(** *** MonitoringService *)

(** UPDATE monitoring_sessions SET end_time = ? WHERE id = ? *)
Definition close_row (id : nat) (t : Z) (rows : list session) : list session :=
  List.map (fun r => if (session_id r =? id)%nat
                     then mkSession (session_id r) (start_time r) (Some t)
                     else r) rows.

(** Truthiness of [currentSessionId]: null and 0 are falsy. *)
Definition has_session (id : option nat) : option nat :=
  match id with
  | Some (S n) => Some (S n)
  | _ => None
  end.

(** startMonitoringSession, when the INSERT resolves. *)
Definition startMonitoringSession (s : service) (a : answers) : service :=
  let id := S (List.length (sessions s)) in
  set_session (Some id) (sessions s ++ [mkSession id (at_time a) None]) s.

(** endMonitoringSession catches a failing UPDATE itself and leaves
    [currentSessionId] as it is. *)
Definition endMonitoringSession (s : service) (a : answers) : service :=
  match has_session (currentSessionId s) with
  | None => s
  | Some id =>
      if db_ok a then set_session None (close_row id (at_time a) (sessions s)) s
      else s
  end.

(** start().  A failing INSERT or a failing broadcast is caught, the
    service is marked inactive again and the error is thrown on; what was
    done before the failure stays done.  startScreenCapture does not wait
    for startCapture: start goes on while the initial capture is under
    way. *)
Definition start (s : service) (a : answers) : service * outcome :=
  if isActive s then (s, returned)
  else
    let s := set_isActive true s in
    if negb (db_ok a) then (set_isActive false s, thrown)
    else
      let s := startMonitoringSession s a in
      let s := startCapture s in
      if notify_ok a then (s, returned) else (set_isActive false s, thrown).

(** stop() *)
Definition stop (s : service) (a : answers) : service * outcome :=
  if negb (isActive s) then (s, returned)
  else
    let s := set_isActive false s in
    let s := stopCapture s in
    let s := endMonitoringSession s a in
    (s, if notify_ok a then returned else thrown).

(** What happens to the service: a call of start or of stop, each with the
    answers it gets, or the end of the initial capture of a waiting
    startCapture. *)
Inductive call : Type :=
| Start (a : answers)
| Stop (a : answers)
| Ready.

Definition perform (s : service) (c : call) : service :=
  match c with
  | Start a => fst (start s a)
  | Stop a => fst (stop s a)
  | Ready => captureReady s
  end.

(** A sequence of calls, each run to completion before the next. *)
Definition run (s : service) (cs : list call) : service :=
  fold_left perform cs s.



Definition is_open (r : session) : bool :=
  match end_time r with
  | None => true
  | Some _ => false
  end.

Definition open_sessions (s : service) : list session :=
  filter is_open (sessions s).

(** *** generateContentHash *)

(** ToInt32 of an integer-valued number. *)
Definition ToInt32 (z : Z) : Z := ((z + 2 ^ 31) mod 2 ^ 32 - 2 ^ 31)%Z.

(** One round of the loop: [((hash << 5) - hash) + char], then
    [hash & hash].  The shift and the [&] work on 32-bit integers; the
    subtraction and the addition are exact on numbers of this size. *)
Definition hash_round (hash : Z) (char : char) : Z :=
  let hash := (ToInt32 (ToInt32 hash * 2 ^ 5) - hash + Z.of_N char)%Z in
  Z.land (ToInt32 hash) (ToInt32 hash).

(** The value handed to [toString(16)]: [Math.abs(hash)]. *)
Definition content_hash_value (content : jsstring) : Z :=
  Z.abs (fold_left hash_round content 0%Z).

Definition hex_digit (d : N) : JSString.char :=
  if (d <? 10)%N then (48 + d)%N else (87 + d)%N.

(** The digits of [n] in base 16, most significant first; the fuel is the
    number of binary digits of [n], which is enough. *)
Fixpoint hex_digits (fuel : nat) (n : N) (acc : jsstring) : jsstring :=
  match fuel with
  | O => acc
  | S fuel' =>
      let acc' := hex_digit (n mod 16) :: acc in
      if (n / 16 =? 0)%N then acc' else hex_digits fuel' (n / 16)%N acc'
  end.

(** [n.toString(16)] for an integer [0 <= n]. *)
Definition toString16 (n : N) : jsstring :=
  hex_digits (S (N.to_nat (N.log2 n))) n [].

Definition generateContentHash (content : jsstring) : jsstring :=
  toString16 (Z.to_N (content_hash_value content)).

(** The polynomial of the hash: h(c1..cn) = 31^(n-1) c1 + ... + cn. *)
Definition polynomial31 (content : jsstring) : Z :=
  fold_left (fun h ch => (31 * h + Z.of_N ch)%Z) content 0%Z.

End Service.

Import Service.

(* ================================================================== *)
(** ** Numbers: the product of a draw and a length *)
(* ================================================================== *)

Module Binary64.

Local Open Scope Z_scope.

(** A binary64 number that is not negative: [mantissa * 2 ^ exponent].
    The same number has several such forms; those of the numbers that
    exist have a mantissa below 2^53 and an exponent from -1074 on. *)
Record binary64 : Type := mkBinary64 {
  mantissa : Z;
  exponent : Z
}.

(** What Math.random may answer: a number that is at least 0 and less
    than 1. *)
Definition in_unit_interval (d : binary64) : bool :=
  (0 <=? mantissa d) && (mantissa d <? 2 ^ 53)
  && (-1074 <=? exponent d) && (exponent d <? 0)
  && (mantissa d <? 2 ^ (- exponent d)).

(** [p / 2^s] rounded to the nearest integer, a tie to the even one. *)
Definition round_half_even (p s : Z) : Z :=
  let q := p / 2 ^ s in
  let r := p mod 2 ^ s in
  match 2 * r ?= 2 ^ s with
  | Lt => q
  | Gt => q + 1
  | Eq => if Z.even q then q else q + 1
  end.

(** Number::multiply of [d] and the integer [n], for [0 <= n]: the exact
    product when its mantissa has at most 53 binary digits, and else the
    product rounded to 53 digits.  (The products below stay far from the
    largest binary64 number.) *)
Definition times_integer (d : binary64) (n : Z) : binary64 :=
  let p := mantissa d * n in
  if p <? 2 ^ 53 then mkBinary64 p (exponent d)
  else
    let s := Z.log2 p - 52 in
    mkBinary64 (round_half_even p s) (exponent d + s).

(** Math.floor *)
Definition floor (d : binary64) : Z :=
  if 0 <=? exponent d then mantissa d * 2 ^ exponent d
  else mantissa d / 2 ^ (- exponent d).

End Binary64.

Import Binary64.

(* ================================================================== *)
(** ** OCRService: the text of a capture *)
(* ================================================================== *)

Module Ocr.

Open Scope string_scope.
Open Scope list_scope.

Definition newline : jsstring := [10%N].

(** The texts of the scenarios for a browser or an assistant window. *)
Definition scenarios : list jsstring :=
  [lit "Human: use this API key sk-9940284204i2232 to access the service claude.ai";
   lit "Here's my OpenAI key: sk-proj-abcd1234567890 please help me integrate it chatgpt";
   lit "fix this code claude.ai";
   lit "help chatgpt";
   lit "what claude.ai";
   lit "do this openai";
   lit "make it work claude";
   lit "why chatgpt";
   lit "How do I create a user authentication system?" ++ newline
   ++ lit "Please provide step-by-step instructions with examples and security best practices.";
   lit "My customer data: " ++ newline
   ++ lit "Name: Sarah Johnson" ++ newline
   ++ lit "SSN: 123-45-6789" ++ newline
   ++ lit "Credit Card: 4532-1234-5678-9012" ++ newline
   ++ lit "Email: sarah@company.com";
   lit "Connect using: sk-1234567890abcdefghijklmnop and Bearer token xyz789"].

(** The texts of the scenarios for any other window. *)
Definition defaultScenarios : list jsstring :=
  [lit "fix"; lit "help me"; lit "what"; lit "do this"; lit "make it better"].

(** [l[Math.floor(Math.random() * l.length)].text]: the product is the
    Number product, rounded to binary64; [None] when the element is
    undefined and reading its [text] throws. *)
Definition pick (l : list jsstring) (random : binary64) : option jsstring :=
  match floor (times_integer random (Z.of_nat (List.length l))) with
  | Z.neg _ => None
  | index => nth_error l (Z.to_nat index)
  end.

(** The [text] of getMockTextForWindow, with the draw of Math.random. *)
Definition getMockTextForWindow (windowName : jsstring) (random : binary64)
    : option jsstring :=
  let windowLower := toLowerCase windowName in
  if includes windowLower (lit "claude")
     || includes windowLower (lit "anthropic")
     || includes windowLower (lit "chrome")
     || includes windowLower (lit "safari")
     || includes windowLower (lit "firefox")
     || includes windowLower (lit "browser")
     || includes windowLower (lit "chatgpt")
     || includes windowLower (lit "openai")
  then pick scenarios random
  else pick defaultScenarios random.

(** The [text] of extractText; initialize only sets a flag. *)
Definition extractText (screenCapture : ScreenCaptureResult)
    (random : binary64) : option jsstring :=
  getMockTextForWindow (activeWindow screenCapture) random.

End Ocr.

Import Ocr.

(* ================================================================== *)
(** ** Notions used in the statements *)
(* ================================================================== *)

Module Notions.

(** [l] is [full] with some elements left out, in the same order. *)
Inductive subseq {A : Type} : list A -> list A -> Prop :=
| subseq_nil : subseq [] []
| subseq_skip : forall x l full, subseq l full -> subseq l (x :: full)
| subseq_keep : forall x l full, subseq l full -> subseq (x :: l) (x :: full).

(** The keys of the table of sensitive patterns, in declaration order. *)
Definition sensitive_keys : list string :=
  List.map (fun e => fst (fst e)) sensitivePatterns.

(** The keys of the table of AI-tool patterns. *)
Definition tool_keys : list string := List.map fst aiToolPatterns.

(** The suggestion of the spreadsheet rule. *)
Definition efficiency_suggestion : Suggestion :=
  mkSuggestion efficiency "Use Specialized Tools" true priority_low None false.

Definition is_alert (n : NotificationOptions) : bool :=
  match n_type n with
  | n_error | n_warning => true
  | _ => false
  end.

(** Every notification of the list is the critical alert or the security
    warning. *)
Definition forall_shown_are_alerts (l : list NotificationOptions) : bool :=
  forallb is_alert l.

(** The value of a hexadecimal digit, and of a hexadecimal numeral. *)
Definition hex_value (c : JSString.char) : N :=
  if (c <? 58)%N then (c - 48)%N else (c - 87)%N.
Definition from_hex (s : jsstring) : N :=
  fold_left (fun n c => (16 * n + hex_value c)%N) s 0%N.

(** One of the characters 0-9 and a-f. *)
Definition is_hex_digit (c : JSString.char) : bool :=
  ((48 <=? c) && (c <=? 57) || (97 <=? c) && (c <=? 102))%N.

(** [p] occurs in [s]. *)
Definition occurs_in (p s : jsstring) : Prop :=
  exists before after, s = before ++ p ++ after.

(** The pattern matches nowhere in [s]. *)
Definition no_match (p : pattern) (s : jsstring) : Prop :=
  exec_from (ignoreCase p) (re p) s 0 = None.

(** The categories whose pattern has no [g] flag. *)
Definition stateless_keys : list string :=
  ["ssn"; "creditCard"; "email"; "phone"; "apiKeyGeneral"; "password";
   "financialData"; "customerData"].

(** The entry is not named [n], or its pattern keeps no [lastIndex]. *)
Definition stateless_for (n : string) (e : string * pattern * option cell)
    : bool :=
  negb (String.eqb (fst (fst e)) n)
  || match snd e with None => true | Some _ => false end.

Definition cell_eqb (a b : cell) : bool :=
  match a, b with
  | CApiKey, CApiKey | COpenaiKey, COpenaiKey | CAwsKey, CAwsKey => true
  | _, _ => false
  end.

(** The entry does not hold the cell [k]. *)
Definition without_cell (k : cell) (e : string * pattern * option cell)
    : bool :=
  match snd e with
  | Some k' => negb (cell_eqb k' k)
  | None => true
  end.



(** The run lies in the Basic Multilingual Plane, or the run and its
    image lie above it. *)
Definition run_keeps_plane (run : N * N * bool * N) : bool :=
  let '(first, last, _, image) := run in
  (last <? 0x10000)%N || ((0x10000 <=? first)%N && (0x10000 <=? image)%N).




End Notions.

Import Notions.

(* ================================================================== *)
(** ** The specification's own formulations *)
(* ================================================================== *)

Module Spec.

Open Scope string_scope.
Open Scope list_scope.

(** *** 4.4 Risk calculator, in the words of the specification *)

Definition critical_types : list string := ["apiKey"; "password"; "ssn"].
Definition high_types : list string :=
  ["financialData"; "customerData"; "creditCard"].

(** A tool is detected when aiToolDetected is a tool identifier. *)
Definition tool_present (aiToolDetected : option string) : bool :=
  match aiToolDetected with
  | Some (String _ _) => true
  | _ => false
  end.

(** "sensitive types include any of" the given set. *)
Definition include_any_of (sensitiveTypes set : list string) : bool :=
  existsb (fun t => if in_dec string_dec t sensitiveTypes then true else false)
          set.

Definition risk (aiToolDetected : option string)
    (sensitiveTypes : list string) : RiskLevel :=
  if negb (tool_present aiToolDetected) then low
  else if include_any_of sensitiveTypes critical_types then critical
  else if include_any_of sensitiveTypes high_types then high
  else match sensitiveTypes with
       | _ :: _ => medium
       | [] => low
       end.

(** *** 4.3 Prompt-quality assessor, in the words of the specification *)

Definition matches_any (ps : list pattern) (text : jsstring) : bool :=
  existsb (fun p => test_pure p text) ps.

Definition match_count (ps : list pattern) (text : jsstring) : nat :=
  List.length (filter (fun p => test_pure p text) ps).

Definition common_verbs : list string := ["help"; "fix"; "do"; "make"; "create"].
Definition question_words : list string :=
  ["what"; "how"; "why"; "when"; "where"].

Fixpoint jsstring_eqb (a b : jsstring) : bool :=
  match a, b with
  | [], [] => true
  | x :: a', y :: b' => char_eqb x y && jsstring_eqb a' b'
  | _, _ => false
  end.

(** The whole text is one of the words, in either case. *)
Definition is_one_of (ws : list string) (text : jsstring) : bool :=
  existsb (fun w => jsstring_eqb (toLowerCase text) (lit w)) ws.

(** "single common verb, <=10 chars, bare question word" *)
Definition poor_indicator (text : jsstring) : bool :=
  is_one_of common_verbs text
  || (List.length text <=? 10)%nat
  || is_one_of question_words text.

Definition assess (text : jsstring) : PromptQuality :=
  if matches_any excellent_indicators text then excellent
  else
    let count := match_count good_indicators text in
    if (2 <=? count)%nat then good
    else if (count =? 1)%nat then fair
    else if poor_indicator text then poor
    else if (50 <? List.length text)%nat then fair else poor.

(** *** 4.7 Notification gate, in the words of the specification, over
    the two probabilities and the draw of the random source *)

Definition shouldNotify (p_poor p_fair : Q) (classification : AIWindowInfo)
    (analysisResult : AnalysisResult) (draw : Q) : bool :=
  match isAIWindow classification, riskLevel analysisResult,
        sensitiveDataDetected analysisResult, promptQuality analysisResult,
        learningOpportunity analysisResult with
  | false, _, _, _, _ => false
  | true, critical, _, _, _ => true
  | true, high, _, _, _ => true
  | true, _, true, _, _ => true
  | true, _, false, poor, _ => Qltb draw p_poor
  | true, _, false, fair, Some _ => Qltb draw p_fair
  | true, _, false, _, _ => false
  end.

(** *** 8 The shape of a social security number: \d{3}-\d{2}-\d{4} *)

Definition ssn_shape (l : jsstring) : bool :=
  match l with
  | [d1; d2; d3; h1; d4; d5; h2; d6; d7; d8; d9] =>
      forallb is_digit [d1; d2; d3; d4; d5; d6; d7; d8; d9]
      && char_eqb h1 (c "-") && char_eqb h2 (c "-")
  | _ => false
  end.

End Spec.

(* ================================================================== *)
(** ** Scenarios *)
(* ================================================================== *)

Module Scenario.

Open Scope string_scope.
Open Scope list_scope.

(** The end-to-end scenario of the specification: a Claude tab in Chrome
    and an OCR text that is [sk-] followed by 46 letters and digits. *)
Definition e2e_window : jsstring := lit "Chrome - claude.ai".
Definition e2e_text : jsstring :=
  lit "sk-abcd1234567890123456789012345678901234567890ab".
Definition e2e_capture : ScreenCaptureResult := mkCapture 0 [] e2e_window [].

(** The same key with two more characters: 48 letters and digits. *)
Definition long_key : jsstring :=
  lit "sk-abcd1234567890123456789012345678901234567890abcd".

(** A shorter key: [sk-] followed by 24 letters. *)
Definition short_key : jsstring := lit "sk-abcdefghijklmnopqrstuvwx".

(** Twenty capital letters and digits: the second alternative of awsKey. *)
Definition capitals : jsstring := lit "ABCDEFGHIJ0123456789".

Definition has_suggestion (t : SuggestionType) (a : AnalysisResult) : Prop :=
  exists s, In s (suggestions a) /\ s_type s = t.

(** What the specification expects of the end-to-end scenario. *)
Definition e2e_expectation (info : AIWindowInfo) (a : AnalysisResult)
    (notify : bool) : Prop :=
  isAIWindow info = true /\ platform info = Some "Claude"
  /\ sensitiveDataDetected a = true /\ In "apiKey" (sensitiveDataTypes a)
  /\ aiToolDetected a = Some "claude" /\ riskLevel a = critical
  /\ has_suggestion security a /\ has_suggestion alternative a
  /\ notify = true.

Definition claude_tab : AIWindowInfo := mkInfo true (Some "Claude") None None.

(** A poor prompt without sensitive data, on an AI window. *)
Definition poor_prompt_result : AnalysisResult :=
  mkAnalysis 0 low false [] (Some "claude") poor
    [mkSuggestion quality "Your Prompt Needs Improvement" true priority_high
       (Some one_word) true]
    (Some (mkLearning prompt_improvement "Write Better AI Prompts")).

(** A window in which no tool is detected. *)
Definition notepad : ScreenCaptureResult := mkCapture 0 [] (lit "Notepad") [].

(** Two social security numbers, and two card numbers. *)
Definition two_ssn : jsstring := lit "123-45-6789 and 987-65-4321".
Definition two_cards : jsstring :=
  lit "4532-1234-5678-9012 4532 1234 5678 9012".

(** A text that has the shape of a social security number inside a longer
    run of digits. *)
Definition embedded_ssn : jsstring := lit "1123-45-67890".

(** A terminal window. *)
Definition terminal : ScreenCaptureResult := mkCapture 0 [] (lit "Terminal") [].

(** The surroundings of a tick at time [t] in which the OCR reads [text],
    the database accepts every insert, the preferences are the defaults
    and every draw of the random source is 0. *)
Definition world_at (t : Z) (text : jsstring) : world :=
  mkWorld t t t t (Some text) true 0 0 0 defaultSettings.

(** An e-mail address: sensitive data of medium risk. *)
Definition mail_text : jsstring := lit "mail bob@example.com".
(** A social security number: sensitive data of critical risk. *)
Definition ssn_text : jsstring := lit "SSN: 123-45-6789".

Definition broadcast_fails_at (t : Z) : answers := mkAnswers t true false.


(** The draw 0.5454545454545454, whose product with 11 is rounded to 6. *)
Definition draw_6_of_11 : binary64 := mkBinary64 1228254443828317 (-51).


(** A social security number in a text that mentions a spreadsheet. *)
Definition ssn_in_csv : jsstring := lit "SSN: 123-45-6789 in a csv".

End Scenario.

Import Scenario.

(* ================================================================== *)
(** ** Facts about the matcher *)
(* ================================================================== *)

Module MatcherFacts.

Lemma reaches_refl x : reaches x x [].
Proof. split; simpl; auto. Qed.

Lemma reaches_trans x y z l1 l2 :
  reaches x y l1 -> reaches y z l2 -> reaches x z (l1 ++ l2).
Proof.
  intros [H1 H2] [H3 H4]. split.
  - rewrite H1, H3, app_assoc. reflexivity.
  - rewrite H4, H2, length_app. lia.
Qed.

Lemma one_sound p x k z :
  one p x k = Some z ->
  exists c y, p c = true /\ reaches x y [c] /\ k y = Some z.
Proof.
  unfold one. destruct (rest x) as [|c r] eqn:E; [discriminate|].
  destruct (p c) eqn:P; [|discriminate]. intros H.
  exists c, (Cursor (Some c) (S (pos x)) r). repeat split; simpl; auto. lia.
Qed.

(** What a successful run of the quantifier loop yields, given the same for
    the quantified atom. *)
Lemma RepeatMatcher_sound mr k nr :
  (forall x k' z, mr x k' = Some z ->
     exists y l, k' y = Some z /\ reaches x y l /\
       (forall n, nr = Some n -> List.length l <= n)) ->
  forall fuel min max x z,
    RepeatMatcher mr k fuel min max x = Some z ->
    exists y l, k y = Some z /\ reaches x y l /\
      (forall n b, nr = Some n -> max = Some b -> List.length l <= b * n).
Proof.
  intros Hmr. induction fuel as [|fuel IH]; intros min max x z H; [discriminate|].
  simpl in H.
  assert (Hk : k x = Some z -> exists y l, k y = Some z /\ reaches x y l /\
      (forall n b, nr = Some n -> max = Some b -> List.length l <= b * n)).
  { intros E. exists x, []. split; [exact E|]. split; [apply reaches_refl|].
    intros; simpl; lia. }
  assert (Hd : mr x (fun y : cursor =>
              if (min =? 0)%nat && (pos y =? pos x)%nat then None
              else RepeatMatcher mr k fuel (Nat.pred min) (option_map Nat.pred max) y)
            = Some z ->
          max <> Some 0 ->
          exists y l, k y = Some z /\ reaches x y l /\
            (forall n b, nr = Some n -> max = Some b -> List.length l <= b * n)).
  { intros E Hmax. apply Hmr in E. destruct E as (y1 & l1 & E & R1 & B1).
    destruct ((min =? 0)%nat && (pos y1 =? pos x)%nat); [discriminate|].
    apply IH in E. destruct E as (y & l2 & E & R2 & B2).
    exists y, (l1 ++ l2). split; [exact E|]. split; [eapply reaches_trans; eauto|].
    intros n b Hn Hb. subst max. destruct b as [|b]; [congruence|].
    rewrite length_app. specialize (B1 n Hn). specialize (B2 n b Hn eq_refl).
    simpl. lia. }
  destruct max as [[|b]|].
  - apply Hk, H.
  - destruct (min =? 0)%nat.
    + match type of H with match ?e with _ => _ end = _ => destruct e eqn:E end.
      * inversion H; subst. apply Hd; [reflexivity|discriminate].
      * apply Hk, H.
    + apply Hd; [exact H|discriminate].
  - destruct (min =? 0)%nat.
    + match type of H with match ?e with _ => _ end = _ => destruct e eqn:E end.
      * inversion H; subst. apply Hd; [reflexivity|discriminate].
      * apply Hk, H.
    + apply Hd; [exact H|discriminate].
Qed.

(** Soundness of the matcher: a success is a success of the continuation
    at a position reached by consuming at most [maxlen r] code units. *)
Lemma m_sound ic r :
  forall x k z, m ic r x k = Some z ->
    exists y l, k y = Some z /\ reaches x y l /\
      (forall n, maxlen r = Some n -> List.length l <= n).
Proof.
  induction r as [|a| |neg items|a IHa b IHb|a IHa b IHb|min max r IHr| | |];
    intros x k z H;
    [simpl in H|simpl in H|simpl in H|simpl in H|simpl in H|simpl in H
    |cbn [m] in H|simpl in H|simpl in H|simpl in H].
  - exists x, []. split; [exact H|]. split; [apply reaches_refl|]. intros; simpl; lia.
  - apply one_sound in H. destruct H as (c0 & y & _ & R & E).
    exists y, [c0]. split; [exact E|]. split; [exact R|].
    intros n Hn; inversion Hn; simpl; lia.
  - apply one_sound in H. destruct H as (c0 & y & _ & R & E).
    exists y, [c0]. split; [exact E|]. split; [exact R|].
    intros n Hn; inversion Hn; simpl; lia.
  - apply one_sound in H. destruct H as (c0 & y & _ & R & E).
    exists y, [c0]. split; [exact E|]. split; [exact R|].
    intros n Hn; inversion Hn; simpl; lia.
  - apply IHa in H. destruct H as (y1 & l1 & E & R1 & B1).
    apply IHb in E. destruct E as (y & l2 & E & R2 & B2).
    exists y, (l1 ++ l2). split; [exact E|]. split; [eapply reaches_trans; eauto|].
    intros n Hn. simpl in Hn.
    destruct (maxlen a) as [na|]; [|discriminate].
    destruct (maxlen b) as [nb|]; [|discriminate].
    inversion Hn; subst. rewrite length_app.
    specialize (B1 na eq_refl). specialize (B2 nb eq_refl). lia.
  - destruct (m ic a x k) eqn:E.
    + inversion H; subst. apply IHa in E. destruct E as (y & l & E & R & B).
      exists y, l. split; [exact E|]. split; [exact R|].
      intros n Hn. simpl in Hn.
      destruct (maxlen a) as [na|]; [|discriminate].
      destruct (maxlen b) as [nb|]; [|discriminate].
      inversion Hn; subst. specialize (B na eq_refl). lia.
    + apply IHb in H. destruct H as (y & l & E' & R & B).
      exists y, l. split; [exact E'|]. split; [exact R|].
      intros n Hn. simpl in Hn.
      destruct (maxlen a) as [na|]; [|discriminate].
      destruct (maxlen b) as [nb|]; [|discriminate].
      inversion Hn; subst. specialize (B nb eq_refl). lia.
  - apply (RepeatMatcher_sound (m ic r) k (maxlen r) IHr) in H.
    destruct H as (y & l & E & R & B).
    exists y, l. split; [exact E|]. split; [exact R|].
    intros n Hn. simpl in Hn. destruct max as [b|]; [|discriminate].
    destruct (maxlen r) as [nr|]; [|discriminate].
    inversion Hn; subst. apply B; reflexivity.
  - destruct (pos x =? 0)%nat; [|discriminate].
    exists x, []. split; [exact H|]. split; [apply reaches_refl|]. intros; simpl; lia.
  - destruct (rest x); [|discriminate].
    exists x, []. split; [exact H|]. split; [apply reaches_refl|]. intros; simpl; lia.
  - destruct (at_word_boundary x); [|discriminate].
    exists x, []. split; [exact H|]. split; [apply reaches_refl|]. intros; simpl; lia.
Qed.


Lemma exec_from_0 ic r s : exec_from ic r s 0 = scan ic r None 0 s.
Proof. reflexivity. Qed.

(** A result of the search is a success of the matcher at some position
    of the subject. *)
Lemma scan_some ic r :
  forall s p i b e, scan ic r p i s = Some (b, e) ->
    exists l s' y, s = l ++ s' /\ b = i + List.length l /\
      match_here ic r (Cursor (prev_after p l) b s') = Some y /\ pos y = e.
Proof.
  induction s as [|c0 s IH]; intros p i b e H; simpl in H.
  - destruct (match_here ic r (Cursor p i [])) as [y|] eqn:E; [|discriminate].
    inversion H; subst. exists [], [], y. simpl. rewrite Nat.add_0_r. auto.
  - destruct (match_here ic r (Cursor p i (c0 :: s))) as [y|] eqn:E.
    + inversion H; subst. exists [], (c0 :: s), y. simpl. rewrite Nat.add_0_r. auto.
    + apply IH in H. destruct H as (l & s' & y & Hs & Hb & Hm & He).
      exists (c0 :: l), s', y. simpl. subst s. repeat split; auto. lia.
Qed.

(** The search finds a match when the matcher succeeds somewhere. *)
Lemma scan_complete ic r :
  forall l p i s' y,
    match_here ic r (Cursor (prev_after p l) (i + List.length l) s') = Some y ->
    exists be, scan ic r p i (l ++ s') = Some be.
Proof.
  induction l as [|c0 l IH]; intros p i s' y H; simpl in H.
  - rewrite Nat.add_0_r in H. simpl.
    destruct s'; simpl; rewrite H; eauto.
  - simpl. destruct (match_here ic r (Cursor p i (c0 :: l ++ s'))); [eauto|].
    apply (IH (Some c0) (S i) s' y).
    replace (S i + List.length l) with (i + S (List.length l)) by lia. exact H.
Qed.

Lemma test_pure_true p text :
  test_pure p text = true <->
  exists be, scan (ignoreCase p) (re p) None 0 text = Some be.
Proof.
  unfold test_pure. rewrite exec_from_0.
  destruct (scan (ignoreCase p) (re p) None 0 text) as [be|].
  - split; eauto.
  - split; [discriminate|]. intros [be H]; discriminate.
Qed.

(** A pattern [^body$] only matches a subject of at most [maxlen body]
    code units. *)
Lemma anchored_bound ic g body n text :
  maxlen body = Some n ->
  test_pure (Pattern (seqs [Bol; body; Eol]) ic g) text = true ->
  List.length text <= n.
Proof.
  intros Hn H. apply test_pure_true in H. destruct H as [[b e] H]. simpl in H.
  apply scan_some in H. destruct H as (l & s' & y & Hs & Hb & Hm & _).
  unfold match_here in Hm. cbn [seqs fold_right m pos] in Hm.
  destruct (b =? 0)%nat eqn:Eb; [|discriminate].
  apply Nat.eqb_eq in Eb.
  assert (l = []) by (destruct l; [reflexivity|simpl in Hb; lia]). subst l.
  simpl in Hs, Hb. subst s' b.
  apply m_sound in Hm. destruct Hm as (y1 & l1 & Hk & [R _] & B).
  simpl in R. destruct (rest y1); [|discriminate].
  rewrite app_nil_r in R. subst l1. apply B, Hn.
Qed.

(** The matcher only consults its continuation at positions reached from
    where it starts. *)
Lemma RepeatMatcher_ext mr k1 k2 :
  (forall x c1 c2, (forall y l, reaches x y l -> c1 y = c2 y) ->
     mr x c1 = mr x c2) ->
  forall fuel min max x,
    (forall y l, reaches x y l -> k1 y = k2 y) ->
    RepeatMatcher mr k1 fuel min max x = RepeatMatcher mr k2 fuel min max x.
Proof.
  intros Hmr. induction fuel as [|fuel IH]; intros min max x Hk; [reflexivity|].
  cbn [RepeatMatcher].
  assert (Ex : k1 x = k2 x) by (apply (Hk x []), reaches_refl).
  assert (Ed : mr x (fun y : cursor =>
                  if (min =? 0)%nat && (pos y =? pos x)%nat then None
                  else RepeatMatcher mr k1 fuel (Nat.pred min)
                         (option_map Nat.pred max) y)
             = mr x (fun y : cursor =>
                  if (min =? 0)%nat && (pos y =? pos x)%nat then None
                  else RepeatMatcher mr k2 fuel (Nat.pred min)
                         (option_map Nat.pred max) y)).
  { apply Hmr. intros y l R.
    destruct ((min =? 0)%nat && (pos y =? pos x)%nat); [reflexivity|].
    apply IH. intros z l' R'. apply (Hk z (l ++ l')).
    eapply reaches_trans; eauto. }
  rewrite Ed, Ex. reflexivity.
Qed.

Lemma m_ext ic r :
  forall x k1 k2, (forall y l, reaches x y l -> k1 y = k2 y) ->
    m ic r x k1 = m ic r x k2.
Proof.
  assert (One : forall p x k1 k2,
             (forall y l, reaches x y l -> k1 y = k2 y) ->
             one p x k1 = one p x k2).
  { intros p x k1 k2 Hk. unfold one. destruct (rest x) as [|c0 r0] eqn:E;
      [reflexivity|]. destruct (p c0); [|reflexivity].
    apply (Hk _ [c0]). split; simpl; [exact E|lia]. }
  induction r as [|a| |neg items|a IHa b IHb|a IHa b IHb|min max r IHr| | |];
    intros x k1 k2 Hk; cbn [m]; auto.
  - apply (Hk x []), reaches_refl.
  - apply IHa. intros y l R. apply IHb. intros z l' R'.
    apply (Hk z (l ++ l')). eapply reaches_trans; eauto.
  - rewrite (IHa x k1 k2 Hk), (IHb x k1 k2 Hk). reflexivity.
  - apply RepeatMatcher_ext; auto.
  - rewrite (Hk x [] (reaches_refl x)). reflexivity.
  - rewrite (Hk x [] (reaches_refl x)). reflexivity.
  - rewrite (Hk x [] (reaches_refl x)). reflexivity.
Qed.

(** The fuel that the matcher gives to the quantifier loop is enough: more
    fuel gives the same result. *)
Lemma RepeatMatcher_fuel ic r k :
  forall fuel fuel' min max x,
    S (min + List.length (rest x)) <= fuel -> fuel <= fuel' ->
    RepeatMatcher (m ic r) k fuel min max x
    = RepeatMatcher (m ic r) k fuel' min max x.
Proof.
  induction fuel as [|fuel IH]; intros fuel' min max x Hf Hf'; [lia|].
  destruct fuel' as [|fuel']; [lia|]. cbn [RepeatMatcher].
  assert (Ed : m ic r x (fun y : cursor =>
                  if (min =? 0)%nat && (pos y =? pos x)%nat then None
                  else RepeatMatcher (m ic r) k fuel (Nat.pred min)
                         (option_map Nat.pred max) y)
             = m ic r x (fun y : cursor =>
                  if (min =? 0)%nat && (pos y =? pos x)%nat then None
                  else RepeatMatcher (m ic r) k fuel' (Nat.pred min)
                         (option_map Nat.pred max) y)).
  { apply m_ext. intros y l [R P].
    destruct (min =? 0)%nat eqn:Em; cbn [andb].
    - destruct (pos y =? pos x)%nat eqn:Ep; [reflexivity|].
      apply Nat.eqb_neq in Ep. apply Nat.eqb_eq in Em. subst min.
      apply IH; [|lia]. rewrite R, length_app in Hf. simpl. lia.
    - apply Nat.eqb_neq in Em. apply IH; [|lia].
      rewrite R, length_app in Hf. lia. }
  rewrite Ed. reflexivity.
Qed.

Lemma cursor_at_pos :
  forall i p base s x, cursor_at p base s i = Some x ->
    pos x = base + i /\ i <= List.length s.
Proof.
  induction i as [|i IH]; intros p base s x H; simpl in H.
  - inversion H; subst. simpl. lia.
  - destruct s as [|c0 s]; [discriminate|].
    apply IH in H. simpl. lia.
Qed.

(** A match found from [lastIndex] starts there or later and does not end
    before it starts. *)
Lemma exec_from_bounds ic r s lastIndex b e :
  exec_from ic r s lastIndex = Some (b, e) ->
  lastIndex <= b /\ b <= e /\ lastIndex <= List.length s.
Proof.
  unfold exec_from. destruct (cursor_at None 0 s lastIndex) as [x|] eqn:Ex;
    [|discriminate].
  apply cursor_at_pos in Ex. destruct Ex as [Px Lx]. intros H.
  apply scan_some in H. destruct H as (l & s' & y & _ & Hb & Hm & He).
  apply m_sound in Hm. destruct Hm as (y' & l' & Hy & [_ P] & _).
  inversion Hy; subst. simpl in P. lia.
Qed.

(** The fuel of [matches_of] is enough: every round moves [lastIndex]
    forward, so more fuel collects the same matches. *)
Lemma collect_fuel ic r s :
  forall fuel fuel' lastIndex,
    S (S (List.length s)) <= fuel + lastIndex -> fuel <= fuel' ->
    collect fuel ic r s lastIndex = collect fuel' ic r s lastIndex.
Proof.
  induction fuel as [|fuel IH]; intros fuel' lastIndex Hf Hf'.
  - destruct fuel' as [|fuel']; [reflexivity|]. simpl.
    destruct (exec_from ic r s lastIndex) as [[b e]|] eqn:E; [|reflexivity].
    apply exec_from_bounds in E. exfalso. lia.
  - destruct fuel' as [|fuel']; [lia|]. simpl.
    destruct (exec_from ic r s lastIndex) as [[b e]|] eqn:E; [|reflexivity].
    apply exec_from_bounds in E. f_equal. apply IH; [|lia].
    destruct (e =? b)%nat eqn:Eb; [lia|apply Nat.eqb_neq in Eb; lia].
Qed.

(** In particular the quantifier of the matcher does not depend on its
    fuel. *)
Corollary m_Rep_fuel ic min max r x k fuel :
  S (min + List.length (rest x)) <= fuel ->
  m ic (Rep min max r) x k = RepeatMatcher (m ic r) k fuel min max x.
Proof. intros H. cbn [m]. apply RepeatMatcher_fuel; [apply le_n|exact H]. Qed.

End MatcherFacts.

Import MatcherFacts.

(* ================================================================== *)
(** ** Risk calculator *)
(* ================================================================== *)

Open Scope string_scope.
Open Scope list_scope.

Lemma truthy_tool_present (tool : option string) :
  truthy tool = Spec.tool_present tool.
Proof. destruct tool as [[|a s]|]; reflexivity. Qed.

Lemma array_includes_In (l : list string) (x : string) :
  array_includes l x = true <-> In x l.
Proof.
  unfold array_includes. rewrite existsb_exists. split.
  - intros (y & Hy & E). apply String.eqb_eq in E. subst; exact Hy.
  - intros H. exists x. split; [exact H|apply String.eqb_refl].
Qed.

(** The code asks whether some detected type is in the set, the
    specification whether some member of the set was detected. *)
Lemma some_includes_any_of (types set : list string) :
  existsb (fun type => array_includes set type) types
  = Spec.include_any_of types set.
Proof.
  apply eq_true_iff_eq. unfold Spec.include_any_of.
  rewrite !existsb_exists. split.
  - intros (t & Ht & E). apply array_includes_In in E.
    exists t. split; [exact E|]. destruct (in_dec string_dec t types); tauto.
  - intros (t & Ht & E). destruct (in_dec string_dec t types); [|discriminate].
    exists t. split; [assumption|]. apply array_includes_In; exact Ht.
Qed.

Lemma include_any_of_In (types set : list string) (t : string) :
  In t set -> In t types -> Spec.include_any_of types set = true.
Proof.
  intros Hs Ht. unfold Spec.include_any_of. apply existsb_exists.
  exists t. split; [exact Hs|]. destruct (in_dec string_dec t types); tauto.
Qed.

(** C1.  The risk calculator, wired as analyzeContent wires it (its first
    argument is whether the list of types is non-empty), is the four-tier
    function of the specification: without a detected tool the level is low
    whatever the types; with a tool, any of apiKey, password or ssn gives
    critical, also when financialData, customerData or creditCard are
    present; otherwise any of these three gives high; otherwise any type
    gives medium; otherwise the level is low. *)
Theorem calculateRiskLevel_is_four_tier :
  forall (tool : option string) (types : list string),
    calculateRiskLevel (0 <? List.length types)%nat types tool
      = Spec.risk tool types
    /\ (Spec.tool_present tool = false ->
        calculateRiskLevel (0 <? List.length types)%nat types tool = low)
    /\ (Spec.tool_present tool = true ->
        (In "apiKey" types \/ In "password" types \/ In "ssn" types) ->
        calculateRiskLevel (0 <? List.length types)%nat types tool = critical).
Proof.
  intros tool types.
  assert (E : calculateRiskLevel (0 <? List.length types)%nat types tool
              = Spec.risk tool types).
  { unfold calculateRiskLevel, Spec.risk.
    rewrite truthy_tool_present, !some_includes_any_of.
    destruct (Spec.tool_present tool); simpl; [|reflexivity].
    destruct types as [|t ts]; simpl; [reflexivity|].
    reflexivity. }
  split; [exact E|]. rewrite E. unfold Spec.risk. split.
  - intros ->. reflexivity.
  - intros -> H. cbn [negb].
    assert (X : Spec.include_any_of types Spec.critical_types = true).
    { destruct H as [H|[H|H]]; eapply include_any_of_In; try exact H;
        simpl; tauto. }
    rewrite X. reflexivity.
Qed.

(** The instance of C1 at a detected tool and the types [creditCard; apiKey]. *)
Lemma calculateRiskLevel_is_four_tier_witness :
  calculateRiskLevel true ["creditCard"; "apiKey"] (Some "claude") = critical.
Proof.
  apply (proj2 (proj2 (calculateRiskLevel_is_four_tier (Some "claude")
                         ["creditCard"; "apiKey"]))).
  - reflexivity.
  - left. simpl. tauto.
Defined.

(* ================================================================== *)
(** ** Notification gate *)
(* ================================================================== *)

(** The gate is the decision table of the specification at the two
    thresholds of the code. *)
Lemma shouldShowNotification_table info a draw :
  shouldShowNotification info a draw
  = Spec.shouldNotify double_0_33 double_0_2 info a draw.
Proof.
  unfold shouldShowNotification, Spec.shouldNotify.
  destruct (isAIWindow info), (riskLevel a), (sensitiveDataDetected a),
    (promptQuality a), (learningOpportunity a); reflexivity.
Qed.

(** C3, as stated, fails: at the draw 85/256 = 0.33203125, which lies
    between 0.33 and 1/3, the gate of the code rejects a poor prompt that a
    gate of probability 1/3 accepts. *)
Lemma shouldShowNotification_not_one_third :
  shouldShowNotification claude_tab poor_prompt_result (85 # 256) = false
  /\ Spec.shouldNotify (1 # 3) (1 # 5) claude_tab poor_prompt_result (85 # 256)
     = true.
Proof. split; reflexivity. Qed.

(** C3, amended.  With the draw of the random source as an input, the gate
    is the case analysis of the specification with the thresholds 0.33 and
    0.2: false off an AI window whatever the risk; on an AI window true,
    whatever the draw, at risk critical or high and when sensitive data was
    detected; otherwise, for a poor prompt, true exactly when the draw is
    below 0.33; otherwise, for a fair prompt with a learning opportunity,
    true exactly when the draw is below 0.2; false in every other case. *)
Theorem shouldShowNotification_cases :
  forall (info : AIWindowInfo) (a : AnalysisResult) (draw : Q),
    shouldShowNotification info a draw
      = Spec.shouldNotify double_0_33 double_0_2 info a draw
    /\ (isAIWindow info = false -> shouldShowNotification info a draw = false)
    /\ (isAIWindow info = true ->
        riskLevel a = critical \/ riskLevel a = high \/
        sensitiveDataDetected a = true ->
        shouldShowNotification info a draw = true)
    /\ (isAIWindow info = true -> riskLevel a <> critical -> riskLevel a <> high ->
        sensitiveDataDetected a = false ->
        (promptQuality a = poor ->
           (shouldShowNotification info a draw = true <-> (draw < double_0_33)%Q))
        /\ (promptQuality a = fair -> learningOpportunity a <> None ->
           (shouldShowNotification info a draw = true <-> (draw < double_0_2)%Q))
        /\ (promptQuality a = good \/ promptQuality a = excellent \/
            (promptQuality a = fair /\ learningOpportunity a = None) ->
           shouldShowNotification info a draw = false)).
Proof.
  intros info a draw.
  assert (L : forall t, Qltb draw t = true <-> (draw < t)%Q).
  { intros t. unfold Qltb. rewrite negb_true_iff.
    split.
    - intros H. apply Qnot_le_lt. intros C. apply Qle_bool_iff in C. congruence.
    - intros H. destruct (Qle_bool t draw) eqn:E; [|reflexivity].
      apply Qle_bool_iff in E. apply Qlt_not_le in H. contradiction. }
  split; [apply shouldShowNotification_table|].
  unfold shouldShowNotification.
  split; [intros ->; reflexivity|].
  split.
  - intros -> [H|[H|H]]; rewrite H; simpl; try reflexivity.
    destruct (is_high_or_critical (riskLevel a)); reflexivity.
  - intros -> Hc Hh ->. simpl.
    assert (R : is_high_or_critical (riskLevel a) = false)
      by (destruct (riskLevel a); simpl; congruence).
    rewrite R. split; [|split].
    + intros ->. simpl. apply L.
    + intros -> Hl. simpl.
      destruct (learningOpportunity a); [simpl; apply L|congruence].
    + intros [->|[->|[-> ->]]]; simpl; try reflexivity;
        destruct (learningOpportunity a); reflexivity.
Qed.

(** An instance of C3: a poor prompt on an AI window at the draw 1/4. *)
Lemma shouldShowNotification_cases_witness :
  shouldShowNotification claude_tab poor_prompt_result (1 # 4) = true.
Proof.
  pose proof (shouldShowNotification_cases claude_tab poor_prompt_result (1 # 4))
    as (_ & _ & _ & H).
  assert (Hc : riskLevel poor_prompt_result <> critical) by discriminate.
  assert (Hh : riskLevel poor_prompt_result <> high) by discriminate.
  destruct (H eq_refl Hc Hh eq_refl) as (Hp & _).
  apply (proj2 (Hp eq_refl)). reflexivity.
Defined.

(* ================================================================== *)
(** ** Prompt-quality assessor *)
(* ================================================================== *)

Lemma loop_returns_matches_any ps text :
  loop_returns ps text = Spec.matches_any ps text.
Proof.
  induction ps as [|p ps IH]; simpl; [reflexivity|].
  destruct (test_pure p text); simpl; auto.
Qed.

Lemma loop_counts_match_count ps text :
  forall n, loop_counts ps text n = n + Spec.match_count ps text.
Proof.
  unfold Spec.match_count.
  induction ps as [|p ps IH]; intros n; simpl; [lia|].
  rewrite IH. destruct (test_pure p text); simpl; lia.
Qed.

Lemma loop_returns_some ps text :
  loop_returns ps text = true -> exists p, In p ps /\ test_pure p text = true.
Proof.
  induction ps as [|p ps IH]; simpl; [discriminate|].
  destruct (test_pure p text) eqn:E.
  - intros _. exists p. auto.
  - intros H. destruct (IH H) as (q & Hq & Eq). exists q. auto.
Qed.

(** Each poor indicator is anchored at both ends and spans at most ten
    code units. *)
Lemma poor_indicators_short text :
  loop_returns poor_indicators text = true -> List.length text <= 10.
Proof.
  intros H. apply loop_returns_some in H. destruct H as (p & Hp & E).
  destruct Hp as [<-|[<-|[<-|[]]]].
  - apply anchored_bound with (n := 6) in E; [lia|reflexivity].
  - apply anchored_bound with (n := 10) in E; [lia|reflexivity].
  - apply anchored_bound with (n := 5) in E; [lia|reflexivity].
Qed.

Lemma jsstring_eqb_length a :
  forall b, Spec.jsstring_eqb a b = true -> List.length a = List.length b.
Proof.
  induction a as [|x a IH]; intros [|y b] H; simpl in *; try discriminate; auto.
  apply andb_true_iff in H. destruct H as [_ H]. f_equal. apply IH, H.
Qed.

(** Lower-casing does not shorten a string: a code point of the
    supplementary planes has its lower case there. *)
Lemma code_units_length cp : 1 <= List.length (code_units cp).
Proof. unfold code_units. destruct (cp <? 0x10000)%N; simpl; lia. Qed.

Lemma flat_map_code_units_length l :
  List.length l <= List.length (flat_map code_units l).
Proof.
  induction l as [|cp l IH]; [reflexivity|].
  cbn [flat_map List.length]. rewrite length_app.
  pose proof (code_units_length cp). lia.
Qed.

Lemma lower_code_point_plane cp :
  (0x10000 <= cp)%N ->
  exists cp', lower_code_point cp = [cp'] /\ (0x10000 <= cp')%N.
Proof.
  intros H. unfold lower_code_point.
  replace (cp <? 128)%N with false by (symmetry; apply N.ltb_ge; lia).
  replace (cp =? 0x0130)%N with false by (symmetry; apply N.eqb_neq; lia).
  assert (K : forallb run_keeps_plane lower_runs = true)
    by (vm_compute; reflexivity).
  destruct (find (in_run cp) lower_runs) as [[[[first last] pairs] image]|]
    eqn:F; [|eauto].
  apply find_some in F. destruct F as [I R].
  rewrite forallb_forall in K. specialize (K _ I).
  unfold run_keeps_plane in K. unfold in_run in R.
  apply andb_true_iff in R. destruct R as [R1 R2].
  apply N.leb_le in R1, R2.
  destruct (pairs && N.odd (cp - first)); [eauto|].
  eexists. split; [reflexivity|].
  apply orb_true_iff in K. destruct K as [K|K].
  - apply N.ltb_lt in K. lia.
  - apply andb_true_iff in K. destruct K as [K1 K2].
    apply N.leb_le in K1, K2. lia.
Qed.

Lemma lower_code_point_length cp :
  List.length (code_units cp)
  <= List.length (flat_map code_units (lower_code_point cp)).
Proof.
  unfold code_units at 1. destruct (cp <? 0x10000)%N eqn:B.
  - cbn [List.length].
    assert (N0 : lower_code_point cp <> []).
    { unfold lower_code_point.
      destruct (cp <? 128)%N; [discriminate|].
      destruct (cp =? 0x0130)%N; [discriminate|].
      destruct (find (in_run cp) lower_runs) as [[[[first last] pairs] image]|];
        [destruct (pairs && N.odd (cp - first))|]; discriminate. }
    pose proof (flat_map_code_units_length (lower_code_point cp)).
    destruct (lower_code_point cp); [congruence|simpl in *; lia].
  - apply N.ltb_ge in B.
    destruct (lower_code_point_plane cp B) as (cp' & -> & B').
    cbn [flat_map]. rewrite app_nil_r. unfold code_units.
    replace (cp' <? 0x10000)%N with false by (symmetry; apply N.ltb_ge; lia).
    reflexivity.
Qed.

Lemma lower_points_length cps :
  forall after_cased,
    List.length (flat_map code_units cps)
    <= List.length (flat_map code_units (lower_points after_cased cps)).
Proof.
  induction cps as [|cp cps IH]; intros b; [reflexivity|].
  cbn [lower_points flat_map]. rewrite flat_map_app, !length_app.
  specialize (IH (if case_ignorable cp then b else cased cp)).
  destruct (cp =? capital_sigma)%N eqn:S.
  - apply N.eqb_eq in S. subst cp.
    assert (List.length (code_units capital_sigma) = 1) by reflexivity.
    pose proof (flat_map_code_units_length
                  [if b && negb (followed_by_cased cps)
                   then final_sigma else small_sigma]).
    cbn [List.length] in *. lia.
  - pose proof (lower_code_point_length cp). lia.
Qed.

Lemma code_points_step c c2 r :
  code_points (c :: c2 :: r)
  = if is_high_surrogate c && is_low_surrogate c2
    then code_point c c2 :: code_points r
    else c :: code_points (c2 :: r).
Proof. reflexivity. Qed.

Lemma code_points_length s :
  List.length s <= List.length (flat_map code_units (code_points s)).
Proof.
  assert (G : forall s,
             List.length s <= List.length (flat_map code_units (code_points s))
             /\ forall c, S (List.length s)
                          <= List.length
                               (flat_map code_units (code_points (c :: s)))).
  { induction s0 as [|c2 r IH].
    - split; [reflexivity|]. intros c. cbn [code_points flat_map].
      rewrite app_nil_r. apply code_units_length.
    - destruct IH as [IH1 IH2]. split; [apply IH2|].
      intros c. rewrite code_points_step.
      destruct (is_high_surrogate c && is_low_surrogate c2) eqn:P.
      + cbn [flat_map]. rewrite length_app.
        assert (L : List.length (code_units (code_point c c2)) = 2).
        { unfold code_units, code_point.
          replace (_ <? 0x10000)%N with false
            by (symmetry; apply N.ltb_ge; lia).
          reflexivity. }
        cbn [List.length]. lia.
      + cbn [flat_map]. rewrite length_app.
        pose proof (code_units_length c). specialize (IH2 c2).
        cbn [List.length]. lia. }
  apply G.
Qed.

Lemma toLowerCase_length s :
  List.length s <= List.length (toLowerCase s).
Proof.
  unfold toLowerCase.
  eapply Nat.le_trans; [apply code_points_length|apply lower_points_length].
Qed.

Lemma is_one_of_length ws text n :
  Forall (fun w => List.length (lit w) <= n) ws ->
  Spec.is_one_of ws text = true -> List.length text <= n.
Proof.
  intros F H. unfold Spec.is_one_of in H. apply existsb_exists in H.
  destruct H as (w & Hw & E). apply jsstring_eqb_length in E.
  pose proof (toLowerCase_length text).
  rewrite Forall_forall in F. specialize (F w Hw). lia.
Qed.

Lemma poor_indicator_short text :
  Spec.poor_indicator text = true <-> List.length text <= 10.
Proof.
  unfold Spec.poor_indicator. split.
  - intros H. apply orb_true_iff in H. destruct H as [H|H].
    + apply orb_true_iff in H. destruct H as [H|H].
      * apply is_one_of_length with (n := 10) in H; [exact H|].
        repeat constructor; simpl; lia.
      * apply Nat.leb_le, H.
    + apply is_one_of_length with (n := 10) in H; [exact H|].
      repeat constructor; simpl; lia.
  - intros H. apply Nat.leb_le in H. rewrite H, orb_true_r. reflexivity.
Qed.

(** C4.  The prompt-quality assessor is the priority cascade of the
    specification on every text: excellent when an excellent indicator
    matches; otherwise good when at least two good indicators match and
    fair when exactly one does; otherwise poor when a poor indicator
    applies (the text is a single common verb, has at most 10 characters or
    is a bare question word); otherwise fair when the text is longer than
    50 characters and poor when it is not.  The text "help" is poor. *)
Theorem analyzePromptQuality_is_cascade :
  (forall text : jsstring, analyzePromptQuality text = Spec.assess text)
  /\ analyzePromptQuality (lit "help") = poor.
Proof.
  split; [|vm_compute; reflexivity].
  intros text. unfold analyzePromptQuality, Spec.assess.
  rewrite loop_returns_matches_any, loop_counts_match_count, Nat.add_0_l.
  destruct (Spec.matches_any excellent_indicators text); [reflexivity|].
  destruct (2 <=? Spec.match_count good_indicators text)%nat; [reflexivity|].
  destruct (Spec.match_count good_indicators text =? 1)%nat; [reflexivity|].
  destruct (loop_returns poor_indicators text) eqn:Ecode.
  - apply poor_indicators_short in Ecode. apply poor_indicator_short in Ecode.
    rewrite Ecode. reflexivity.
  - destruct (Spec.poor_indicator text) eqn:Espec; [|reflexivity].
    apply poor_indicator_short in Espec.
    assert (E : (50 <? List.length text)%nat = false) by (apply Nat.ltb_ge; lia).
    rewrite E. reflexivity.
Qed.

(* ================================================================== *)
(** ** analyzeContent without a detected tool *)
(* ================================================================== *)

(** C10.  When the content analyzer detects no AI tool in the window title
    and the text, the result carries promptQuality good: the assessor is
    not consulted. *)
Theorem analyzeContent_without_tool_is_good :
  forall (st : regex_state) (now : Z) (capture : ScreenCaptureResult)
         (text : jsstring),
    detectAITool (activeWindow capture) text = None ->
    promptQuality (fst (analyzeContent st now capture text)) = good.
Proof.
  intros st now capture text H. unfold analyzeContent. rewrite H.
  destruct (analyzeSensitiveData st text) as [sd st1]. reflexivity.
Qed.

(** The instance of C10 at the text "help", which the assessor itself rates
    poor, in a window without a tool. *)
Lemma analyzeContent_without_tool_is_good_witness :
  analyzePromptQuality (lit "help") = poor
  /\ promptQuality (fst (analyzeContent fresh 0 notepad (lit "help"))) = good.
Proof.
  split; [vm_compute; reflexivity|].
  apply analyzeContent_without_tool_is_good. vm_compute. reflexivity.
Defined.

(* ================================================================== *)
(** ** The end-to-end scenario *)
(* ================================================================== *)

(** C2, as stated, fails: in the scenario the analyzer reports neither the
    type apiKey nor the level critical. *)
Lemma e2e_scenario_not_as_expected :
  ~ e2e_expectation (detectAIWindow e2e_window [])
      (fst (analyzeContent fresh 0 e2e_capture e2e_text))
      (shouldShowNotification (detectAIWindow e2e_window [])
         (fst (analyzeContent fresh 0 e2e_capture e2e_text)) 0).
Proof.
  intros (_ & _ & _ & _ & _ & H & _). vm_compute in H. discriminate.
Qed.

(** C2, amended.  In the scenario the window classifier, on the title alone
    and with the text, answers an AI window of platform Claude; a freshly
    constructed analyzer detects sensitive data of the one type openaiKey
    (the key has 46 letters and digits, two short of the apiKey pattern)
    and the tool claude, and gives a security and an alternative
    suggestion; the gate answers true whatever the draw.  With 48 letters
    and digits after [sk-] everything the scenario expects holds: apiKey is
    among the types, which are apiKey and openaiKey, and the level is
    critical. *)
Theorem e2e_scenario :
  forall (now : Z) (draw : Q),
    let info := detectAIWindow e2e_window [] in
    let a := fst (analyzeContent fresh now e2e_capture e2e_text) in
    let a' := fst (analyzeContent fresh now e2e_capture long_key) in
    (isAIWindow info = true /\ platform info = Some "Claude"
     /\ detectAIWindow e2e_window e2e_text = info)
    /\ (sensitiveDataDetected a = true /\ sensitiveDataTypes a = ["openaiKey"]
        /\ aiToolDetected a = Some "claude"
        /\ has_suggestion security a /\ has_suggestion alternative a
        /\ shouldShowNotification info a draw = true)
    /\ (sensitiveDataTypes a' = ["apiKey"; "openaiKey"]
        /\ e2e_expectation info a' (shouldShowNotification info a' draw)).
Proof.
  intros now draw.
  split; [repeat split; vm_compute; reflexivity|].
  split.
  - split; [vm_compute; reflexivity|].
    split; [vm_compute; reflexivity|].
    split; [vm_compute; reflexivity|].
    split; [|split].
    + eexists. split; [vm_compute; left; reflexivity|reflexivity].
    + eexists. split; [vm_compute; right; left; reflexivity|reflexivity].
    + vm_compute. reflexivity.
  - split; [vm_compute; reflexivity|].
    unfold e2e_expectation.
    split; [vm_compute; reflexivity|].
    split; [vm_compute; reflexivity|].
    split; [vm_compute; reflexivity|].
    split; [vm_compute; left; reflexivity|].
    split; [vm_compute; reflexivity|].
    split; [vm_compute; reflexivity|].
    split; [|split].
    + eexists. split; [vm_compute; left; reflexivity|reflexivity].
    + eexists. split; [vm_compute; right; left; reflexivity|reflexivity].
    + vm_compute. reflexivity.
Qed.

(* ================================================================== *)
(** ** The sensitive-data detector and the analyzer's state *)
(* ================================================================== *)

(** C5, evaluated.  On a freshly constructed analyzer the detector finds the
    key of the end-to-end scenario; called again on the same text it finds
    nothing, because [test] on the pattern with the [g] flag resumes at the
    [lastIndex] the first call left.  For the same reason the shorter key
    is missed after the longer one was analyzed, and found on a fresh
    analyzer.  Through analyzeContent the sanitizer resets two of the three
    cells but not that of awsKey: the same 20 capital letters and digits
    are reported as sensitive data by a first analysis and as none by the
    next. *)
Theorem analyzeSensitiveData_not_repeatable :
  let first := analyzeSensitiveData fresh e2e_text in
  let second := analyzeSensitiveData (snd first) e2e_text in
  let once := analyzeContent fresh 0 e2e_capture capitals in
  let twice := analyzeContent (snd once) 0 e2e_capture capitals in
  (fst first = mkSensitive true ["openaiKey"]
   /\ openaiKey_lastIndex (snd first) = 49
   /\ fst second = mkSensitive false [])
  /\ (fst (analyzeSensitiveData (snd first) short_key) = mkSensitive false []
      /\ fst (analyzeSensitiveData fresh short_key)
         = mkSensitive true ["openaiKey"])
  /\ (sensitiveDataTypes (fst once) = ["awsKey"]
      /\ riskLevel (fst once) = medium
      /\ sensitiveDataTypes (fst twice) = []
      /\ riskLevel (fst twice) = low).
Proof. repeat split; vm_compute; reflexivity. Qed.

(* ================================================================== *)
(** ** The alert-content sanitizer *)
(* ================================================================== *)

(** C8, evaluated.  The sanitizer replaces the first social security number
    and the first card number only: the second of each survives, and the
    pattern still matches the output.  The truncation is as claimed: a
    redacted text of more than 500 code units is cut to its first 500,
    followed by the marker, and a shorter one is returned as it is. *)
Theorem sanitizeContentForAlert_first_match_only :
  (sanitizeContentForAlert two_ssn = lit "[SSN_REDACTED] and 987-65-4321"
   /\ test_pure ssn (sanitizeContentForAlert two_ssn) = true)
  /\ (sanitizeContentForAlert two_cards
      = lit "[CREDIT_CARD_REDACTED] 4532 1234 5678 9012"
      /\ test_pure creditCard (sanitizeContentForAlert two_cards) = true)
  /\ (forall content : jsstring,
        let redacted :=
          replace creditCard
            (replace ssn
               (replace openaiKey
                  (replace apiKey content API_KEY_REDACTED)
                  OPENAI_KEY_REDACTED)
               SSN_REDACTED)
            CREDIT_CARD_REDACTED in
        (500 < List.length redacted ->
         sanitizeContentForAlert content = firstn 500 redacted ++ TRUNCATED)
        /\ (List.length redacted <= 500 ->
            sanitizeContentForAlert content = redacted)).
Proof.
  split; [split; vm_compute; reflexivity|].
  split; [split; vm_compute; reflexivity|].
  intros content redacted. unfold sanitizeContentForAlert. fold redacted.
  split; intros H.
  - apply Nat.ltb_lt in H. rewrite H. reflexivity.
  - apply Nat.ltb_ge in H. rewrite H. reflexivity.
Qed.

(* ================================================================== *)
(** ** Social security numbers *)
(* ================================================================== *)

Lemma is_digit_is_word d : is_digit d = true -> is_word d = true.
Proof. unfold is_word. intros ->. rewrite orb_true_r. reflexivity. Qed.

Lemma cursor_eta x : Cursor (prev x) (pos x) (rest x) = x.
Proof. destruct x; reflexivity. Qed.

(** [\d] consumes a digit. *)
Lemma m_digit ic x k d r :
  rest x = d :: r -> is_digit d = true ->
  m ic digit x k = k (Cursor (Some d) (S (pos x)) r).
Proof.
  intros Hr Hd. simpl. unfold one. rewrite Hr.
  unfold in_items. simpl. rewrite Hd. reflexivity.
Qed.

(** A literal character consumes itself. *)
Lemma one_char ic x k a r :
  rest x = a :: r ->
  one (char_matches ic a) x k = k (Cursor (Some a) (S (pos x)) r).
Proof.
  intros Hr. unfold one. rewrite Hr.
  unfold char_matches, char_eqb. rewrite N.eqb_refl. reflexivity.
Qed.

(** [\d{n}] consumes [n] digits. *)
Lemma RepeatMatcher_digits ic k :
  forall n fuel ds x r,
    n < fuel -> List.length ds = n -> forallb is_digit ds = true ->
    rest x = ds ++ r ->
    RepeatMatcher (m ic digit) k fuel n (Some n) x
    = k (Cursor (prev_after (prev x) ds) (pos x + n) r).
Proof.
  induction n as [|n IH]; intros fuel ds x r Hf Hl Hd Hr.
  - destruct ds; [|discriminate]. destruct fuel; [lia|]. simpl in *.
    rewrite Nat.add_0_r, <- Hr. rewrite cursor_eta. reflexivity.
  - destruct ds as [|d ds]; [discriminate|]. destruct fuel as [|fuel]; [lia|].
    simpl in Hl, Hd, Hr. apply andb_true_iff in Hd. destruct Hd as [Hd Hds].
    cbn [RepeatMatcher Nat.eqb]. rewrite (m_digit ic x _ d (ds ++ r) Hr Hd).
    cbn [andb Nat.pred option_map].
    rewrite (IH fuel ds _ r); try reflexivity; try lia; try assumption.
    simpl. f_equal. f_equal. lia.
Qed.

Lemma m_times_digits ic n ds x r k :
  List.length ds = n -> forallb is_digit ds = true -> rest x = ds ++ r ->
  m ic (times n digit) x k
  = k (Cursor (prev_after (prev x) ds) (pos x + n) r).
Proof.
  intros. unfold times. cbn [m]. apply RepeatMatcher_digits; auto. lia.
Qed.

Lemma ssn_matches_here p i l post :
  Spec.ssn_shape l = true ->
  is_word_opt p = false ->
  is_word_opt (hd_error post) = false ->
  exists y, match_here false (re ssn) (Cursor p i (l ++ post)) = Some y.
Proof.
  intros Hl Hp Hq.
  destruct l as [|d1 [|d2 [|d3 [|h1 [|d4 [|d5 [|h2 [|d6 [|d7 [|d8 [|d9 [|]]]]]]]]]]]];
    try discriminate.
  unfold Spec.ssn_shape in Hl.
  apply andb_true_iff in Hl. destruct Hl as [Hl Hh2].
  apply andb_true_iff in Hl. destruct Hl as [Hd Hh1].
  apply N.eqb_eq in Hh1, Hh2. subst h1 h2.
  cbn [forallb] in Hd.
  repeat (apply andb_true_iff in Hd; let H := fresh "D" in destruct Hd as [H Hd]).
  unfold match_here, ssn. cbn [re seqs fold_right m].
  unfold at_word_boundary. cbn [prev rest hd_error app is_word_opt].
  rewrite Hp, (is_digit_is_word _ D). cbn [xorb].
  rewrite (m_times_digits false 3 [d1; d2; d3] _
             ([c "-"; d4; d5; c "-"; d6; d7; d8; d9] ++ post));
    [|reflexivity|cbn [forallb]; rewrite D, D0, D1; reflexivity|reflexivity].
  cbn beta; rewrite (one_char false _ _ (c "-") ([d4; d5; c "-"; d6; d7; d8; d9] ++ post));
    [|reflexivity].
  rewrite (m_times_digits false 2 [d4; d5] _ ([c "-"; d6; d7; d8; d9] ++ post));
    [|reflexivity|cbn [forallb]; rewrite D2, D3; reflexivity|reflexivity].
  cbn beta; rewrite (one_char false _ _ (c "-") ([d6; d7; d8; d9] ++ post));
    [|reflexivity].
  rewrite (m_times_digits false 4 [d6; d7; d8; d9] _ post);
    [|reflexivity|cbn [forallb]; rewrite D4, D5, D6, D7; reflexivity|reflexivity].
  cbn [prev_after fold_left prev rest pos].
  unfold at_word_boundary. cbn [prev rest is_word_opt].
  rewrite Hq, (is_digit_is_word _ D7). cbn [xorb]. eauto.
Qed.

(** The detected types only grow along the table. *)
Lemma scan_entries_extends es :
  forall st text acc,
    exists more, fst (scan_entries es st text acc) = acc ++ more.
Proof.
  induction es as [|[[name p] k] es IH]; intros st text acc; simpl.
  - exists []. rewrite app_nil_r. reflexivity.
  - destruct (test_entry p k st text) as [b st'].
    destruct (IH st' text (if b then acc ++ [name] else acc)) as [more E].
    rewrite E. destruct b.
    + exists ([name] ++ more). rewrite app_assoc. reflexivity.
    + exists more. reflexivity.
Qed.

Lemma ssn_test_at_word_boundaries pre l post :
  Spec.ssn_shape l = true ->
  is_word_opt (prev_after None pre) = false ->
  is_word_opt (hd_error post) = false ->
  test_pure ssn (pre ++ l ++ post) = true.
Proof.
  intros Hl Hp Hq. apply test_pure_true.
  destruct (ssn_matches_here (prev_after None pre) (0 + List.length pre) l post
              Hl Hp Hq) as [y Hy].
  exact (scan_complete false (re ssn) pre None 0 (l ++ post) y Hy).
Qed.

(** C9, as stated, fails: a text can contain the shape \d{3}-\d{2}-\d{4}
    inside a longer run of digits, where the pattern, which asks for a word
    boundary on both sides, does not match; nothing is detected. *)
Lemma ssn_shape_not_detected_inside_digits :
  Spec.ssn_shape (lit "123-45-6789") = true
  /\ embedded_ssn = lit "1" ++ lit "123-45-6789" ++ lit "0"
  /\ fst (analyzeSensitiveData fresh embedded_ssn) = mkSensitive false [].
Proof. repeat split; vm_compute; reflexivity. Qed.

(** C9, amended.  For every text that contains a substring of the shape
    \d{3}-\d{2}-\d{4} with no word character (letter, digit or
    underscore) directly before it and none directly after it, the
    detector, in whatever state the analyzer is, reports detected = true
    with ssn among the types. *)
Theorem ssn_detected_at_word_boundaries :
  forall (st : regex_state) (pre l post : jsstring),
    Spec.ssn_shape l = true ->
    is_word_opt (prev_after None pre) = false ->
    is_word_opt (hd_error post) = false ->
    detected (fst (analyzeSensitiveData st (pre ++ l ++ post))) = true
    /\ In "ssn" (types (fst (analyzeSensitiveData st (pre ++ l ++ post)))).
Proof.
  intros st pre l post Hl Hp Hq.
  pose proof (ssn_test_at_word_boundaries pre l post Hl Hp Hq) as T.
  unfold analyzeSensitiveData.
  change sensitivePatterns with (("ssn", ssn, None) :: tl sensitivePatterns).
  cbn [scan_entries test_entry]. rewrite T.
  destruct (scan_entries_extends (tl sensitivePatterns) st (pre ++ l ++ post)
              ([] ++ ["ssn"])) as [more E].
  destruct (scan_entries (tl sensitivePatterns) st (pre ++ l ++ post)
              ([] ++ ["ssn"])) as [ts st'].
  simpl in E. subst ts. simpl. split; [reflexivity|]. left; reflexivity.
Qed.

(** The instance of C9 at the text "SSN: 123-45-6789.". *)
Lemma ssn_detected_at_word_boundaries_witness :
  detected (fst (analyzeSensitiveData fresh
                   (lit "SSN: " ++ lit "123-45-6789" ++ lit "."))) = true
  /\ In "ssn" (types (fst (analyzeSensitiveData fresh
                   (lit "SSN: " ++ lit "123-45-6789" ++ lit ".")))).
Proof.
  apply ssn_detected_at_word_boundaries; vm_compute; reflexivity.
Defined.

(* ================================================================== *)
(** ** The capture tick *)
(* ================================================================== *)

(** A tick is either throttled, and does nothing, or starts by classifying
    the window title with the empty text, and stops there when that is not
    an AI window. *)
Lemma analyzeScreenCapture_shape s w capture :
  let tr := fst (analyzeScreenCapture s w capture) in
  let s' := snd (analyzeScreenCapture s w capture) in
  ((now_analysis w - lastAnalysisTime s <? analysisThrottleMs)%Z = true /\
   tr = [] /\ s' = s)
  \/ ((now_analysis w - lastAnalysisTime s <? analysisThrottleMs)%Z = false /\
      exists tl, tr = Classify (activeWindow capture) [] :: tl /\
        (isAIWindow (detectAIWindow (activeWindow capture) []) = false ->
         tl = [] /\ analyzer s' = analyzer s /\
         lastNotificationTime s' = lastNotificationTime s)).
Proof.
  unfold analyzeScreenCapture.
  destruct (now_analysis w - lastAnalysisTime s <? analysisThrottleMs)%Z;
    [left; auto|right; split; [reflexivity|]].
  destruct (isAIWindow (detectAIWindow (activeWindow capture) [])).
  2:{ simpl. eexists. split; [reflexivity|]. auto. }
  cbn [negb].
  destruct (ocr_text w) as [text|].
  2:{ simpl. eexists. split; [reflexivity|]. discriminate. }
  destruct ((List.length text =? 0)%nat || (List.length (trim text) =? 0)%nat).
  { simpl. eexists. split; [reflexivity|]. discriminate. }
  cbn [analyzer lastAnalysisTime lastNotificationTime].
  destruct (analyzeContent (analyzer s) (now_content w) capture text) as [a st].
  match goal with |- context [if ?b then _ else _] => destruct b end.
  - destruct (handleAnalysisResults _ w a) as [sh s1]. simpl.
    eexists. split; [reflexivity|]. discriminate.
  - simpl. eexists. split; [reflexivity|]. discriminate.
Qed.

(** C6.  In every tick, whatever runs behind the gate (text extraction,
    content analysis, persistence, notification) is preceded by a call of
    the window classifier on the capture's window title and the empty
    text, and a tick that passes the analysis throttle starts with that
    call; when the classification is not an AI window the tick extracts no
    text, analyzes nothing and persists nothing, and leaves the analyzer
    as it was; a capture whose title is "Terminal" is such a tick, whatever
    the OCR would have read. *)
Theorem analyzeScreenCapture_gates_on_classification :
  forall (s : monitor) (w : world) (capture : ScreenCaptureResult),
    let tr := fst (analyzeScreenCapture s w capture) in
    (forall pre e post, tr = pre ++ e :: post -> behind_gate e = true ->
       In (Classify (activeWindow capture) []) pre)
    /\ ((now_analysis w - lastAnalysisTime s <? analysisThrottleMs)%Z = false ->
        exists tl, tr = Classify (activeWindow capture) [] :: tl)
    /\ (isAIWindow (detectAIWindow (activeWindow capture) []) = false ->
        (forall e, In e tr -> behind_gate e = false)
        /\ analyzer (snd (analyzeScreenCapture s w capture)) = analyzer s)
    /\ (activeWindow capture = lit "Terminal" ->
        forall e, In e tr -> behind_gate e = false).
Proof.
  intros s w capture tr.
  assert (G : isAIWindow (detectAIWindow (activeWindow capture) []) = false ->
        (forall e, In e tr -> behind_gate e = false)
        /\ analyzer (snd (analyzeScreenCapture s w capture)) = analyzer s).
  { intros Hn.
    destruct (analyzeScreenCapture_shape s w capture)
      as [(_ & E & Es)|(_ & tl & E & Hg)]; fold tr in E.
    - rewrite E, Es. split; [intros e []|reflexivity].
    - destruct (Hg Hn) as (-> & Ha & _). rewrite E. split; [|exact Ha].
      intros e [<-|[]]. reflexivity. }
  split; [|split; [|split]].
  - intros pre e post E Hb.
    destruct (analyzeScreenCapture_shape s w capture)
      as [(_ & E0 & _)|(_ & tl & E0 & _)]; fold tr in E0; rewrite E0 in E.
    + destruct pre; discriminate.
    + destruct pre as [|e0 pre]; simpl in E; inversion E; subst.
      * discriminate.
      * left; reflexivity.
  - intros Ht.
    destruct (analyzeScreenCapture_shape s w capture)
      as [(Ht' & _)|(_ & tl & E0 & _)]; [congruence|].
    exists tl. exact E0.
  - exact G.
  - intros Hw. apply G. rewrite Hw. vm_compute. reflexivity.
Qed.

(** The instance of C6 at the title "Terminal" with the OCR text "ls -la". *)
Lemma analyzeScreenCapture_gates_on_classification_witness :
  forallb (fun e => negb (behind_gate e))
    (fst (analyzeScreenCapture initial (world_at 100000 (lit "ls -la")) terminal))
  = true.
Proof.
  apply forallb_forall. intros e He.
  rewrite (proj2 (proj2 (proj2
    (analyzeScreenCapture_gates_on_classification initial
       (world_at 100000 (lit "ls -la")) terminal))) eq_refl e He).
  reflexivity.
Defined.

(** The dispatch stage writes the time stamp on entry, on every path. *)
Lemma handleAnalysisResults_stamps s w a :
  lastNotificationTime (snd (handleAnalysisResults s w a)) = now_dispatch w.
Proof.
  unfold handleAnalysisResults.
  repeat match goal with
         | |- context [if ?b then _ else _] => destruct b
         | |- context [match ?l with [] => _ | _ :: _ => _ end] => destruct l
         end; reflexivity.
Qed.

(** C7, evaluated.  The dispatch stage sets lastNotificationTime to the
    time of its entry whether or not it shows anything.  In a first tick at
    100000 ms, on an e-mail address in a Claude tab under the default
    preferences, the stage is entered and shows nothing, yet the stamp
    moves from 0 to 100000; a second tick 5 s later, on a social security
    number, is then refused by the 30 s throttle and shows nothing, while
    from the same state with the stamp left at 0 it shows the critical
    alert. *)
Theorem handleAnalysisResults_stamps_without_showing :
  let first := analyzeScreenCapture initial (world_at 100000 mail_text) e2e_capture in
  let s1 := snd first in
  let second := analyzeScreenCapture s1 (world_at 105000 ssn_text) e2e_capture in
  let unstamped := mkMonitor (lastAnalysisTime s1) 0 (analyzer s1) in
  let second' :=
    analyzeScreenCapture unstamped (world_at 105000 ssn_text) e2e_capture in
  (forall s w a,
     lastNotificationTime (snd (handleAnalysisResults s w a)) = now_dispatch w)
  /\ shown (fst first) = []
  /\ lastNotificationTime initial = 0%Z
  /\ lastNotificationTime s1 = 100000%Z
  /\ shown (fst second) = []
  /\ shown (fst second') = [critical_notification].
Proof.
  split; [apply handleAnalysisResults_stamps|].
  repeat split; vm_compute; reflexivity.
Qed.

(* ================================================================== *)
(** ** The content analyzer: tools, categories, risk and suggestions *)
(* ================================================================== *)

(* ---------- detectAITool ---------- *)

Lemma first_tool_In ps text t :
  first_tool ps text = Some t -> In t (List.map fst ps).
Proof.
  induction ps as [|[tool p] ps IH]; simpl; [discriminate|].
  destruct (test_pure p text).
  - intros H; inversion H; auto.
  - auto.
Qed.

Lemma detectAITool_In w content t :
  detectAITool w content = Some t -> In t tool_keys.
Proof. apply first_tool_In. Qed.

Lemma detectAITool_truthy w content :
  truthy (detectAITool w content) = is_some (detectAITool w content).
Proof.
  destruct (detectAITool w content) as [t|] eqn:E; [|reflexivity].
  apply detectAITool_In in E. simpl in E.
  repeat (destruct E as [<-|E]; [reflexivity|]). destruct E.
Qed.

(** X1.  detectAITool answers null or one of the six keys of its pattern table,
    so its result is truthy exactly when it is not null. *)
Theorem detectAITool_names_a_table_key :
  forall (windowName content : jsstring),
    (forall t, detectAITool windowName content = Some t ->
       In t ["chatgpt"; "claude"; "gemini"; "copilot"; "midjourney";
             "perplexity"])
    /\ truthy (detectAITool windowName content)
       = is_some (detectAITool windowName content).
Proof.
  intros. split; [apply detectAITool_In|apply detectAITool_truthy].
Qed.

(* ---------- analyzeSensitiveData ---------- *)

Lemma subseq_nil_any {A} (l : list A) : subseq [] l.
Proof. induction l; constructor; auto. Qed.

Lemma scan_entries_subseq es :
  forall st text acc,
    exists more, fst (scan_entries es st text acc) = acc ++ more
      /\ subseq more (List.map (fun e => fst (fst e)) es).
Proof.
  induction es as [|[[name p] k] es IH]; intros st text acc; simpl.
  - exists []. rewrite app_nil_r. split; [reflexivity|constructor].
  - destruct (test_entry p k st text) as [b st'].
    destruct (IH st' text (if b then acc ++ [name] else acc)) as (more & E & S).
    rewrite E. destruct b.
    + exists (name :: more). rewrite <- app_assoc. split; [reflexivity|].
      constructor; exact S.
    + exists more. split; [reflexivity|]. constructor; exact S.
Qed.

Lemma subseq_length {A} (l full : list A) :
  subseq l full -> List.length l <= List.length full.
Proof. induction 1; simpl; lia. Qed.

Lemma subseq_In {A} (l full : list A) x : subseq l full -> In x l -> In x full.
Proof.
  induction 1; simpl; auto.
  intros [->|H']; auto.
Qed.

Lemma subseq_NoDup {A} (l full : list A) :
  subseq l full -> NoDup full -> NoDup l.
Proof.
  induction 1; intros N; auto.
  - inversion N; auto.
  - inversion N; subst. constructor; auto.
    intros C. eapply subseq_In in C; eauto.
Qed.

(** X2.  The types reported by analyzeSensitiveData are keys of the pattern
    table in declaration order, each at most once; [detected] says that the
    list is not empty; and on the empty text nothing is detected and every
    [lastIndex] cell is left at 0, whatever it was. *)
Theorem analyzeSensitiveData_types_follow_table :
  forall (st : regex_state) (text : jsstring),
    let r := fst (analyzeSensitiveData st text) in
    subseq (types r) sensitive_keys
    /\ NoDup (types r)
    /\ (detected r = true <-> types r <> [])
    /\ analyzeSensitiveData st [] = (mkSensitive false [], fresh).
Proof.
  intros st text r.
  assert (S : subseq (types r) sensitive_keys).
  { subst r. unfold analyzeSensitiveData.
    destruct (scan_entries_subseq sensitivePatterns st text []) as (more & E & S).
    destruct (scan_entries sensitivePatterns st text []) as [ts st'].
    simpl in E. subst ts. exact S. }
  split; [exact S|]. split.
  - eapply subseq_NoDup; [exact S|].
    unfold sensitive_keys. simpl.
    repeat (constructor; [simpl; intuition discriminate|]). constructor.
  - split.
    + subst r. unfold analyzeSensitiveData.
      destruct (scan_entries sensitivePatterns st text []) as [ts st'].
      simpl. destruct ts; simpl; split; intros H; try discriminate;
        try reflexivity; exfalso; apply H; reflexivity.
    + destruct st as [[|a] [|b] [|c]]; vm_compute; reflexivity.
Qed.

(* ---------- analyzeContent without a tool ---------- *)

(** X3.  When no AI tool is detected, the analysis has risk level low and no
    learning opportunity, and its suggestions are none or the single
    suggestion of the spreadsheet rule, whatever sensitive data the text
    holds. *)
Theorem analyzeContent_no_tool_is_low_risk :
  forall (st : regex_state) (now : Z) (capture : ScreenCaptureResult)
         (text : jsstring),
    detectAITool (activeWindow capture) text = None ->
    let a := fst (analyzeContent st now capture text) in
    riskLevel a = low /\ learningOpportunity a = None
    /\ (suggestions a = [] \/ suggestions a = [efficiency_suggestion]).
Proof.
  intros st now capture text H a. subst a. unfold analyzeContent. rewrite H.
  destruct (analyzeSensitiveData st text) as [sd st1]. cbn [fst riskLevel
    learningOpportunity suggestions truthy].
  unfold calculateRiskLevel, identifyLearningOpportunity, generateSuggestions.
  cbn [truthy negb is_chatgpt]. rewrite !andb_false_r.
  split; [reflexivity|]. split; [reflexivity|].
  cbn [app].
  match goal with |- context [if ?b then _ else _] => destruct b end; auto.
Qed.

(** X3 at an instance: a social security number in a window without a tool. *)
Lemma analyzeContent_no_tool_is_low_risk_witness :
  sensitiveDataDetected (fst (analyzeContent fresh 0 notepad ssn_in_csv))
  = true
  /\ riskLevel (fst (analyzeContent fresh 0 notepad ssn_in_csv)) = low
  /\ learningOpportunity (fst (analyzeContent fresh 0 notepad ssn_in_csv))
     = None
  /\ (suggestions (fst (analyzeContent fresh 0 notepad ssn_in_csv)) = []
      \/ suggestions (fst (analyzeContent fresh 0 notepad ssn_in_csv))
         = [efficiency_suggestion]).
Proof.
  split; [vm_compute; reflexivity|].
  apply (analyzeContent_no_tool_is_low_risk fresh 0 notepad ssn_in_csv).
  vm_compute. reflexivity.
Defined.

(* ---------- the risk level of an analysis ---------- *)

Lemma calculateRiskLevel_low_iff hasSensitiveData ts tool :
  calculateRiskLevel hasSensitiveData ts tool = low
  <-> truthy tool = false \/ hasSensitiveData = false.
Proof.
  unfold calculateRiskLevel.
  destruct (truthy tool); simpl; [|tauto].
  destruct hasSensitiveData; [|tauto].
  repeat match goal with |- context [if ?b then _ else _] => destruct b end;
    split; intros H; try discriminate; destruct H; discriminate.
Qed.

(** X4.  The risk level of an analysis is low exactly when no tool or no
    sensitive data was detected, and critical exactly when a tool was
    detected together with an apiKey, a password or an ssn. *)
Theorem analyzeContent_risk_needs_tool_and_data :
  forall (st : regex_state) (now : Z) (capture : ScreenCaptureResult)
         (text : jsstring),
    let a := fst (analyzeContent st now capture text) in
    (riskLevel a = low
     <-> aiToolDetected a = None \/ sensitiveDataDetected a = false)
    /\ (riskLevel a = critical <->
        aiToolDetected a <> None
        /\ (In "apiKey" (sensitiveDataTypes a)
            \/ In "password" (sensitiveDataTypes a)
            \/ In "ssn" (sensitiveDataTypes a))).
Proof.
  intros st now capture text a. subst a. unfold analyzeContent.
  pose proof (detectAITool_truthy (activeWindow capture) text) as T.
  destruct (analyzeSensitiveData st text) as [sd st1] eqn:E.
  cbn [fst riskLevel aiToolDetected sensitiveDataDetected sensitiveDataTypes].
  assert (D : detected sd = (0 <? List.length (types sd))%nat).
  { unfold analyzeSensitiveData in E.
    destruct (scan_entries sensitivePatterns st text []) as [ts st'].
    inversion E; reflexivity. }
  split.
  - rewrite calculateRiskLevel_low_iff, T.
    destruct (detectAITool (activeWindow capture) text); simpl;
      split; intros [H|H]; auto; discriminate.
  - rewrite D. unfold calculateRiskLevel. rewrite T, !some_includes_any_of.
    destruct (detectAITool (activeWindow capture) text) as [t|];
      cbn [is_some negb].
    2:{ split; [discriminate|]. intros [H _]. congruence. }
    destruct (Spec.include_any_of (types sd) ["apiKey"; "password"; "ssn"])
      eqn:C.
    + assert (N : (0 <? List.length (types sd))%nat = true).
      { unfold Spec.include_any_of in C. apply existsb_exists in C.
        destruct C as (x & _ & Hin).
        destruct (in_dec string_dec x (types sd)) as [i|]; [|discriminate].
        destruct (types sd); [destruct i|reflexivity]. }
      rewrite N. split; [|reflexivity]. intros _. split; [discriminate|].
      unfold Spec.include_any_of in C. apply existsb_exists in C.
      destruct C as (x & Hx & Hin).
      destruct (in_dec string_dec x (types sd)); [|discriminate].
      simpl in Hx. destruct Hx as [<-|[<-|[<-|[]]]]; auto.
    + split.
      * repeat match goal with
               | |- context [if ?b then _ else _] => destruct b
               end; discriminate.
      * intros [_ H]. exfalso.
        assert (X : Spec.include_any_of (types sd) ["apiKey"; "password"; "ssn"]
                    = true).
        { destruct H as [H|[H|H]]; eapply include_any_of_In; try exact H;
            simpl; tauto. }
        congruence.
Qed.

(* ---------- suggestions and learning opportunity ---------- *)

Lemma quality_suggestion_cases q text :
  (match q with
   | poor =>
       [mkSuggestion quality "Your Prompt Needs Improvement" true priority_high
          (Some (getSpecificPromptFeedback text)) true]
   | fair =>
       [mkSuggestion quality "DAM Can Make Your Prompt More Effective" true
          priority_medium (Some (getSpecificPromptFeedback text)) true]
   | _ => []
   end = []
   /\ q <> poor /\ q <> fair)
  \/ (exists s, match q with
        | poor =>
            [mkSuggestion quality "Your Prompt Needs Improvement" true
               priority_high (Some (getSpecificPromptFeedback text)) true]
        | fair =>
            [mkSuggestion quality "DAM Can Make Your Prompt More Effective" true
               priority_medium (Some (getSpecificPromptFeedback text)) true]
        | _ => []
        end = [s]
      /\ s_type s = quality /\ improvedPrompt s <> None /\ canRewrite s = true
      /\ (q = poor \/ q = fair)).
Proof.
  destruct q.
  - right. eexists. repeat split; try reflexivity; [discriminate|auto].
  - right. eexists. repeat split; try reflexivity; [discriminate|auto].
  - left. repeat split; discriminate.
  - left. repeat split; discriminate.
Qed.

(** X5.  generateSuggestions lists its suggestions in the order security,
    alternative, quality, efficiency, each type at most once.  The security
    suggestion is present exactly when sensitive data meets a tool, and
    then so is the alternative; the quality suggestion is present exactly
    for a poor or fair prompt, and carries an improved prompt that can be
    rewritten. *)
Theorem generateSuggestions_order_and_content :
  forall (aiTool : option string) (sensitiveData : SensitiveData)
         (promptQuality : PromptQuality) (content : jsstring),
    let l := generateSuggestions aiTool sensitiveData promptQuality content in
    subseq (List.map s_type l) [security; alternative; quality; efficiency]
    /\ (In security (List.map s_type l)
        <-> detected sensitiveData = true /\ truthy aiTool = true)
    /\ (In security (List.map s_type l) <-> In alternative (List.map s_type l))
    /\ (In quality (List.map s_type l)
        <-> promptQuality = poor \/ promptQuality = fair)
    /\ (forall s, In s l -> s_type s = quality ->
          improvedPrompt s <> None /\ canRewrite s = true).
Proof.
  intros aiTool sd q content l. subst l. unfold generateSuggestions.
  destruct (quality_suggestion_cases q content)
    as [(-> & Np & Nf)|(s & -> & Ts & Is & Cs & Hq)];
    destruct (detected sd && truthy aiTool) eqn:B;
    match goal with |- context [if ?b then _ else _] => destruct b end;
    cbn [app List.map s_type In]; try rewrite Ts;
    (split; [repeat constructor|]);
    (split; [split; [intros H; repeat (destruct H as [H|H]; try discriminate);
                     try (apply andb_true_iff in B; exact B); try destruct H
                    |intros [H1 H2]; rewrite H1, H2 in B; simpl in B;
                     try discriminate; auto]|]);
    (split; [split; intros H; repeat (destruct H as [H|H]; try discriminate);
             try destruct H; auto|]);
    (split; [split; [intros H; repeat (destruct H as [H|H]; try discriminate);
                     try destruct H; auto
                    |intros [H|H]; try contradiction; auto 6]|]);
    intros s0 H Hs; repeat (destruct H as [H|H]; try (subst s0; simpl in Hs;
      try discriminate; auto)); try destruct H.
Qed.

(** X6.  A poor or fair prompt always comes with a learning opportunity; the
    opportunity is of type security_risk exactly when sensitive data meets
    a tool; and for a fair prompt without sensitive data on an AI window the
    notification gate is the draw below 0.2. *)
Theorem analyzeContent_learning_opportunity :
  forall (st : regex_state) (now : Z) (capture : ScreenCaptureResult)
         (text : jsstring) (info : AIWindowInfo) (draw : Q),
    let a := fst (analyzeContent st now capture text) in
    (promptQuality a = poor \/ promptQuality a = fair ->
     learningOpportunity a <> None)
    /\ (sensitiveDataDetected a = true /\ aiToolDetected a <> None <->
        option_map l_type (learningOpportunity a) = Some security_risk)
    /\ (isAIWindow info = true -> sensitiveDataDetected a = false ->
        promptQuality a = fair ->
        shouldShowNotification info a draw = Qltb draw double_0_2).
Proof.
  intros st now capture text info draw a. subst a. unfold analyzeContent.
  pose proof (detectAITool_truthy (activeWindow capture) text) as T.
  destruct (analyzeSensitiveData st text) as [sd st1].
  cbn [fst promptQuality learningOpportunity sensitiveDataDetected
       aiToolDetected riskLevel].
  set (tool := detectAITool (activeWindow capture) text) in *.
  set (q := if truthy tool then analyzePromptQuality text else good).
  assert (L1 : q = poor \/ q = fair ->
               identifyLearningOpportunity tool q sd text <> None).
  { unfold identifyLearningOpportunity.
    destruct (detected sd && truthy tool); [discriminate|].
    intros [->| ->]; discriminate. }
  split; [exact L1|]. split.
  - unfold identifyLearningOpportunity. rewrite T.
    destruct (detected sd) eqn:D; destruct tool as [t|]; cbn [is_some andb];
      try (split; [reflexivity|intros _; split; [reflexivity|discriminate]]);
      (split; [intros [H1 H2]; congruence|]);
      destruct q; try discriminate;
      match goal with
      | |- context [if ?b then _ else _] => destruct b; discriminate
      | _ => idtac
      end.
  - intros Hi Hs Hq. unfold shouldShowNotification. rewrite Hi.
    cbn [negb riskLevel sensitiveDataDetected promptQuality learningOpportunity].
    rewrite Hs.
    assert (R : calculateRiskLevel false (types sd) tool = low).
    { apply calculateRiskLevel_low_iff. auto. }
    rewrite R. fold q. rewrite Hq. cbn [is_high_or_critical is_poor is_fair].
    destruct (identifyLearningOpportunity tool fair sd text) eqn:E;
      [reflexivity|].
    exfalso. rewrite Hq in L1. apply L1; auto.
Qed.

(* ---------- analyzePromptQuality on long texts ---------- *)

(** X7.  A text of more than 50 code units is never rated poor, and is rated
    fair when it has no excellent and no good indicator. *)
Theorem analyzePromptQuality_long_text :
  forall text : jsstring,
    50 < List.length text ->
    analyzePromptQuality text <> poor
    /\ (loop_returns excellent_indicators text = false ->
        loop_counts good_indicators text 0 = 0 ->
        analyzePromptQuality text = fair).
Proof.
  intros text H.
  assert (P : loop_returns poor_indicators text = false).
  { destruct (loop_returns poor_indicators text) eqn:E; [|reflexivity].
    apply poor_indicators_short in E. lia. }
  assert (L : (50 <? List.length text)%nat = true) by (apply Nat.ltb_lt; lia).
  unfold analyzePromptQuality. rewrite P, L. split.
  - repeat match goal with |- context [if ?b then _ else _] => destruct b end;
      discriminate.
  - intros -> ->. reflexivity.
Qed.

(** X7 at an instance: a sentence of more than 50 code units without indicators. *)
Lemma analyzePromptQuality_long_text_witness :
  analyzePromptQuality
    (lit "the quick brown fox jumps over the lazy dog again and again")
  = fair.
Proof.
  apply analyzePromptQuality_long_text;
    [apply Nat.ltb_lt|idtac|idtac]; vm_compute; reflexivity.
Defined.

(* ---------- sanitizeContentForAlert ---------- *)

(** X8.  The sanitized content has at most 515 code units: 500 of the text and
    the truncation mark. *)
Theorem sanitizeContentForAlert_length :
  forall content : jsstring,
    List.length (sanitizeContentForAlert content) <= 515.
Proof.
  intros content. unfold sanitizeContentForAlert.
  match goal with |- context [(500 <? ?n)%nat] => destruct (500 <? n)%nat eqn:E end.
  - unfold substring0. rewrite length_app, length_firstn.
    change (List.length TRUNCATED) with 15. lia.
  - apply Nat.ltb_ge in E. lia.
Qed.

Lemma replace_no_match p s repl : no_match p s -> replace p s repl = s.
Proof.
  unfold no_match, replace, matches_of. intros H.
  destruct (global p); simpl; rewrite H; reflexivity.
Qed.

(** X9.  A text of at most 500 code units in which none of the four redacted
    patterns matches is returned unchanged. *)
Theorem sanitizeContentForAlert_clean_text :
  forall content : jsstring,
    no_match apiKey content -> no_match openaiKey content ->
    no_match ssn content -> no_match creditCard content ->
    List.length content <= 500 ->
    sanitizeContentForAlert content = content.
Proof.
  intros content H1 H2 H3 H4 L. unfold sanitizeContentForAlert.
  rewrite (replace_no_match _ _ _ H1), (replace_no_match _ _ _ H2),
    (replace_no_match _ _ _ H3), (replace_no_match _ _ _ H4).
  apply Nat.ltb_ge in L. rewrite L. reflexivity.
Qed.

(** X9 at an instance: a short prompt. *)
Lemma sanitizeContentForAlert_clean_text_witness :
  sanitizeContentForAlert (lit "summarise the meeting notes of 12 May")
  = lit "summarise the meeting notes of 12 May".
Proof.
  apply sanitizeContentForAlert_clean_text;
    [idtac|idtac|idtac|idtac|apply Nat.leb_le]; vm_compute; reflexivity.
Defined.

(* ---------- getSpecificPromptFeedback ---------- *)

(** X10.  getSpecificPromptFeedback never answers vague-request: a trimmed text
    of fewer than 10 code units, as every text that its vague-request test
    accepts is, has already been answered one-word or too-short. *)
Theorem getSpecificPromptFeedback_never_vague_request :
  forall content : jsstring,
    getSpecificPromptFeedback content <> vague_request
    /\ (List.length (toLowerCase (trim content)) < 10 ->
        getSpecificPromptFeedback content = one_word
        \/ getSpecificPromptFeedback content = too_short).
Proof.
  intros content. unfold getSpecificPromptFeedback.
  destruct (test_pure one_word_pattern (toLowerCase (trim content)));
    [split; [discriminate|auto]|].
  destruct (List.length (toLowerCase (trim content)) <? 10)%nat eqn:L;
    [split; [discriminate|auto]|].
  apply Nat.ltb_ge in L.
  destruct (test_pure vague_pattern (toLowerCase (trim content))) eqn:V.
  - exfalso. unfold vague_pattern in V.
    apply anchored_bound with (n := 8) in V; [lia|reflexivity].
  - split; [|lia].
    match goal with |- context [if ?b then _ else _] => destruct b end;
      discriminate.
Qed.

(* ---------- the lastIndex cells along the table ---------- *)

Lemma get_set_same st k v : get_cell (set_cell st k v) k = v.
Proof. destruct k; reflexivity. Qed.

Lemma get_set_other st k k' v :
  cell_eqb k' k = false -> get_cell (set_cell st k' v) k = get_cell st k.
Proof. destruct k, k'; simpl; intros; try discriminate; reflexivity. Qed.

Lemma scan_entries_app es1 es2 st text acc :
  scan_entries (es1 ++ es2) st text acc
  = scan_entries es2 (snd (scan_entries es1 st text acc)) text
      (fst (scan_entries es1 st text acc)).
Proof.
  revert st acc. induction es1 as [|[[name p] k] es1 IH]; intros st acc; simpl;
    [reflexivity|].
  destruct (test_entry p k st text) as [b st']. apply IH.
Qed.

(** Entries that do not hold the cell leave it as it is. *)
Lemma scan_entries_frame k es :
  forallb (without_cell k) es = true ->
  forall st text acc,
    get_cell (snd (scan_entries es st text acc)) k = get_cell st k.
Proof.
  induction es as [|[[name p] k'] es IH]; intros F st text acc; simpl;
    [reflexivity|].
  simpl in F. apply andb_true_iff in F. destruct F as [F1 F2].
  unfold test_entry. destruct k' as [k'|].
  - destruct (test p (get_cell st k') text) as [b li].
    rewrite (IH F2). apply get_set_other.
    unfold without_cell in F1. simpl in F1. apply negb_true_iff in F1. exact F1.
  - apply (IH F2).
Qed.

Lemma test_miss_resets p li s :
  global p = true -> fst (test p li s) = false -> snd (test p li s) = 0.
Proof.
  unfold test. intros ->.
  destruct (exec_from (ignoreCase p) (re p) s li) as [[b e]|]; simpl;
    [discriminate|reflexivity].
Qed.

(** After the loop, a pattern with the [g] flag was reported or its cell
    is 0. *)
Lemma scan_entries_cell k name p before after :
  global p = true ->
  forallb (without_cell k) before = true ->
  forallb (without_cell k) after = true ->
  forall st text,
    let r := scan_entries (before ++ (name, p, Some k) :: after) st text [] in
    In name (fst r) \/ get_cell (snd r) k = 0.
Proof.
  intros G Fb Fa st text r. subst r. rewrite scan_entries_app.
  set (st1 := snd (scan_entries before st text [])).
  set (acc1 := fst (scan_entries before st text [])).
  cbn [scan_entries test_entry].
  destruct (test p (get_cell st1 k) text) as [b li] eqn:T.
  destruct b.
  - left.
    destruct (scan_entries_extends after (set_cell st1 k li) text (acc1 ++ [name]))
      as [more E].
    rewrite E. apply in_or_app. left. apply in_or_app. right. left; reflexivity.
  - right. rewrite (scan_entries_frame k after Fa), get_set_same.
    pose proof (test_miss_resets p (get_cell st1 k) text G) as R.
    rewrite T in R. apply R. reflexivity.
Qed.

(** X11.  After analyzeContent the [lastIndex] cells of apiKey and openaiKey are
    0 again, and all three cells are unless awsKey was reported: only the
    awsKey cell carries over to the next analysis. *)
Theorem analyzeContent_resets_key_cells :
  forall (st : regex_state) (now : Z) (capture : ScreenCaptureResult)
         (text : jsstring),
    let a := fst (analyzeContent st now capture text) in
    let st' := snd (analyzeContent st now capture text) in
    apiKey_lastIndex st' = 0 /\ openaiKey_lastIndex st' = 0
    /\ (~ In "awsKey" (sensitiveDataTypes a) -> st' = fresh).
Proof.
  intros st now capture text a st'. subst a st'. unfold analyzeContent.
  destruct (analyzeSensitiveData st text) as [sd st1] eqn:E.
  cbn [fst snd sensitiveDataTypes].
  unfold analyzeSensitiveData in E.
  pose proof (scan_entries_cell CApiKey "apiKey" apiKey
                (firstn 4 sensitivePatterns) (skipn 5 sensitivePatterns)
                eq_refl eq_refl eq_refl st text) as A.
  pose proof (scan_entries_cell COpenaiKey "openaiKey" openaiKey
                (firstn 6 sensitivePatterns) (skipn 7 sensitivePatterns)
                eq_refl eq_refl eq_refl st text) as O.
  pose proof (scan_entries_cell CAwsKey "awsKey" awsKey
                (firstn 7 sensitivePatterns) (skipn 8 sensitivePatterns)
                eq_refl eq_refl eq_refl st text) as W.
  change (firstn 4 sensitivePatterns ++ ("apiKey", apiKey, Some CApiKey)
          :: skipn 5 sensitivePatterns) with sensitivePatterns in A.
  change (firstn 6 sensitivePatterns ++ ("openaiKey", openaiKey, Some COpenaiKey)
          :: skipn 7 sensitivePatterns) with sensitivePatterns in O.
  change (firstn 7 sensitivePatterns ++ ("awsKey", awsKey, Some CAwsKey)
          :: skipn 8 sensitivePatterns) with sensitivePatterns in W.
  cbv zeta in A, O, W.
  destruct (scan_entries sensitivePatterns st text []) as [ts st0].
  inversion E; subst sd st1; clear E. cbn [fst snd detected types] in *.
  unfold syncToEnterpriseDashboard.
  cbn [riskLevel sensitiveDataDetected].
  destruct ts as [|t ts].
  - (* nothing detected: every cell was reset by its own miss *)
    destruct A as [[]|A], O as [[]|O], W as [[]|W].
    cbn [List.length Nat.ltb Nat.leb].
    replace (calculateRiskLevel false [] (detectAITool (activeWindow capture) text))
      with low.
    2:{ symmetry. apply calculateRiskLevel_low_iff. auto. }
    cbn [is_high_or_critical orb].
    destruct st0 as [x y z]. simpl in *. subst. auto.
  - cbn [List.length Nat.ltb Nat.leb]. rewrite orb_true_r.
    unfold sanitize_state. destruct st0 as [x y z]. simpl.
    split; [reflexivity|]. split; [reflexivity|].
    intros N. destruct W as [W|W]; [contradiction|]. simpl in W. subst z.
    reflexivity.
Qed.

(* ---------- the categories without the g flag ---------- *)

Lemma test_entry_stateless p st text :
  test_entry p None st text = (test_pure p text, st).
Proof. reflexivity. Qed.

Lemma scan_entries_stateless n es :
  forallb (stateless_for n) es = true ->
  forall st text acc,
    In n (fst (scan_entries es st text acc))
    <-> In n acc \/ exists p, In (n, p, None) es /\ test_pure p text = true.
Proof.
  induction es as [|[[name p] k] es IH]; intros F st text acc.
  - simpl. split; [auto|]. intros [H|(p & [] & _)]. exact H.
  - simpl in F. apply andb_true_iff in F. destruct F as [F1 F2].
    cbn [scan_entries].
    destruct (test_entry p k st text) as [b st'] eqn:T.
    rewrite (IH F2). unfold stateless_for in F1. cbn [fst snd] in F1.
    destruct (String.eqb name n) eqn:En.
    + apply String.eqb_eq in En. subst name. cbn [negb orb] in F1.
      destruct k; [discriminate|]. rewrite test_entry_stateless in T.
      inversion T; subst b st'; clear T.
      split.
      * intros [H|(q & Hq & Tq)].
        -- destruct (test_pure p text) eqn:Tp.
           ++ apply in_app_or in H. destruct H as [H|H]; [auto|].
              right. exists p. split; [left; reflexivity|exact Tp].
           ++ auto.
        -- right. exists q. split; [right; exact Hq|exact Tq].
      * intros [H|(q & [Hq|Hq] & Tq)].
        -- left. destruct (test_pure p text); [apply in_or_app|]; auto.
        -- inversion Hq; subst q. rewrite Tq. left. apply in_or_app.
           right. left; reflexivity.
        -- right. exists q. auto.
    + apply String.eqb_neq in En.
      split.
      * intros [H|(q & Hq & Tq)].
        -- left. destruct b; [|exact H]. apply in_app_or in H.
           destruct H as [H|[H|[]]]; [exact H|contradiction].
        -- right. exists q. split; [right; exact Hq|exact Tq].
      * intros [H|(q & [Hq|Hq] & Tq)].
        -- left. destruct b; [apply in_or_app|]; auto.
        -- inversion Hq. contradiction.
        -- right. exists q. auto.
Qed.

(** X12.  For the eight categories whose pattern has no [g] flag, whether the
    category is reported does not depend on the [lastIndex] cells. *)
Theorem analyzeSensitiveData_stateless_categories :
  forall (st st' : regex_state) (text : jsstring) (n : string),
    In n stateless_keys ->
    (In n (types (fst (analyzeSensitiveData st text)))
     <-> In n (types (fst (analyzeSensitiveData st' text)))).
Proof.
  intros st st' text n Hn.
  assert (F : forallb (stateless_for n) sensitivePatterns = true).
  { unfold stateless_keys in Hn. simpl in Hn.
    repeat (destruct Hn as [<-|Hn]; [reflexivity|]). destruct Hn. }
  unfold analyzeSensitiveData.
  pose proof (scan_entries_stateless n sensitivePatterns F st text []) as A.
  pose proof (scan_entries_stateless n sensitivePatterns F st' text []) as B.
  destruct (scan_entries sensitivePatterns st text []) as [ts s1].
  destruct (scan_entries sensitivePatterns st' text []) as [ts' s2].
  cbn [fst types] in *. rewrite A, B. reflexivity.
Qed.

(** X12 at an instance: the category ssn, from cells at 7 and from fresh cells. *)
Lemma analyzeSensitiveData_stateless_categories_witness :
  In "ssn" (types (fst (analyzeSensitiveData (RegexState 7 7 7) ssn_text)))
  <-> In "ssn" (types (fst (analyzeSensitiveData fresh ssn_text))).
Proof.
  apply analyzeSensitiveData_stateless_categories. simpl. tauto.
Defined.

(* ---------- String.prototype.includes ---------- *)

Lemma starts_with_spec p :
  forall s, starts_with p s = true <-> exists r, s = p ++ r.
Proof.
  induction p as [|a p IH]; intros s; simpl.
  - split; [intros _; exists s; reflexivity|reflexivity].
  - destruct s as [|b s].
    + split; [discriminate|]. intros [r H]; discriminate.
    + rewrite andb_true_iff, IH. unfold char_eqb. rewrite N.eqb_eq. split.
      * intros [-> [r ->]]. exists r. reflexivity.
      * intros [r H]. inversion H; subst. split; [reflexivity|eauto].
Qed.

Lemma includes_spec p :
  forall s, includes s p = true <-> occurs_in p s.
Proof.
  unfold occurs_in.
  induction s as [|b s IH].
  - simpl. rewrite orb_false_r, starts_with_spec. split.
    + intros [r H]. exists [], r. exact H.
    + intros (l & r & H). destruct l; [exists r; exact H|discriminate].
  - cbn [includes]. rewrite orb_true_iff, starts_with_spec, IH. split.
    + intros [[r H]|(l & r & H)].
      * exists [], r. exact H.
      * exists (b :: l), r. rewrite H. reflexivity.
    + intros (l & r & H). destruct l as [|x l].
      * left. exists r. exact H.
      * right. inversion H; subst. exists l, r. reflexivity.
Qed.

Lemma includes_trans s p q :
  includes s p = true -> includes p q = true -> includes s q = true.
Proof.
  rewrite !includes_spec. intros (l & r & ->) (l' & r' & ->).
  exists (l ++ l'), (r' ++ r). rewrite <- !app_assoc. reflexivity.
Qed.

Lemma includes_false s p q :
  includes s q = false -> includes p q = true -> includes s p = false.
Proof.
  intros H1 H2. destruct (includes s p) eqn:E; [|reflexivity].
  rewrite (includes_trans s p q E H2) in H1. discriminate.
Qed.

(* ---------- identifyAITool ---------- *)

Lemma first_known_Some tools w t :
  first_known tools w = Some t -> In t tools /\ includes w (lit t) = true.
Proof.
  induction tools as [|tool tools IH]; simpl; [discriminate|].
  destruct (includes w (lit tool)) eqn:E.
  - intros H; inversion H; subst. auto.
  - intros H. destruct (IH H). auto.
Qed.

Lemma first_known_None tools w :
  first_known tools w = None <->
  forall t, In t tools -> includes w (lit t) = false.
Proof.
  induction tools as [|tool tools IH]; simpl.
  - split; [intros _ t []|reflexivity].
  - destruct (includes w (lit tool)) eqn:E.
    + split; [discriminate|]. intros H. rewrite (H tool) in E; [discriminate|auto].
    + rewrite IH. split.
      * intros H t [<-|Ht]; auto.
      * intros H t Ht. apply H. auto.
Qed.

(** X13.  identifyAITool answers a known tool whose name occurs in the window
    name, or chatgpt for a name that has openai.com in it; it answers null
    exactly when no known name and no openai.com occurs.  So the answer is
    never the string unknown, and of the URL patterns only openai.com
    decides anything. *)
Theorem identifyAITool_answers_known_tools :
  forall windowName : jsstring,
    (forall t, identifyAITool windowName = Some t ->
       In t knownAITools
       /\ (includes windowName (lit t) = true
           \/ (t = "chatgpt"
               /\ includes windowName (lit "openai.com") = true)))
    /\ (identifyAITool windowName = None <->
        (forall t, In t knownAITools -> includes windowName (lit t) = false)
        /\ includes windowName (lit "openai.com") = false).
Proof.
  intros w. unfold identifyAITool.
  destruct (first_known knownAITools w) as [t0|] eqn:K.
  - apply first_known_Some in K. destruct K as [K1 K2]. split.
    + intros t H. inversion H; subst. auto.
    + split; [discriminate|]. intros [H _]. rewrite (H t0 K1) in K2.
      discriminate.
  - pose proof (proj1 (first_known_None knownAITools w) K) as N.
    assert (C1 : includes w (lit "chat.openai.com") = true ->
                 includes w (lit "openai.com") = true)
      by (intros H; apply (includes_trans _ _ _ H); reflexivity).
    assert (C2 : includes w (lit "claude.ai") = false)
      by (apply (includes_false w _ (lit "claude"));
          [apply N; simpl; tauto|reflexivity]).
    assert (C3 : includes w (lit "bard.google.com") = false)
      by (apply (includes_false w _ (lit "bard"));
          [apply N; simpl; tauto|reflexivity]).
    assert (C4 : includes w (lit "github.com/features/copilot") = false)
      by (apply (includes_false w _ (lit "copilot"));
          [apply N; simpl; tauto|reflexivity]).
    assert (C5 : includes w (lit "midjourney.com") = false)
      by (apply (includes_false w _ (lit "midjourney"));
          [apply N; simpl; tauto|reflexivity]).
    assert (C6 : includes w (lit "beta.character.ai") = false)
      by (apply (includes_false w _ (lit "character.ai"));
          [apply N; simpl; tauto|reflexivity]).
    unfold aiPatterns. cbn [first_pattern]. rewrite C2, C3, C4, C5, C6.
    destruct (includes w (lit "openai.com")) eqn:O; cbv iota.
    + split.
      * intros t H. inversion H; subst. split; [vm_compute; tauto|].
        right. split; reflexivity.
      * split; [intros H; discriminate H|]. intros [_ H]; discriminate H.
    + destruct (includes w (lit "chat.openai.com")) eqn:O2;
        [discriminate (C1 eq_refl)|]. cbv iota.
      split; [discriminate|]. split; auto.
Qed.

(* ---------- the window classifier ---------- *)

Lemma first_url_is_ai ps text info :
  first_url ps text = Some info ->
  isAIWindow info = true /\ platform info <> None /\ appName info = None.
Proof.
  induction ps as [|[p name] ps IH]; simpl; [discriminate|].
  destruct (test_pure p text); [|exact IH].
  intros H; inversion H; subst; simpl. repeat split; discriminate.
Qed.

Lemma first_name_is_ai names w info :
  first_name names w = Some info ->
  isAIWindow info = true /\ platform info <> None /\ appName info = None.
Proof.
  induction names as [|name names IH]; simpl; [discriminate|].
  destruct (includes w (toLowerCase (lit name))); [|exact IH].
  intros H; inversion H; subst; simpl. repeat split; discriminate.
Qed.

Lemma first_cli_is_ai ps text info :
  first_cli ps text = Some info ->
  isAIWindow info = true /\ platform info <> None
  /\ appName info = Some "Terminal".
Proof.
  induction ps as [|[p name] ps IH]; simpl; [discriminate|].
  destruct (test_pure p text); [|exact IH].
  intros H; inversion H; subst; simpl. repeat split; discriminate.
Qed.

Lemma first_app_is_ai ps w info :
  first_app ps w = Some info ->
  isAIWindow info = true /\ platform info <> None
  /\ exists name, In name (List.map snd ps) /\ appName info = Some name.
Proof.
  induction ps as [|[p name] ps IH]; simpl; [discriminate|].
  destruct (test_pure p w).
  - intros H; inversion H; subst; simpl. repeat split; try discriminate.
    exists name. auto.
  - intros H. destruct (IH H) as (A & B & n & Hn & E). repeat split; auto.
    exists n. auto.
Qed.

Lemma checkBrowserAIPlatform_cases title text :
  checkBrowserAIPlatform title text = not_ai
  \/ (isAIWindow (checkBrowserAIPlatform title text) = true
      /\ platform (checkBrowserAIPlatform title text) <> None
      /\ appName (checkBrowserAIPlatform title text) = None).
Proof.
  unfold checkBrowserAIPlatform.
  match goal with |- context [if negb ?b then _ else _] => destruct b end;
    cbn [negb]; [|auto].
  destruct (first_url aiPlatformUrls (title ++ blank ++ text)) eqn:U.
  - right. eapply first_url_is_ai; eauto.
  - destruct (first_name _ (toLowerCase title)) eqn:N; [|auto].
    right. eapply first_name_is_ai; eauto.
Qed.

Lemma checkTerminalAI_cases title text :
  checkTerminalAI title text = not_ai
  \/ (isAIWindow (checkTerminalAI title text) = true
      /\ platform (checkTerminalAI title text) <> None
      /\ appName (checkTerminalAI title text) = Some "Terminal").
Proof.
  unfold checkTerminalAI.
  match goal with |- context [if negb ?b then _ else _] => destruct b end;
    cbn [negb]; [|auto].
  destruct (first_cli terminalAIPatterns text) eqn:U; [|auto].
  right. eapply first_cli_is_ai; eauto.
Qed.

Lemma checkDesktopAIApp_cases title :
  checkDesktopAIApp title = not_ai
  \/ (isAIWindow (checkDesktopAIApp title) = true
      /\ platform (checkDesktopAIApp title) <> None
      /\ exists name, In name (List.map snd aiDesktopApps)
                      /\ appName (checkDesktopAIApp title) = Some name).
Proof.
  unfold checkDesktopAIApp.
  destruct (first_app aiDesktopApps (toLowerCase title)) eqn:U; [|auto].
  right. eapply first_app_is_ai; eauto.
Qed.

(** X14.  detectAIWindow answers the constant not-an-AI-window record or an AI
    window with a platform, and a browser match takes precedence over the
    terminal and desktop checks. *)
Theorem detectAIWindow_names_its_platform :
  forall (windowTitle extractedText : jsstring),
    let info := detectAIWindow windowTitle extractedText in
    (isAIWindow info = false -> info = not_ai)
    /\ (isAIWindow info = true -> platform info <> None)
    /\ (isAIWindow (checkBrowserAIPlatform windowTitle extractedText) = true ->
        info = checkBrowserAIPlatform windowTitle extractedText).
Proof.
  intros title text info. subst info. unfold detectAIWindow.
  destruct (checkBrowserAIPlatform_cases title text) as [->|(B1 & B2 & _)].
  2:{ rewrite B1. repeat split; auto. rewrite B1. discriminate. }
  cbn [isAIWindow not_ai].
  destruct (checkTerminalAI_cases title text) as [->|(T1 & T2 & _)].
  2:{ rewrite T1. repeat split; auto; try discriminate. rewrite T1. discriminate. }
  cbn [isAIWindow not_ai].
  destruct (checkDesktopAIApp_cases title) as [->|(D1 & D2 & _)].
  2:{ rewrite D1. repeat split; auto; try discriminate. rewrite D1. discriminate. }
  cbn [isAIWindow not_ai]. repeat split; auto; discriminate.
Qed.

(** X15.  With the empty extracted text, as the orchestrator calls it, the
    terminal check never succeeds: the classification is the browser check
    followed by the desktop check. *)
Theorem detectAIWindow_without_text_ignores_terminals :
  forall windowTitle : jsstring,
    checkTerminalAI windowTitle [] = not_ai
    /\ appName (detectAIWindow windowTitle []) <> Some "Terminal"
    /\ detectAIWindow windowTitle []
       = (if isAIWindow (checkBrowserAIPlatform windowTitle [])
          then checkBrowserAIPlatform windowTitle []
          else checkDesktopAIApp windowTitle).
Proof.
  intros title.
  assert (T : checkTerminalAI title [] = not_ai).
  { unfold checkTerminalAI.
    match goal with |- context [if negb ?b then _ else _] => destruct b end;
      reflexivity. }
  split; [exact T|].
  assert (E : detectAIWindow title []
       = (if isAIWindow (checkBrowserAIPlatform title [])
          then checkBrowserAIPlatform title []
          else checkDesktopAIApp title)).
  { unfold detectAIWindow. rewrite T. cbn [isAIWindow not_ai].
    destruct (isAIWindow (checkBrowserAIPlatform title [])); [reflexivity|].
    destruct (checkDesktopAIApp_cases title) as [->|(D1 & _)];
      [reflexivity|rewrite D1; reflexivity]. }
  split; [|exact E]. rewrite E.
  destruct (checkBrowserAIPlatform_cases title []) as [->|(B1 & _ & B3)].
  - cbn [isAIWindow not_ai].
    destruct (checkDesktopAIApp_cases title) as [->|(_ & _ & n & Hn & ->)];
      [discriminate|].
    simpl in Hn. intros C. inversion C; subst.
    repeat (destruct Hn as [Hn|Hn]; [discriminate|]). destruct Hn.
  - rewrite B1, B3. discriminate.
Qed.

(* ---------- what a tick shows ---------- *)

Lemma shown_app a b : shown (a ++ b) = shown a ++ shown b.
Proof.
  induction a as [|e a IH]; simpl; [reflexivity|].
  destruct e; simpl; rewrite ?IH; reflexivity.
Qed.

Lemma shown_alert_events a : shown (alert_events a) = [].
Proof. unfold alert_events. destruct (is_high_or_critical _); reflexivity. Qed.

Lemma shown_recordAnalysis w a : shown (recordAnalysis w a) = [].
Proof.
  unfold recordAnalysis.
  destruct (aiToolDetected a); [|apply shown_alert_events].
  destruct (truthy _); [|apply shown_alert_events].
  destruct (usage_insert_ok w); simpl; [apply shown_alert_events|reflexivity].
Qed.

(** The dispatch stage shows nothing or one of the four notifications,
    each under its own condition. *)
Lemma handleAnalysisResults_shown s w a :
  let tr := fst (handleAnalysisResults s w a) in
  tr = List.map Show (shown tr)
  /\ (tr = []
      \/ (tr = [Show critical_notification]
          /\ riskLevel a = critical /\ criticalAlerts (prefs w) = true)
      \/ (tr = [Show security_notification]
          /\ riskLevel a = high /\ securityWarnings (prefs w) = true)
      \/ (tr = [Show prompt_notification]
          /\ promptSuggestions (prefs w) = true /\ promptQuality a = poor)
      \/ (exists l, tr = [Show (learning_notification l)]
          /\ learningTips (prefs w) = true
          /\ learningOpportunity a = Some l)).
Proof.
  unfold handleAnalysisResults.
  assert (LB : learning_branch w a = List.map Show (shown (learning_branch w a))
               /\ (learning_branch w a = []
                   \/ exists l, learning_branch w a = [Show (learning_notification l)]
                        /\ learningTips (prefs w) = true
                        /\ learningOpportunity a = Some l)).
  { unfold learning_branch. destruct (learningOpportunity a) as [l|]; [|auto].
    destruct (learningTips (prefs w)); cbn [andb]; [|auto].
    destruct (Qltb _ _); [|auto]. split; [reflexivity|].
    right. exists l. auto. }
  destruct LB as [LB1 LB2].
  assert (LB' : learning_branch w a = List.map Show (shown (learning_branch w a))
      /\ (learning_branch w a = []
      \/ (learning_branch w a = [Show critical_notification]
          /\ riskLevel a = critical /\ criticalAlerts (prefs w) = true)
      \/ (learning_branch w a = [Show security_notification]
          /\ riskLevel a = high /\ securityWarnings (prefs w) = true)
      \/ (learning_branch w a = [Show prompt_notification]
          /\ promptSuggestions (prefs w) = true /\ promptQuality a = poor)
      \/ (exists l, learning_branch w a = [Show (learning_notification l)]
          /\ learningTips (prefs w) = true
          /\ learningOpportunity a = Some l))).
  { split; [exact LB1|]. destruct LB2 as [E|E]; auto 6. }
  destruct (is_critical (riskLevel a)) eqn:C.
  - destruct (criticalAlerts (prefs w)) eqn:P; cbn [andb fst].
    + split; [reflexivity|]. right. left. repeat split.
      destruct (riskLevel a); try discriminate; reflexivity.
    + destruct (is_high (riskLevel a)) eqn:Hh;
        [destruct (riskLevel a); discriminate|]. cbn [andb].
      repeat match goal with
             | |- context [if ?b then _ else _] => destruct b eqn:?
             | |- context [match ?l with [] => _ | _ :: _ => _ end] =>
                 destruct l eqn:?
             end; cbn [fst]; try exact LB'.
      split; [reflexivity|]. right. right. right. left.
      repeat match goal with
             | H : _ && _ = true |- _ => apply andb_true_iff in H; destruct H
             end.
      repeat split; auto. destruct (promptQuality a); try discriminate; auto.
  - cbn [andb].
    destruct (is_high (riskLevel a)) eqn:Hh.
    + destruct (securityWarnings (prefs w)) eqn:P; cbn [andb fst].
      * split; [reflexivity|]. right. right. left. repeat split.
        destruct (riskLevel a); try discriminate; reflexivity.
      * repeat match goal with
               | |- context [if ?b then _ else _] => destruct b eqn:?
               | |- context [match ?l with [] => _ | _ :: _ => _ end] =>
                   destruct l eqn:?
               end; cbn [fst]; try exact LB'.
        split; [reflexivity|]. right. right. right. left.
        repeat match goal with
               | H : _ && _ = true |- _ => apply andb_true_iff in H; destruct H
               end.
        repeat split; auto. destruct (promptQuality a); try discriminate; auto.
    + cbn [andb].
      repeat match goal with
             | |- context [if ?b then _ else _] => destruct b eqn:?
             | |- context [match ?l with [] => _ | _ :: _ => _ end] =>
                 destruct l eqn:?
             end; cbn [fst]; try exact LB'.
      split; [reflexivity|]. right. right. right. left.
      repeat match goal with
             | H : _ && _ = true |- _ => apply andb_true_iff in H; destruct H
             end.
      repeat split; auto. destruct (promptQuality a); try discriminate; auto.
Qed.

Lemma handleAnalysisResults_state s w a :
  snd (handleAnalysisResults s w a)
  = mkMonitor (lastAnalysisTime s) (now_dispatch w) (analyzer s).
Proof.
  unfold handleAnalysisResults.
  repeat match goal with
         | |- context [if ?b then _ else _] => destruct b
         | |- context [match ?l with [] => _ | _ :: _ => _ end] => destruct l
         end; reflexivity.
Qed.

Lemma handleAnalysisResults_trace s1 s2 w a :
  fst (handleAnalysisResults s1 w a) = fst (handleAnalysisResults s2 w a).
Proof.
  unfold handleAnalysisResults.
  repeat match goal with
         | |- context [if ?b then _ else _] => destruct b
         | |- context [match ?l with [] => _ | _ :: _ => _ end] => destruct l
         end; reflexivity.
Qed.

(** The paths of a tick. *)
Lemma analyzeScreenCapture_cases s w capture :
  let tr := fst (analyzeScreenCapture s w capture) in
  let s' := snd (analyzeScreenCapture s w capture) in
  let title := activeWindow capture in
  let info := detectAIWindow title [] in
  ((now_analysis w - lastAnalysisTime s <? analysisThrottleMs)%Z = true
   /\ tr = [] /\ s' = s)
  \/ ((now_analysis w - lastAnalysisTime s <? analysisThrottleMs)%Z = false
      /\ lastAnalysisTime s' = now_analysis w
      /\ (((tr = [Classify title []] \/ tr = [Classify title []; Ocr capture])
           /\ lastNotificationTime s' = lastNotificationTime s)
          \/ exists text disp,
               let a := fst (analyzeContent (analyzer s) (now_content w)
                               capture text) in
               ocr_text w = Some text /\ isAIWindow info = true
               /\ tr = [Classify title []; Ocr capture; Analyze capture text]
                       ++ recordAnalysis w a ++ disp
               /\ ((disp = []
                    /\ lastNotificationTime s' = lastNotificationTime s)
                   \/ (disp = fst (handleAnalysisResults s w a)
                       /\ lastNotificationTime s' = now_dispatch w
                       /\ shouldShowNotification info a (random_gate w) = true
                       /\ enabled (prefs w) = true
                       /\ (notificationThrottleMs
                           <= now_gate w - lastNotificationTime s)%Z)))).
Proof.
  unfold analyzeScreenCapture.
  destruct (now_analysis w - lastAnalysisTime s <? analysisThrottleMs)%Z;
    [left; auto|right; split; [reflexivity|]].
  destruct (isAIWindow (detectAIWindow (activeWindow capture) [])) eqn:AI;
    cbn [negb].
  2:{ simpl. auto. }
  destruct (ocr_text w) as [text|].
  2:{ simpl. auto 6. }
  destruct ((List.length text =? 0)%nat || (List.length (trim text) =? 0)%nat).
  { simpl. auto 6. }
  cbn [analyzer lastAnalysisTime lastNotificationTime].
  destruct (analyzeContent (analyzer s) (now_content w) capture text)
    as [a st] eqn:E.
  destruct (shouldShowNotification (detectAIWindow (activeWindow capture) []) a
              (random_gate w)) eqn:G; cbn [andb].
  2:{ simpl. split; [reflexivity|]. right. exists text, [].
      cbn zeta. rewrite E, app_nil_r. cbn [fst]. auto 8. }
  unfold canShowNotification. cbn [lastNotificationTime].
  destruct (now_gate w - lastNotificationTime s <? notificationThrottleMs)%Z
    eqn:Th.
  { simpl. split; [reflexivity|]. right. exists text, [].
    cbn zeta. rewrite E, app_nil_r. cbn [fst]. auto 8. }
  destruct (enabled (prefs w)) eqn:En.
  2:{ simpl. split; [reflexivity|]. right. exists text, [].
      cbn zeta. rewrite E, app_nil_r. cbn [fst]. auto 8. }
  match goal with
  | |- context [handleAnalysisResults ?m w a] =>
      pose proof (handleAnalysisResults_state m w a) as Hs;
      pose proof (handleAnalysisResults_trace m s w a) as Ht;
      destruct (handleAnalysisResults m w a) as [d s1]
  end.
  cbn [fst snd] in *. subst s1. cbn [lastAnalysisTime lastNotificationTime].
  split; [reflexivity|]. right. exists text, d. cbn zeta.
  rewrite E. cbn [fst].
  split; [reflexivity|]. split; [reflexivity|].
  split; [rewrite <- !app_assoc; reflexivity|].
  right. apply Z.ltb_ge in Th. auto 8.
Qed.

(** X16.  A tick shows at most one notification. *)
Theorem analyzeScreenCapture_shows_at_most_one :
  forall (s : monitor) (w : world) (capture : ScreenCaptureResult),
    List.length (shown (fst (analyzeScreenCapture s w capture))) <= 1.
Proof.
  intros s w capture.
  destruct (analyzeScreenCapture_cases s w capture)
    as [(_ & -> & _)|(_ & _ & [([->| ->] & _)|(text & d & _ & _ & -> & D)])];
    try (simpl; lia).
  rewrite !shown_app, shown_recordAnalysis. cbn [shown app].
  destruct D as [(-> & _)|(-> & _)]; [simpl; lia|].
  destruct (handleAnalysisResults_shown s w
              (fst (analyzeContent (analyzer s) (now_content w) capture text)))
    as [_ [E|[(E & _)|[(E & _)|[(E & _)|(l & E & _)]]]]];
    rewrite E; simpl; lia.
Qed.

(** X17.  A tick that shows a notification has notifications enabled, comes at
    least 30 s after the last dispatch and at least 3 s after the last
    analysis, concerns an AI window, and sets lastNotificationTime to the
    time of its dispatch. *)
Theorem analyzeScreenCapture_shows_only_when_allowed :
  forall (s : monitor) (w : world) (capture : ScreenCaptureResult),
    shown (fst (analyzeScreenCapture s w capture)) <> [] ->
    enabled (prefs w) = true
    /\ (notificationThrottleMs <= now_gate w - lastNotificationTime s)%Z
    /\ (analysisThrottleMs <= now_analysis w - lastAnalysisTime s)%Z
    /\ isAIWindow (detectAIWindow (activeWindow capture) []) = true
    /\ lastNotificationTime (snd (analyzeScreenCapture s w capture))
       = now_dispatch w.
Proof.
  intros s w capture H.
  destruct (analyzeScreenCapture_cases s w capture)
    as [(_ & E & _)|(T & _ & [([E|E] & _)|(text & d & _ & AI & E & D)])];
    try (rewrite E in H; exfalso; apply H; reflexivity).
  rewrite E, !shown_app, shown_recordAnalysis in H. cbn [shown app] in H.
  destruct D as [(-> & _)|(_ & St & _ & En & Th)];
    [exfalso; apply H; reflexivity|].
  apply Z.ltb_ge in T. auto.
Qed.

(** X17 at an instance: a social security number in a Claude tab, 100 s after start. *)
Lemma analyzeScreenCapture_shows_only_when_allowed_witness :
  enabled (prefs (world_at 100000 ssn_text)) = true
  /\ (notificationThrottleMs
      <= now_gate (world_at 100000 ssn_text) - lastNotificationTime initial)%Z
  /\ (analysisThrottleMs
      <= now_analysis (world_at 100000 ssn_text) - lastAnalysisTime initial)%Z
  /\ isAIWindow (detectAIWindow (activeWindow e2e_capture) []) = true
  /\ lastNotificationTime
       (snd (analyzeScreenCapture initial (world_at 100000 ssn_text) e2e_capture))
     = now_dispatch (world_at 100000 ssn_text).
Proof.
  apply analyzeScreenCapture_shows_only_when_allowed.
  vm_compute. discriminate.
Defined.

(** X18.  With prompt suggestions and learning tips switched off, as in the
    default preferences, a tick shows only the critical alert or the
    security warning, and only with its own switch on. *)
Theorem analyzeScreenCapture_shows_alerts_only_without_tips :
  forall (s : monitor) (w : world) (capture : ScreenCaptureResult),
    promptSuggestions (prefs w) = false ->
    learningTips (prefs w) = false ->
    forall n, In n (shown (fst (analyzeScreenCapture s w capture))) ->
      (n = critical_notification /\ criticalAlerts (prefs w) = true)
      \/ (n = security_notification /\ securityWarnings (prefs w) = true).
Proof.
  intros s w capture P L n H.
  destruct (analyzeScreenCapture_cases s w capture)
    as [(_ & E & _)|(_ & _ & [([E|E] & _)|(text & d & _ & _ & E & D)])];
    try (rewrite E in H; destruct H).
  rewrite E, !shown_app, shown_recordAnalysis in H. cbn [shown app] in H.
  destruct D as [(-> & _)|(-> & _)]; [destruct H|].
  destruct (handleAnalysisResults_shown s w
              (fst (analyzeContent (analyzer s) (now_content w) capture text)))
    as [_ [X|[(X & _ & C)|[(X & _ & C)|[(X & C & _)|(l & X & C & _)]]]]];
    rewrite X in H; simpl in H; try congruence; try (destruct H; fail).
  - destruct H as [<-|[]]. auto.
  - destruct H as [<-|[]]. auto.
Qed.

(** X18 at an instance: the critical alert under the default preferences. *)
Lemma analyzeScreenCapture_shows_alerts_only_without_tips_witness :
  forall_shown_are_alerts
    (shown (fst (analyzeScreenCapture initial (world_at 100000 ssn_text)
                   e2e_capture))) = true.
Proof.
  apply forallb_forall. intros n H.
  destruct (analyzeScreenCapture_shows_alerts_only_without_tips initial
              (world_at 100000 ssn_text) e2e_capture eq_refl eq_refl n H)
    as [[-> _]|[-> _]]; reflexivity.
Defined.

Lemma analyzeContent_tool st now capture text :
  aiToolDetected (fst (analyzeContent st now capture text))
  = detectAITool (activeWindow capture) text.
Proof.
  unfold analyzeContent. destruct (analyzeSensitiveData st text).
  reflexivity.
Qed.

Lemma analyzeContent_risk_has_tool st now capture text :
  is_high_or_critical (riskLevel (fst (analyzeContent st now capture text)))
  = true ->
  exists tool,
    aiToolDetected (fst (analyzeContent st now capture text)) = Some tool
    /\ In tool tool_keys.
Proof.
  intros H. rewrite analyzeContent_tool.
  destruct (detectAITool (activeWindow capture) text) as [t|] eqn:E.
  - exists t. split; [reflexivity|]. exact (detectAITool_In _ _ _ E).
  - exfalso. revert H. unfold analyzeContent.
    destruct (analyzeSensitiveData st text) as [sd st1].
    cbn [fst riskLevel]. rewrite E.
    destruct (detected sd); discriminate.
Qed.

Lemma In_alert_events r a :
  In (InsertAlert r) (alert_events a) ->
  r = riskLevel a /\ is_high_or_critical (riskLevel a) = true
  /\ alert_events a = [InsertAlert r].
Proof.
  unfold alert_events.
  destruct (is_high_or_critical (riskLevel a)); [|intros []].
  intros [H|[]]. inversion H. auto.
Qed.

Lemma In_handleAnalysisResults_alert s w a r :
  ~ In (InsertAlert r) (fst (handleAnalysisResults s w a)).
Proof.
  destruct (handleAnalysisResults_shown s w a) as [E _].
  rewrite E. intros H. apply in_map_iff in H.
  destruct H as (n & H & _). discriminate.
Qed.

(** X19.  An alert is inserted only for risk level high or critical, only after
    the usage insert of the same tick has resolved, and directly after it;
    the tool of that insert is a key of the tool table. *)
Theorem analyzeScreenCapture_alert_follows_usage :
  forall (s : monitor) (w : world) (capture : ScreenCaptureResult)
         (r : RiskLevel),
    let tr := fst (analyzeScreenCapture s w capture) in
    In (InsertAlert r) tr ->
    usage_insert_ok w = true
    /\ (r = high \/ r = critical)
    /\ exists tool before after,
         In tool tool_keys
         /\ tr = before ++ InsertUsage tool :: InsertAlert r :: after.
Proof.
  intros s w capture r tr H. subst tr.
  destruct (analyzeScreenCapture_cases s w capture)
    as [(_ & E & _)|(_ & _ & [([E|E] & _)|(text & d & _ & _ & E & D)])];
    try (rewrite E in H; simpl in H; intuition discriminate).
  rewrite E in *. clear E.
  set (a := fst (analyzeContent (analyzer s) (now_content w) capture text))
    in *.
  assert (Hd : ~ In (InsertAlert r) d).
  { destruct D as [(-> & _)|(-> & _)];
      [intros []|apply In_handleAnalysisResults_alert]. }
  apply in_app_or in H. destruct H as [H|H];
    [simpl in H; intuition discriminate|].
  apply in_app_or in H. destruct H as [H|H]; [|contradiction].
  assert (A : In (InsertAlert r) (alert_events a)
              /\ usage_insert_ok w = true
              /\ exists tool, In tool tool_keys
                   /\ recordAnalysis w a
                      = InsertUsage tool :: alert_events a).
  { unfold recordAnalysis in *.
    destruct (aiToolDetected a) as [t|] eqn:T.
    - assert (K : In t tool_keys).
      { unfold a in T. rewrite analyzeContent_tool in T.
        exact (detectAITool_In _ _ _ T). }
      assert (Tr : truthy (Some t) = true).
      { simpl in K.
        repeat (destruct K as [<-|K]; [reflexivity|]). destruct K. }
      rewrite Tr in *.
      destruct (usage_insert_ok w).
      + destruct H as [H|H]; [discriminate|]. eauto.
      + destruct H as [H|[]]. discriminate.
    - apply In_alert_events in H. destruct H as (_ & R & _).
      apply analyzeContent_risk_has_tool in R. destruct R as (t & R & _).
      fold a in R. congruence. }
  destruct A as (Ha & Ok & tool & K & R).
  apply In_alert_events in Ha. destruct Ha as (-> & Hr & Ea).
  split; [exact Ok|]. split.
  { destruct (riskLevel a); try discriminate; auto. }
  exists tool, [Classify (activeWindow capture) []; Ocr capture;
                Analyze capture text], d.
  split; [exact K|]. rewrite R, Ea. reflexivity.
Qed.

(** X19 at an instance: the critical alert of a social security number in a Claude tab. *)
Lemma analyzeScreenCapture_alert_follows_usage_witness :
  usage_insert_ok (world_at 100000 ssn_text) = true
  /\ (critical = high \/ critical = critical)
  /\ exists tool before after,
       In tool tool_keys
       /\ fst (analyzeScreenCapture initial (world_at 100000 ssn_text)
                 e2e_capture)
          = before ++ InsertUsage tool :: InsertAlert critical :: after.
Proof.
  apply (analyzeScreenCapture_alert_follows_usage initial
           (world_at 100000 ssn_text) e2e_capture critical).
  vm_compute. auto 10.
Defined.

(** X20.  After a tick that was not throttled, a tick less than 3 s later does
    nothing at all and leaves the state as it is. *)
Theorem analyzeScreenCapture_throttles_the_next_tick :
  forall (s : monitor) (w1 w2 : world) (c1 c2 : ScreenCaptureResult),
    (analysisThrottleMs <= now_analysis w1 - lastAnalysisTime s)%Z ->
    (now_analysis w2 - now_analysis w1 < analysisThrottleMs)%Z ->
    let s1 := snd (analyzeScreenCapture s w1 c1) in
    analyzeScreenCapture s1 w2 c2 = ([], s1).
Proof.
  intros s w1 w2 c1 c2 H1 H2 s1. subst s1.
  destruct (analyzeScreenCapture_cases s w1 c1)
    as [(T & _)|(_ & L & _)].
  - apply Z.ltb_lt in T. lia.
  - unfold analyzeScreenCapture at 1. rewrite L.
    apply Z.ltb_lt in H2. rewrite H2. reflexivity.
Qed.

(** X20 at an instance: a second tick 2999 ms after the first. *)
Lemma analyzeScreenCapture_throttles_the_next_tick_witness :
  analyzeScreenCapture
    (snd (analyzeScreenCapture initial (world_at 100000 ssn_text) e2e_capture))
    (world_at 102999 ssn_text) e2e_capture
  = ([], snd (analyzeScreenCapture initial (world_at 100000 ssn_text)
                e2e_capture)).
Proof.
  apply (analyzeScreenCapture_throttles_the_next_tick initial
           (world_at 100000 ssn_text) (world_at 102999 ssn_text)
           e2e_capture e2e_capture); vm_compute; congruence.
Defined.

(** X21.  After a tick that showed a notification, a tick whose gate is read
    less than 30 s after that dispatch shows none. *)
Theorem analyzeScreenCapture_spaces_notifications :
  forall (s : monitor) (w1 w2 : world) (c1 c2 : ScreenCaptureResult),
    shown (fst (analyzeScreenCapture s w1 c1)) <> [] ->
    (now_gate w2 - now_dispatch w1 < notificationThrottleMs)%Z ->
    shown (fst (analyzeScreenCapture (snd (analyzeScreenCapture s w1 c1))
                  w2 c2)) = [].
Proof.
  intros s w1 w2 c1 c2 H1 H2.
  assert (L : lastNotificationTime (snd (analyzeScreenCapture s w1 c1))
              = now_dispatch w1).
  { destruct (analyzeScreenCapture_cases s w1 c1)
      as [(_ & E & _)|(_ & _ & [([E|E] & _)|(text & d & _ & _ & E & D)])];
      try (rewrite E in H1; exfalso; apply H1; reflexivity).
    rewrite E, !shown_app, shown_recordAnalysis in H1. cbn [shown app] in H1.
    destruct D as [(-> & _)|(_ & St & _)];
      [exfalso; apply H1; reflexivity|exact St]. }
  set (s1 := snd (analyzeScreenCapture s w1 c1)) in *.
  destruct (analyzeScreenCapture_cases s1 w2 c2)
    as [(_ & E & _)|(_ & _ & [([E|E] & _)|(text & d & _ & _ & E & D)])];
    try (rewrite E; reflexivity).
  rewrite E, !shown_app, shown_recordAnalysis. cbn [shown app].
  destruct D as [(-> & _)|(_ & _ & _ & _ & Th)]; [reflexivity|].
  rewrite L in Th. lia.
Qed.

(** X21 at an instance: a second tick 29999 ms after a critical alert. *)
Lemma analyzeScreenCapture_spaces_notifications_witness :
  shown (fst (analyzeScreenCapture
                (snd (analyzeScreenCapture initial (world_at 100000 ssn_text)
                        e2e_capture))
                (world_at 129999 ssn_text) e2e_capture)) = [].
Proof.
  apply (analyzeScreenCapture_spaces_notifications initial
           (world_at 100000 ssn_text) (world_at 129999 ssn_text)
           e2e_capture e2e_capture); vm_compute; congruence.
Defined.

(* ================================================================== *)
(** ** Preferences, sessions and the content hash *)
(* ================================================================== *)

Lemma spread_as_object base x : spread base (as_object x) = x.
Proof. destruct x; reflexivity. Qed.

(** X22.  Reading the preferences after a successful save gives the earlier
    preferences with the saved fields replaced; saving the same fields
    again changes nothing; a save that the store rejects leaves the
    preferences as they were; and two saves compose field by field. *)
Theorem savePreferences_then_getPreferences :
  forall (store : stored) (p : PartialPreferences),
    let saved := savePreferences store true p in
    getPreferences saved = spread (getPreferences store) p
    /\ savePreferences saved true p = saved
    /\ getPreferences (savePreferences store false p) = getPreferences store
    /\ forall q, getPreferences (savePreferences saved true q)
                 = spread (spread (getPreferences store) p) q.
Proof.
  intros store p saved. subst saved. unfold savePreferences.
  cbn [getPreferences]. rewrite !spread_as_object.
  repeat split.
  - f_equal. f_equal.
    destruct p as [[e|] [c|] [sw|] [ps|] [lt|] [f|] [so|] [po|]]; reflexivity.
Qed.

(** X23.  shouldShowNotificationType answers true only with notifications
    enabled and for one of its four types; critical and security get the
    same answer (either switch allows both); and after saving
    [enabled: false] it answers false for every type. *)
Theorem shouldShowNotificationType_master_switch :
  forall (store : stored) (kind : NotificationKind),
    (shouldShowNotificationType store kind = true ->
     enabled (getPreferences store) = true /\ kind <> kind_other)
    /\ shouldShowNotificationType store kind_critical
       = shouldShowNotificationType store kind_security
    /\ (forall p, p_enabled p = Some false ->
          shouldShowNotificationType (savePreferences store true p) kind
          = false).
Proof.
  intros store kind. split; [|split].
  - unfold shouldShowNotificationType.
    destruct (enabled (getPreferences store)); [|discriminate].
    destruct kind; try discriminate; intros _; split; congruence.
  - reflexivity.
  - intros p H. unfold shouldShowNotificationType, savePreferences.
    cbn [getPreferences]. rewrite spread_as_object.
    unfold spread. rewrite H. reflexivity.
Qed.





(** The capture service leaves the orchestrator's fields and the table as
    they are. *)
Lemma startCapture_frame s :
  isActive (startCapture s) = isActive s
  /\ currentSessionId (startCapture s) = currentSessionId s
  /\ sessions (startCapture s) = sessions s
  /\ isCapturing (startCapture s) = true.
Proof. unfold startCapture. destruct (isCapturing s) eqn:E; auto. Qed.



(** start and stop on the orchestrator's fields, the flag and the table. *)
Lemma start_fields s a :
  let s1 := fst (start s a) in
  if isActive s then s1 = s
  else if db_ok a
  then isActive s1 = notify_ok a
       /\ currentSessionId s1 = Some (S (List.length (sessions s)))
       /\ sessions s1
          = sessions s
            ++ [mkSession (S (List.length (sessions s))) (at_time a) None]
       /\ isCapturing s1 = true
  else isActive s1 = false
       /\ currentSessionId s1 = currentSessionId s
       /\ sessions s1 = sessions s
       /\ isCapturing s1 = isCapturing s.
Proof.
  unfold start. destruct (isActive s); [reflexivity|].
  destruct (db_ok a); cbn [negb]; [|cbn; auto].
  destruct (startCapture_frame
              (startMonitoringSession (set_isActive true s) a))
    as (A & B & C & D).
  destruct (notify_ok a); cbn [fst];
    unfold set_isActive at 1;
    cbn [isActive currentSessionId sessions isCapturing];
    rewrite ?A, ?B, ?C, ?D; cbn; auto.
Qed.


















(** X26.  When the status broadcast throws in start, the service is marked
    inactive while the capture keeps running and the new session stays
    open; stop then returns at once and stops neither. *)
Theorem start_failed_broadcast_leaves_capture_running :
  forall (s : service) (a : answers),
    isActive s = false -> db_ok a = true -> notify_ok a = false ->
    let s1 := fst (start s a) in
    snd (start s a) = thrown
    /\ isActive s1 = false /\ isCapturing s1 = true
    /\ (exists r, In r (open_sessions s1)
                  /\ currentSessionId s1 = Some (session_id r))
    /\ forall a', stop s1 a' = (s1, returned).
Proof.
  intros s a Act D N s1.
  pose proof (start_fields s a) as F. cbv zeta in F.
  rewrite Act, D, N in F. fold s1 in F. destruct F as (F1 & F2 & F3 & F4).
  split.
  { unfold start. rewrite Act, D, N. reflexivity. }
  split; [exact F1|]. split; [exact F4|]. split.
  - exists (mkSession (S (List.length (sessions s))) (at_time a) None).
    split; [|exact F2].
    unfold open_sessions. rewrite F3. apply filter_In.
    split; [apply in_or_app; right; left|]; reflexivity.
  - intros a'. unfold stop. rewrite F1. reflexivity.
Qed.

(** X26 at an instance: the first start of the service. *)
Lemma start_failed_broadcast_leaves_capture_running_witness :
  snd (start stopped (broadcast_fails_at 10)) = thrown
  /\ isActive (fst (start stopped (broadcast_fails_at 10))) = false
  /\ isCapturing (fst (start stopped (broadcast_fails_at 10))) = true
  /\ (exists r,
        In r (open_sessions (fst (start stopped (broadcast_fails_at 10))))
        /\ currentSessionId (fst (start stopped (broadcast_fails_at 10)))
           = Some (session_id r))
  /\ forall a', stop (fst (start stopped (broadcast_fails_at 10))) a'
                = (fst (start stopped (broadcast_fails_at 10)), returned).
Proof.
  apply (start_failed_broadcast_leaves_capture_running stopped
           (broadcast_fails_at 10)); reflexivity.
Defined.

Lemma ToInt32_range z : (- 2 ^ 31 <= ToInt32 z < 2 ^ 31)%Z.
Proof.
  unfold ToInt32.
  pose proof (Z.mod_pos_bound (z + 2 ^ 31) (2 ^ 32) eq_refl). lia.
Qed.

Lemma ToInt32_small z : (- 2 ^ 31 <= z < 2 ^ 31)%Z -> ToInt32 z = z.
Proof.
  intros H. unfold ToInt32. rewrite Z.mod_small; lia.
Qed.

Lemma ToInt32_congr a b :
  ((a - b) mod 2 ^ 32 = 0)%Z -> ToInt32 a = ToInt32 b.
Proof.
  intros H. unfold ToInt32. f_equal.
  apply Z.mod_divide in H; [|lia]. destruct H as [k H].
  replace (a + 2 ^ 31)%Z with (b + 2 ^ 31 + k * 2 ^ 32)%Z by lia.
  apply Z.mod_add. lia.
Qed.

Lemma ToInt32_mod z : ((ToInt32 z - z) mod 2 ^ 32 = 0)%Z.
Proof.
  unfold ToInt32.
  pose proof (Z.div_mod (z + 2 ^ 31) (2 ^ 32)) as D.
  replace ((z + 2 ^ 31) mod 2 ^ 32 - 2 ^ 31 - z)%Z
    with (- ((z + 2 ^ 31) / 2 ^ 32) * 2 ^ 32)%Z by lia.
  apply Z.mod_mul. lia.
Qed.

Lemma hash_round_polynomial h p c :
  h = ToInt32 p -> hash_round h c = ToInt32 (31 * p + Z.of_N c).
Proof.
  intros ->. unfold hash_round. cbv zeta. rewrite Z.land_diag.
  rewrite (ToInt32_small (ToInt32 p)) by apply ToInt32_range.
  apply ToInt32_congr.
  pose proof (ToInt32_mod (ToInt32 p * 2 ^ 5)) as A.
  pose proof (ToInt32_mod p) as B.
  apply Z.mod_divide in A; [|lia]. apply Z.mod_divide in B; [|lia].
  destruct A as [k A]. destruct B as [j B].
  apply Z.mod_divide; [lia|]. exists (k + 31 * j)%Z. lia.
Qed.

Lemma fold_hash_round content :
  forall h p, h = ToInt32 p ->
    fold_left hash_round content h
    = ToInt32 (fold_left (fun h ch => (31 * h + Z.of_N ch)%Z) content p).
Proof.
  induction content as [|c content IH]; intros h p H; [exact H|].
  cbn [fold_left]. apply IH, hash_round_polynomial, H.
Qed.

Lemma content_hash_value_polynomial content :
  content_hash_value content = Z.abs (ToInt32 (polynomial31 content)).
Proof.
  unfold content_hash_value, polynomial31. f_equal.
  apply fold_hash_round. reflexivity.
Qed.

Lemma hex_digit_value d : (d < 16)%N -> hex_value (hex_digit d) = d.
Proof.
  intros H. unfold hex_value, hex_digit.
  destruct (d <? 10)%N eqn:E.
  - apply N.ltb_lt in E.
    replace (48 + d <? 58)%N with true by (symmetry; apply N.ltb_lt; lia).
    lia.
  - apply N.ltb_ge in E.
    replace (87 + d <? 58)%N with false by (symmetry; apply N.ltb_ge; lia).
    lia.
Qed.

Lemma hex_digit_is_hex d : (d < 16)%N -> is_hex_digit (hex_digit d) = true.
Proof.
  intros H. unfold is_hex_digit, hex_digit.
  destruct (d <? 10)%N eqn:E.
  - apply N.ltb_lt in E. apply orb_true_iff. left.
    apply andb_true_iff. split; apply N.leb_le; lia.
  - apply N.ltb_ge in E. apply orb_true_iff. right.
    apply andb_true_iff. split; apply N.leb_le; lia.
Qed.

Lemma hex_digits_spec fuel :
  forall n acc, fuel <> 0 -> (n < 16 ^ N.of_nat fuel)%N ->
  exists ds,
    hex_digits fuel n acc = ds ++ acc
    /\ ds <> []
    /\ (16 ^ N.of_nat (List.length ds) <= 16 * N.max 1 n)%N
    /\ forallb is_hex_digit ds = true
    /\ forall k, fold_left (fun n c => (16 * n + hex_value c)%N) ds k
                 = (k * 16 ^ N.of_nat (List.length ds) + n)%N.
Proof.
  induction fuel as [|fuel IH]; intros n acc F B; [congruence|].
  cbn [hex_digits].
  assert (M : (n mod 16 < 16)%N) by (apply N.mod_lt; lia).
  pose proof (N.div_mod n 16 ltac:(lia)) as DM.
  pose proof (N.le_0_l (n mod 16)) as M0.
  pose proof (N.le_0_l (n / 16)) as D0.
  destruct (n / 16 =? 0)%N eqn:Z.
  - apply N.eqb_eq in Z. exists [hex_digit (n mod 16)].
    split; [reflexivity|]. split; [discriminate|].
    split; [cbn [List.length]; change (16 ^ N.of_nat 1)%N with 16%N; lia|].
    split; [cbn [forallb]; rewrite hex_digit_is_hex by exact M; reflexivity|].
    intros k. cbn [fold_left List.length].
    rewrite hex_digit_value by exact M.
    change (16 ^ N.of_nat 1)%N with 16%N. lia.
  - apply N.eqb_neq in Z.
    assert (F' : fuel <> 0).
    { intros ->. change (16 ^ N.of_nat 1)%N with 16%N in B.
      apply Z. apply N.div_small. exact B. }
    assert (B' : (n / 16 < 16 ^ N.of_nat fuel)%N).
    { apply N.Div0.div_lt_upper_bound.
      rewrite Nat2N.inj_succ, N.pow_succ_r' in B. exact B. }
    destruct (IH (n / 16)%N (hex_digit (n mod 16) :: acc) F' B')
      as (ds & E & _ & L & H & V).
    exists (ds ++ [hex_digit (n mod 16)]).
    split; [rewrite E, <- app_assoc; reflexivity|].
    split; [destruct ds; discriminate|].
    rewrite length_app. cbn [List.length].
    replace (N.of_nat (List.length ds + 1))
      with (N.succ (N.of_nat (List.length ds))) by lia.
    rewrite N.pow_succ_r'.
    split.
    { rewrite (N.max_r 1 (n / 16)) in L by lia.
      rewrite (N.max_r 1 n) by lia.
      generalize dependent (16 ^ N.of_nat (List.length ds))%N.
      intros P; intros. lia. }
    split.
    { rewrite forallb_app, H. cbn [forallb].
      rewrite hex_digit_is_hex by exact M. reflexivity. }
    intros k. rewrite fold_left_app, V. cbn [fold_left].
    rewrite hex_digit_value by exact M. lia.
Qed.

Lemma toString16_spec n :
  exists ds,
    toString16 n = ds /\ ds <> []
    /\ (16 ^ N.of_nat (List.length ds) <= 16 * N.max 1 n)%N
    /\ forallb is_hex_digit ds = true
    /\ from_hex ds = n.
Proof.
  unfold toString16.
  destruct (hex_digits_spec (S (N.to_nat (N.log2 n))) n [])
    as (ds & E & N0 & L & H & V); [discriminate| |].
  - rewrite Nat2N.inj_succ, N2Nat.id.
    destruct (N.eq_dec n 0) as [->|P]; [reflexivity|].
    pose proof (N.log2_spec n ltac:(lia)) as [_ U].
    eapply N.lt_le_trans; [exact U|].
    apply N.pow_le_mono_l. lia.
  - rewrite app_nil_r in E. exists ds. repeat split; auto.
    unfold from_hex. rewrite V. lia.
Qed.

(** X27.  generateContentHash is the hexadecimal numeral, of one to eight
    digits 0-9a-f, of the absolute value of the polynomial hash
    31^(n-1) c1 + ... + cn wrapped to a signed 32-bit integer. *)
Theorem generateContentHash_is_hex_of_polynomial :
  forall content : jsstring,
    let text := generateContentHash content in
    from_hex text = Z.to_N (Z.abs (ToInt32 (polynomial31 content)))
    /\ forallb is_hex_digit text = true
    /\ 1 <= List.length text <= 8.
Proof.
  intros content text. subst text. unfold generateContentHash.
  rewrite content_hash_value_polynomial.
  pose proof (ToInt32_range (polynomial31 content)) as R.
  set (v := Z.to_N (Z.abs (ToInt32 (polynomial31 content)))).
  assert (B : (v <= 2 ^ 31)%N) by (unfold v; lia).
  destruct (toString16_spec v) as (ds & -> & N0 & L & H & V).
  split; [exact V|]. split; [exact H|].
  split; [destruct ds; [congruence|cbn [List.length]; lia]|].
  destruct (le_lt_dec (List.length ds) 8) as [G|G]; [exact G|exfalso].
  assert (P : (16 ^ 9 <= 16 ^ N.of_nat (List.length ds))%N)
    by (apply N.pow_le_mono_r; lia).
  assert (Q : (16 * N.max 1 v <= 16 * 2 ^ 31)%N) by lia.
  assert (C : (16 * 2 ^ 31 < 16 ^ 9)%N) by reflexivity.
  lia.
Qed.

Lemma polynomial31_from x :
  forall p,
    fold_left (fun h ch => (31 * h + Z.of_N ch)%Z) x p
    = (31 ^ Z.of_nat (List.length x) * p + polynomial31 x)%Z.
Proof.
  unfold polynomial31. induction x as [|c x IH]; intros p.
  - cbn [fold_left List.length]. change (31 ^ Z.of_nat 0)%Z with 1%Z. lia.
  - cbn [fold_left List.length]. rewrite IH, (IH (31 * 0 + Z.of_N c)%Z).
    rewrite Nat2Z.inj_succ, Z.pow_succ_r by lia. lia.
Qed.

(** X28.  generateContentHash does not tell two texts apart that differ in a
    part of equal length and equal polynomial value. *)
Theorem generateContentHash_collides :
  forall before x y after : jsstring,
    List.length x = List.length y ->
    polynomial31 x = polynomial31 y ->
    generateContentHash (before ++ x ++ after)
    = generateContentHash (before ++ y ++ after).
Proof.
  intros before x y after L P. unfold generateContentHash.
  rewrite !content_hash_value_polynomial.
  assert (E : polynomial31 (before ++ x ++ after)
              = polynomial31 (before ++ y ++ after)).
  { unfold polynomial31 at 1 2. rewrite !fold_left_app. f_equal.
    rewrite (polynomial31_from x), (polynomial31_from y), P.
    do 3 f_equal. exact (f_equal Z.of_nat L). }
  rewrite E. reflexivity.
Qed.

(** X28 at an instance: Aa and BB inside the same text. *)
Lemma generateContentHash_collides_witness :
  generateContentHash (lit "key " ++ lit "Aa" ++ lit " end")
  = generateContentHash (lit "key " ++ lit "BB" ++ lit " end").
Proof.
  apply (generateContentHash_collides (lit "key ") (lit "Aa") (lit "BB")
           (lit " end")); reflexivity.
Defined.

(* ================================================================== *)
(** ** The window scanner and the text extraction *)
(* ================================================================== *)

Lemma first_pattern_In ps w t :
  first_pattern ps w = Some t ->
  exists p, In p ps /\ t = mapUrlToTool (lit p).
Proof.
  induction ps as [|p ps IH]; simpl; [discriminate|].
  destruct (includes w (lit p)).
  - intros H; inversion H. eauto.
  - intros H. destruct (IH H) as (q & Hq & E). eauto.
Qed.

Lemma identifyAITool_known w t :
  identifyAITool w = Some t -> In t knownAITools.
Proof.
  unfold identifyAITool.
  destruct (first_known knownAITools w) as [t0|] eqn:K.
  - intros H; inversion H; subst.
    apply first_known_Some in K. tauto.
  - intros H. apply first_pattern_In in H. destruct H as (p & Hp & ->).
    simpl in Hp.
    repeat (destruct Hp as [<-|Hp]; [vm_compute; tauto|]). destruct Hp.
Qed.

(** X29.  analyzeWindow answers null exactly when identifyAITool finds nothing
    in the lower-cased window name; otherwise the tool is one of the known
    tools, itself recognized as a window name, and the usage type is never
    conversation, the content analysis being a stub. *)
Theorem analyzeWindow_reports_a_known_tool :
  forall name : jsstring,
    (analyzeWindow name = None <-> identifyAITool (toLowerCase name) = None)
    /\ forall tool type,
         analyzeWindow name = Some (tool, type) ->
         In tool knownAITools /\ type <> conversation
         /\ analyzeWindow (lit tool) <> None.
Proof.
  intros name. unfold analyzeWindow. cbv zeta.
  destruct (identifyAITool (toLowerCase name)) as [t|] eqn:I.
  2:{ split; [tauto|]. intros tool type H. discriminate H. }
  pose proof (identifyAITool_known _ _ I) as K.
  assert (T : truthy (Some t) = true /\ analyzeWindow (lit t) <> None).
  { simpl in K.
    repeat (destruct K as [<-|K]; [split; vm_compute; congruence|]).
    destruct K. }
  destruct T as [T W]. rewrite T. cbn [negb].
  split; [split; intros H; discriminate H|].
  intros tool type H. inversion H; subst tool type; clear H.
  split; [exact K|]. split; [|exact W].
  unfold determineUsageType, stub_hasUserInput. cbn [andb].
  repeat match goal with
         | |- context [if ?b then _ else _] => destruct b
         end; discriminate.
Qed.

(** Rounding moves a quotient up by at most half a unit. *)
Lemma round_half_even_bounds p s :
  (0 <= p)%Z -> (1 <= s)%Z ->
  (0 <= round_half_even p s
   /\ round_half_even p s * 2 ^ s <= p + 2 ^ (s - 1))%Z.
Proof.
  intros P S. unfold round_half_even. cbv zeta.
  assert (W : (0 < 2 ^ s)%Z) by (apply Z.pow_pos_nonneg; lia).
  assert (H : (2 ^ s = 2 * 2 ^ (s - 1))%Z).
  { rewrite <- Z.pow_succ_r by lia. f_equal. lia. }
  pose proof (Z.div_mod p (2 ^ s) ltac:(lia)) as D.
  pose proof (Z.mod_pos_bound p (2 ^ s) W) as M.
  pose proof (Z.div_pos p (2 ^ s) P W) as Q.
  destruct (2 * (p mod 2 ^ s) ?= 2 ^ s)%Z eqn:C.
  - apply Z.compare_eq in C.
    destruct (Z.even (p / 2 ^ s)); split; nia.
  - split; nia.
  - apply Z.compare_gt_iff in C. split; nia.
Qed.

(** The product of a draw and a length, rounded, stays below the
    length. *)
Lemma floor_times_integer d n :
  in_unit_interval d = true -> (1 <= n)%Z ->
  (0 <= floor (times_integer d n) < n)%Z.
Proof.
  unfold in_unit_interval. intros H N.
  apply andb_true_iff in H. destruct H as [H H3].
  apply andb_true_iff in H. destruct H as [H H2].
  apply andb_true_iff in H. destruct H as [H H1].
  apply andb_true_iff in H. destruct H as [H H0].
  apply Z.leb_le in H, H1. apply Z.ltb_lt in H0, H2, H3.
  destruct d as [m e]. cbn [mantissa exponent] in *.
  set (E := (- e)%Z) in *.
  assert (EE : (e = - E)%Z) by (subst E; lia).
  assert (E0 : (0 < E)%Z) by lia.
  assert (WE : (0 < 2 ^ E)%Z) by (apply Z.pow_pos_nonneg; lia).
  unfold times_integer. cbn [mantissa exponent].
  destruct (m * n <? 2 ^ 53)%Z eqn:C.
  - unfold floor. cbn [mantissa exponent].
    replace (0 <=? e)%Z with false by (symmetry; apply Z.leb_gt; lia).
    fold E. split.
    + apply Z.div_pos; nia.
    + apply Z.div_lt_upper_bound; nia.
  - apply Z.ltb_ge in C.
    set (p := (m * n)%Z) in *.
    set (s := (Z.log2 p - 52)%Z).
    assert (P0 : (0 < p)%Z) by lia.
    pose proof (Z.log2_spec p P0) as [L1 L2].
    assert (S1 : (1 <= s)%Z).
    { subst s. assert (53 <= Z.log2 p)%Z; [|lia].
      apply Z.log2_le_pow2; lia. }
    destruct (round_half_even_bounds p s ltac:(lia) S1) as [R0 R1].
    assert (HS : (2 ^ Z.log2 p = 2 ^ (s - 1) * 2 ^ 53)%Z).
    { rewrite <- Z.pow_add_r by lia. f_equal. subst s. lia. }
    assert (WS1 : (0 < 2 ^ (s - 1))%Z) by (apply Z.pow_pos_nonneg; lia).
    assert (WS : (2 ^ s = 2 * 2 ^ (s - 1))%Z).
    { rewrite <- Z.pow_succ_r by lia. f_equal. lia. }
    (* the rounded product is below [n * 2^E] *)
    assert (G : (round_half_even p s * 2 ^ s < n * 2 ^ E)%Z).
    { eapply Z.le_lt_trans; [exact R1|].
      destruct (Z_lt_le_dec E 53) as [Lt|Ge].
      - assert (2 ^ E < 2 ^ 53)%Z by (apply Z.pow_lt_mono_r; lia).
        assert (2 ^ (s - 1) < n)%Z by nia.
        subst p. nia.
      - assert (X : (2 ^ E = 2 ^ (E - 53) * 2 ^ 53)%Z).
        { rewrite <- Z.pow_add_r by lia. f_equal. lia. }
        assert (WX : (0 < 2 ^ (E - 53))%Z) by (apply Z.pow_pos_nonneg; lia).
        assert (2 ^ (s - 1) < n * 2 ^ (E - 53))%Z by nia.
        assert (m <= 2 ^ E - 2 ^ (E - 53))%Z by nia.
        subst p. nia. }
    unfold floor. cbn [mantissa exponent].
    destruct (0 <=? e + s)%Z eqn:F.
    + apply Z.leb_le in F.
      assert (X : (2 ^ s = 2 ^ (e + s) * 2 ^ E)%Z).
      { rewrite <- Z.pow_add_r by lia. f_equal. lia. }
      assert (0 < 2 ^ (e + s))%Z by (apply Z.pow_pos_nonneg; lia).
      split; [nia|]. rewrite X in G. nia.
    + apply Z.leb_gt in F.
      assert (X : (2 ^ E = 2 ^ (- (e + s)) * 2 ^ s)%Z).
      { rewrite <- Z.pow_add_r by lia. f_equal. lia. }
      assert (0 < 2 ^ (- (e + s)))%Z by (apply Z.pow_pos_nonneg; lia).
      assert (0 < 2 ^ s)%Z by lia.
      split; [apply Z.div_pos; lia|].
      apply Z.div_lt_upper_bound; [lia|]. rewrite X in G. nia.
Qed.

Lemma pick_in_range l random :
  l <> [] -> in_unit_interval random = true ->
  exists text, pick l random = Some text /\ In text l.
Proof.
  intros N U. unfold pick.
  assert (P : (1 <= Z.of_nat (List.length l))%Z)
    by (destruct l; [congruence|simpl; lia]).
  pose proof (floor_times_integer random _ U P) as [F0 F1].
  destruct (floor (times_integer random (Z.of_nat (List.length l))))
    as [|k|k] eqn:E; try lia.
  - destruct l as [|a l]; [congruence|]. exists a. simpl. auto.
  - destruct (nth_error l (Z.to_nat (Z.pos k))) as [text|] eqn:X.
    + exists text. split; [reflexivity|]. eapply nth_error_In, X.
    + apply nth_error_None in X. lia.
Qed.

Lemma extractText_cases capture random :
  in_unit_interval random = true ->
  exists text, extractText capture random = Some text
               /\ In text (scenarios ++ defaultScenarios).
Proof.
  intros U. unfold extractText, getMockTextForWindow. cbv zeta.
  match goal with
  | |- context [if ?b then _ else _] => destruct b
  end.
  - destruct (pick_in_range scenarios random) as (t & E & I);
      [discriminate|exact U|].
    exists t. split; [exact E|]. apply in_or_app. auto.
  - destruct (pick_in_range defaultScenarios random) as (t & E & I);
      [discriminate|exact U|].
    exists t. split; [exact E|]. apply in_or_app. auto.
Qed.

Lemma scenarios_not_blank text :
  In text (scenarios ++ defaultScenarios) ->
  ((List.length text =? 0)%nat || (List.length (trim text) =? 0)%nat) = false.
Proof.
  intros H. simpl in H.
  repeat (destruct H as [<-|H]; [vm_compute; reflexivity|]). destruct H.
Qed.

(** X30.  For every draw of Math.random, a binary64 number that is at
    least 0 and less than 1, the index that extractText computes, the
    floor of the rounded product of the draw and the number of scenarios,
    is within the scenarios; so its text is one of the sixteen scenario
    texts, none of them blank, and with this text extraction a tick on an
    AI window that is not throttled always reaches the content
    analysis. *)
Theorem extractText_is_never_blank :
  forall (s : monitor) (w : world) (capture : ScreenCaptureResult)
         (random : binary64),
    in_unit_interval random = true ->
    ocr_text w = extractText capture random ->
    (analysisThrottleMs <= now_analysis w - lastAnalysisTime s)%Z ->
    isAIWindow (detectAIWindow (activeWindow capture) []) = true ->
    exists text,
      In text (scenarios ++ defaultScenarios)
      /\ trim text <> []
      /\ In (Analyze capture text) (fst (analyzeScreenCapture s w capture)).
Proof.
  intros s w capture random U O T AI.
  destruct (extractText_cases capture random U) as (text & E & I).
  pose proof (scenarios_not_blank text I) as B.
  exists text. split; [exact I|]. split.
  { intros N. rewrite N in B. rewrite orb_true_r in B. discriminate. }
  unfold analyzeScreenCapture.
  apply Z.ltb_ge in T. rewrite T, AI. cbn [negb].
  rewrite O, E, B.
  destruct (analyzeContent _ _ capture text) as [a st].
  match goal with
  | |- context [if ?b then _ else _] => destruct b
  end.
  - destruct (handleAnalysisResults _ w a) as [d s1]. cbn [fst].
    simpl. auto.
  - simpl. auto.
Qed.

(** X30 at an instance: the draw 0.5454545454545454 in a Claude tab, whose
    product with 11 is rounded to 6 and selects the seventh scenario. *)
Lemma extractText_is_never_blank_witness :
  extractText e2e_capture draw_6_of_11 = Some (lit "make it work claude")
  /\ exists text,
       In text (scenarios ++ defaultScenarios)
       /\ trim text <> []
       /\ In (Analyze e2e_capture text)
            (fst (analyzeScreenCapture initial
                    (world_at 100000 (lit "make it work claude"))
                    e2e_capture)).
Proof.
  split; [vm_compute; reflexivity|].
  apply (extractText_is_never_blank initial
           (world_at 100000 (lit "make it work claude")) e2e_capture
           draw_6_of_11).
  - reflexivity.
  - vm_compute. reflexivity.
  - vm_compute. discriminate.
  - reflexivity.
Defined.
